(** * byomEds: ALM course pages for Edge Delivery Services

    A shallow embedding of the JavaScript sources of the repository and the
    properties of its specification that were checked against them.

    - [Str], [Js]: the fragment of the JavaScript string and value semantics
      the sources use (truthiness, strict equality, property access, string
      and number conversion).
    - [Helpers]: `actions/demo/course-viewer/helpers.js`.
    - [HelpersApi]: the extractors, the API client and the templates of the
      same helpers module.
    - [CourseViewer], [Html], [Action]: `actions/demo/course-viewer/index.js`,
      that is the normalizer, the HTML assembler, and the API client, the
      cache publisher and `main`.
    - [Dom], [CourseInfo]: the browser and `blocks/course-info/course-info.js`.
    - [AlmAuth], [Web], [AuthFlow]: `scripts/alm-auth.js`, that is the token
      store, the page the script runs in, and the OAuth flows, which run in
      the monad [Script].
    - [Spec]: the notions the specification speaks of, for comparison.

    Conventions. JavaScript strings are modelled by byte strings (the sources
    only compare, concatenate and scan for ASCII characters). JavaScript
    numbers are modelled by the integers, extended with NaN and the two
    infinities where arithmetic is done; fractional values and integers
    beyond the exactly representable range are outside the model. Code that
    can throw returns in [Exc]; code that logs, fetches, draws random
    numbers or reads the clock runs in the monad [M]. *)

From Stdlib Require Import ZArith QArith Strings.String Strings.Ascii Lists.List DecimalString DecimalPos Bool Lia.
From stdpp Require Import base gmap strings list.
Import ListNotations.

Set Warnings "-register-all".
Local Open Scope Z_scope.

(* ===================================================================== *)
(** * Strings *)
(* ===================================================================== *)

Module Str.

(** The double quote and the line feed, as one-character strings. *)
Definition dqChar : ascii := Ascii false true false false false true false false.
Definition dq : string := String dqChar EmptyString.
Definition nl : string := String (Ascii false true false true false false false false) EmptyString.

(** [q s] is [s] between double quotes. *)
Definition q (s : string) : string := dq +:+ s +:+ dq.

Definition ofZ (z : Z) : string := NilEmpty.string_of_int (Z.to_int z).

(** `s.startsWith(p)` *)
Fixpoint startsWith (p s : string) : bool :=
  match p, s with
  | EmptyString, _ => true
  | String a p', String b s' => if Ascii.eqb a b then startsWith p' s' else false
  | String _ _, EmptyString => false
  end.

(** `s.includes(p)` *)
Fixpoint includes (p s : string) : bool :=
  if startsWith p s then true
  else match s with
       | EmptyString => false
       | String _ s' => includes p s'
       end.

(** `s.split(c)` for a one-character separator [c]. *)
Fixpoint split (c : ascii) (s : string) : list string :=
  match s with
  | EmptyString => [EmptyString]
  | String a s' =>
      if Ascii.eqb a c then EmptyString :: split c s'
      else match split c s' with
           | [] => [String a EmptyString]
           | w :: ws => String a w :: ws
           end
  end.

(** `s.replace(a, b)` for one-character strings: the first occurrence. *)
Fixpoint replaceFirst (a b : ascii) (s : string) : string :=
  match s with
  | EmptyString => EmptyString
  | String c s' => if Ascii.eqb c a then String b s' else String c (replaceFirst a b s')
  end.

Definition isUpper (c : ascii) : bool :=
  let n := nat_of_ascii c in (Nat.leb 65 n && Nat.leb n 90)%bool.

(** `s.toLowerCase()` on the ASCII letters. No character outside ASCII
    lower-cases to a letter of 'self-paced', the only string the sources
    compare a lower-cased value with. *)
Fixpoint toLowerCase (s : string) : string :=
  match s with
  | EmptyString => EmptyString
  | String c s' =>
      String (if isUpper c then ascii_of_nat (nat_of_ascii c + 32) else c) (toLowerCase s')
  end.

Definition isDigit (c : ascii) : bool :=
  let n := nat_of_ascii c in (Nat.leb 48 n && Nat.leb n 57)%bool.

Fixpoint digitsValue (acc : nat) (s : string) : option nat :=
  match s with
  | EmptyString => Some acc
  | String c s' =>
      if isDigit c then digitsValue (10 * acc + (nat_of_ascii c - 48))%nat s' else None
  end.

(** A property key that is an array index: a canonical decimal numeral. *)
Definition arrayIndex (key : string) : option nat :=
  match key with
  | EmptyString => None
  | _ => match digitsValue 0 key with
         | Some n => if String.eqb (ofZ (Z.of_nat n)) key then Some n else None
         | None => None
         end
  end.

Fixpoint nthChar (n : nat) (s : string) : option ascii :=
  match s, n with
  | EmptyString, _ => None
  | String c _, O => Some c
  | String _ s', S n' => nthChar n' s'
  end.

End Str.

(* ===================================================================== *)
(** * JavaScript values *)
(* ===================================================================== *)

(** Values as `JSON.parse` builds them, with `undefined` added. An object is
    the list of its own enumerable properties in insertion order, each key
    once. *)
Inductive JsVal : Type :=
| JUndef
| JNull
| JBool (b : bool)
| JNum (n : Z)
| JStr (s : string)
| JArr (xs : list JsVal)
| JObj (fields : list (string * JsVal)).

(** Results of arithmetic. *)
Inductive JsNum : Type :=
| Fin (z : Z)
| NaN
| PInf
| NInf.

(** Completion of an evaluation: a value, or a thrown exception carrying
    its message. *)
Inductive Exc (A : Type) : Type :=
| Ret (a : A)
| Throw (msg : string).
Arguments Ret {A} a.
Arguments Throw {A} msg.

(** The builtins of the engine that are used but not re-implemented here. *)
Record Engine : Type := {
  stringToNumber : string -> JsNum;          (* ToNumber on a string *)
  jsonParse : string -> option JsVal;        (* JSON.parse, None when it throws *)
  jsonStringify : JsVal -> string;           (* JSON.stringify *)
  parseInt : string -> option Z              (* parseInt(s), None for NaN *)
}.

Module Js.
Import Str.

(** ToBoolean *)
Definition truthy (v : JsVal) : bool :=
  match v with
  | JUndef | JNull => false
  | JBool b => b
  | JNum n => negb (n =? 0)
  | JStr s => negb (String.eqb s "")
  | JArr _ | JObj _ => true
  end.

(** `a || b` and `a && b` *)
Definition or (a b : JsVal) : JsVal := if truthy a then a else b.
Definition and (a b : JsVal) : JsVal := if truthy a then b else a.

(** `a === b`. Arrays and objects are compared by identity; two values
    read from different places of a parsed document are never identical. *)
Definition strictEq (a b : JsVal) : bool :=
  match a, b with
  | JUndef, JUndef => true
  | JNull, JNull => true
  | JBool x, JBool y => Bool.eqb x y
  | JNum x, JNum y => x =? y
  | JStr x, JStr y => String.eqb x y
  | _, _ => false
  end.

Definition isUndef (v : JsVal) : bool :=
  match v with JUndef => true | _ => false end.

Definition isString (v : JsVal) : bool :=
  match v with JStr _ => true | _ => false end.

Definition isArray (v : JsVal) : bool :=
  match v with JArr _ => true | _ => false end.

(** `typeof v === 'object'` (which holds of null too) *)
Definition isObjectType (v : JsVal) : bool :=
  match v with JNull | JArr _ | JObj _ => true | _ => false end.

Fixpoint assoc (key : string) (fields : list (string * JsVal)) : JsVal :=
  match fields with
  | [] => JUndef
  | (k, v) :: rest => if String.eqb k key then v else assoc key rest
  end.

(** `v[key]` for a [v] that is neither null nor undefined: own properties
    of objects, elements and length of arrays and strings. Inherited
    members (methods) are not values of this model and read as undefined. *)
Definition getProp (v : JsVal) (key : string) : JsVal :=
  match v with
  | JObj fields => assoc key fields
  | JArr xs =>
      if String.eqb key "length" then JNum (Z.of_nat (List.length xs))
      else match arrayIndex key with
           | Some i => nth i xs JUndef
           | None => JUndef
           end
  | JStr s =>
      if String.eqb key "length" then JNum (Z.of_nat (String.length s))
      else match arrayIndex key with
           | Some i => match nthChar i s with
                       | Some c => JStr (String c EmptyString)
                       | None => JUndef
                       end
           | None => JUndef
           end
  | _ => JUndef
  end.

(** `v.key`, which throws a TypeError on null and undefined. *)
Definition prop (v : JsVal) (key : string) : Exc JsVal :=
  match v with
  | JUndef | JNull => Throw "TypeError: cannot read properties of null or undefined"
  | _ => Ret (getProp v key)
  end.

(** `v?.key` *)
Definition optProp (v : JsVal) (key : string) : JsVal :=
  match v with
  | JUndef | JNull => JUndef
  | _ => getProp v key
  end.

(** ToString, as applied by template literals and by `join`. *)
Fixpoint toStr (v : JsVal) : string :=
  match v with
  | JUndef => "undefined"
  | JNull => "null"
  | JBool true => "true"
  | JBool false => "false"
  | JNum n => ofZ n
  | JStr s => s
  | JArr xs =>
      String.concat ","
        (List.map (fun x => match x with
                            | JUndef | JNull => EmptyString
                            | _ => toStr x
                            end) xs)
  | JObj _ => "[object Object]"
  end.

(** `xs.join(sep)` *)
Definition join (sep : string) (xs : list JsVal) : string :=
  String.concat sep
    (List.map (fun x => match x with
                        | JUndef | JNull => EmptyString
                        | _ => toStr x
                        end) xs).

(** ToNumber *)
Definition toNumber (E : Engine) (v : JsVal) : JsNum :=
  match v with
  | JUndef => NaN
  | JNull => Fin 0
  | JBool true => Fin 1
  | JBool false => Fin 0
  | JNum n => Fin n
  | JStr s => stringToNumber E s
  | JArr _ => stringToNumber E (toStr v)
  | JObj _ => NaN
  end.

(** `Math.floor(x / d)` for a positive integer constant [d] *)
Definition floorDiv (x : JsNum) (d : Z) : JsNum :=
  match x with
  | Fin z => Fin (z / d)
  | other => other
  end.

(** `x % d` for a positive integer constant [d]: the remainder has the
    sign of the dividend *)
Definition remainder (x : JsNum) (d : Z) : JsNum :=
  match x with
  | Fin z => Fin (Z.rem z d)
  | _ => NaN
  end.

(** `x > 0` *)
Definition positive (x : JsNum) : bool :=
  match x with
  | Fin z => 0 <? z
  | PInf => true
  | NaN | NInf => false
  end.

Definition numToStr (x : JsNum) : string :=
  match x with
  | Fin z => ofZ z
  | NaN => "NaN"
  | PInf => "Infinity"
  | NInf => "-Infinity"
  end.

End Js.

(* ===================================================================== *)
(** * helpers.js *)
(* ===================================================================== *)

Module Helpers.
Import Str.

(** [[
    const safeGet = (obj, path, defaultValue = '') => {
      return path.split('.').reduce((current, key) => {
        return current && current[key] !== undefined ? current[key] : defaultValue;
      }, obj);
    };
    ]] *)
Definition safeGetStep (defaultValue current : JsVal) (key : string) : JsVal :=
  if (Js.truthy current && negb (Js.isUndef (Js.getProp current key)))%bool
  then Js.getProp current key
  else defaultValue.

Definition safeGet (obj : JsVal) (path : string) (defaultValue : JsVal) : JsVal :=
  fold_left (safeGetStep defaultValue) (split "." path) obj.

(** [[
    function formatDuration(seconds) {
      if (!seconds) return 'N/A';
      const hours = Math.floor(seconds / 3600);
      const minutes = Math.floor((seconds % 3600) / 60);
      if (hours > 0) return `${hours}h ${minutes}m`;
      return `${minutes}m`;
    }
    ]] *)
Definition formatDuration (E : Engine) (seconds : JsVal) : string :=
  if negb (Js.truthy seconds) then "N/A"
  else
    let n := Js.toNumber E seconds in
    let hours := Js.floorDiv n 3600 in
    let minutes := Js.floorDiv (Js.remainder n 3600) 60 in
    if Js.positive hours
    then Js.numToStr hours +:+ "h " +:+ Js.numToStr minutes +:+ "m"
    else Js.numToStr minutes +:+ "m".

End Helpers.

(* ===================================================================== *)
(** * Exceptions and effects *)
(* ===================================================================== *)

Definition bindE {A B : Type} (e : Exc A) (k : A -> Exc B) : Exc B :=
  match e with
  | Ret a => k a
  | Throw msg => Throw msg
  end.

Notation "'let?' x ':=' e 'in' k" := (bindE e (fun x => k))
  (at level 10, x name, e at level 100, k at level 200).

Module ExcOps.

(** The array methods (`forEach`, `find`, `filter`, `map`) exist on arrays
    only; calling one on anything else throws a TypeError. *)
Definition asArray (v : JsVal) : Exc (list JsVal) :=
  match v with
  | JArr xs => Ret xs
  | _ => Throw "TypeError: not a function"
  end.

(** `s.toLowerCase()`, `s.split(..)`, `s.startsWith(..)`, `s.includes(..)`
    exist on strings (the last one on arrays too, which the sources never
    rely on). *)
Definition asString (v : JsVal) : Exc string :=
  match v with
  | JStr s => Ret s
  | _ => Throw "TypeError: not a function"
  end.

(** `xs.find(p)`: the first element [p] holds of, undefined when none;
    an exception in [p] ends the search. *)
Fixpoint find (p : JsVal -> Exc bool) (xs : list JsVal) : Exc JsVal :=
  match xs with
  | [] => Ret JUndef
  | x :: rest =>
      let? b := p x in
      if b then Ret x else find p rest
  end.

(** `xs.filter(p)` *)
Fixpoint filter (p : JsVal -> Exc bool) (xs : list JsVal) : Exc (list JsVal) :=
  match xs with
  | [] => Ret []
  | x :: rest =>
      let? b := p x in
      let? ys := filter p rest in
      Ret (if b then x :: ys else ys)
  end.

(** `xs.forEach(x => ...)` where the body pushes onto an accumulator *)
Fixpoint forEach {B : Type} (f : B -> JsVal -> Exc B) (xs : list JsVal) (acc : B) : Exc B :=
  match xs with
  | [] => Ret acc
  | x :: rest =>
      let? acc' := f acc x in
      forEach f rest acc'
  end.

(** `xs.map(f)` *)
Fixpoint map {B : Type} (f : JsVal -> Exc B) (xs : list JsVal) : Exc (list B) :=
  match xs with
  | [] => Ret []
  | x :: rest =>
      let? y := f x in
      let? ys := map f rest in
      Ret (y :: ys)
  end.

End ExcOps.

Inductive LogLevel : Type := LDebug | LInfo | LWarn | LError.

Record Request : Type := {
  req_method : string;
  req_url : string;
  req_headers : list (string * string);
  req_body : option string
}.

(** What the sources read of a `fetch` response. [res_json] is None when
    `response.json()` throws. *)
Record FetchResponse : Type := {
  res_ok : bool;
  res_status : Z;
  res_statusText : string;
  res_text : string;
  res_json : option JsVal
}.

Inductive FetchResult : Type :=
| NetworkError (msg : string)
| Responded (r : FetchResponse).

(** The environment of one invocation: the successive results of
    `Math.random()`, the successive readings of `new Date().toISOString()`
    and the answer of the network to the n-th request. *)
Record World : Type := {
  random : nat -> Q;
  clock : nat -> string;
  network : nat -> Request -> FetchResult
}.

(** What an invocation has done so far. A log entry keeps the level and the
    message (first argument of the logger call); further arguments, which
    the logger serialises, are not kept. *)
Record St : Type := {
  draws : nat;
  ticks : nat;
  sent : list Request;
  logged : list (LogLevel * string)
}.

Definition M (A : Type) : Type := World -> St -> Exc A * St.

Definition retM {A : Type} (a : A) : M A := fun _ s => (Ret a, s).

Definition throwM {A : Type} (msg : string) : M A := fun _ s => (Throw msg, s).

Definition bindM {A B : Type} (m : M A) (k : A -> M B) : M B :=
  fun w s =>
    match m w s with
    | (Ret a, s') => k a w s'
    | (Throw msg, s') => (Throw msg, s')
    end.

Definition liftE {A : Type} (e : Exc A) : M A := fun _ s => (e, s).

(** `try { m } catch (error) { handler(error) }` *)
Definition tryCatch {A : Type} (m : M A) (handler : string -> M A) : M A :=
  fun w s =>
    match m w s with
    | (Ret a, s') => (Ret a, s')
    | (Throw msg, s') => handler msg w s'
    end.

Notation "'let*' x ':=' m 'in' k" := (bindM m (fun x => k))
  (at level 10, x name, m at level 100, k at level 200).
Notation "m '>>' k" := (bindM m (fun _ => k))
  (at level 100, k at level 200, right associativity).

Module Eff.

Definition log (lvl : LogLevel) (msg : string) : M unit :=
  fun _ s =>
    (Ret tt, {| draws := draws s; ticks := ticks s; sent := sent s;
                logged := logged s ++ [(lvl, msg)] |}).

(** `Math.random()` *)
Definition mathRandom : M Q :=
  fun w s =>
    (Ret (random w (draws s)),
     {| draws := S (draws s); ticks := ticks s; sent := sent s; logged := logged s |}).

(** `new Date().toISOString()` *)
Definition nowISO : M string :=
  fun w s =>
    (Ret (clock w (ticks s)),
     {| draws := draws s; ticks := S (ticks s); sent := sent s; logged := logged s |}).

(** `await fetch(url, options)`: the request is recorded; a network
    failure rejects. *)
Definition fetch (r : Request) : M FetchResponse :=
  fun w s =>
    let s' := {| draws := draws s; ticks := ticks s; sent := sent s ++ [r];
                 logged := logged s |} in
    match network w (List.length (sent s)) r with
    | NetworkError msg => (Throw msg, s')
    | Responded resp => (Ret resp, s')
    end.

(** `await response.json()` *)
Definition json (resp : FetchResponse) : M JsVal :=
  match res_json resp with
  | Some v => retM v
  | None => throwM "SyntaxError: invalid json response body"
  end.

Fixpoint forEach {B : Type} (f : B -> JsVal -> M B) (xs : list JsVal) (acc : B) : M B :=
  match xs with
  | [] => retM acc
  | x :: rest =>
      let* acc' := f acc x in
      forEach f rest acc'
  end.

Definition init : St := {| draws := 0; ticks := 0; sent := []; logged := [] |}.

End Eff.

(* ===================================================================== *)
(** * index.js: the course-viewer action *)
(* ===================================================================== *)

(** The flat record `processCourseData` returns and its parts. *)
Record CoreModule : Type := {
  mod_id : JsVal;
  mod_courseId : JsVal;
  mod_name : JsVal;
  mod_type : JsVal;
  mod_contentType : JsVal;
  mod_duration : string;
  mod_status : string;
  mod_isCompleted : bool;
  mod_statusText : string;
  mod_statusIcon : string
}.

Record Prerequisite : Type := {
  pre_id : JsVal;
  pre_name : JsVal;
  pre_type : JsVal
}.

Record JobAid : Type := {
  aid_id : JsVal;
  aid_name : JsVal;
  aid_description : JsVal
}.

Record CourseData : Type := {
  courseId : JsVal;
  instanceId : JsVal;
  courseTitle : JsVal;
  courseDescription : JsVal;
  courseOverview : JsVal;
  courseType : string;
  courseDuration : string;
  courseLevel : JsVal;
  courseSkills : string;
  enrollmentCount : JsVal;
  ratingAvg : JsVal;
  ratingCount : JsVal;
  imageUrl : JsVal;
  loFormat : JsVal;
  coreModules : list CoreModule;
  prerequisites : list Prerequisite;
  jobAids : list JobAid;
  timestamp : string
}.

Module CourseViewer.
Import Str ExcOps.

(** [[
    function safeGet(obj, path, defaultValue = '') {
      return path.split('.').reduce((current, key) => {
        return current && current[key] !== undefined ? current[key] : defaultValue;
      }, obj);
    }
    ]] *)
Definition safeGetStep (defaultValue current : JsVal) (key : string) : JsVal :=
  if (Js.truthy current && negb (Js.isUndef (Js.getProp current key)))%bool
  then Js.getProp current key
  else defaultValue.

Definition safeGet (obj : JsVal) (path : string) (defaultValue : JsVal) : JsVal :=
  fold_left (safeGetStep defaultValue) (split "." path) obj.

(** [[
    function formatDuration(seconds) {
      if (!seconds || seconds === 0) return 'N/A';
      const hours = Math.floor(seconds / 3600);
      const minutes = Math.floor((seconds % 3600) / 60);
      if (hours > 0) {
        return minutes > 0 ? `${hours}h ${minutes}m` : `${hours}h`;
      } else {
        return `${minutes}m`;
      }
    }
    ]] *)
Definition formatDuration (E : Engine) (seconds : JsVal) : string :=
  if (negb (Js.truthy seconds) || Js.strictEq seconds (JNum 0))%bool then "N/A"
  else
    let n := Js.toNumber E seconds in
    let hours := Js.floorDiv n 3600 in
    let minutes := Js.floorDiv (Js.remainder n 3600) 60 in
    if Js.positive hours
    then (if Js.positive minutes
          then Js.numToStr hours +:+ "h " +:+ Js.numToStr minutes +:+ "m"
          else Js.numToStr hours +:+ "h")
    else Js.numToStr minutes +:+ "m".

(** `courseResponse.included.forEach(item => { if (item.type === 'skill')
    skills.push(item.attributes.name) })` *)
Definition extractSkills (courseResponse : JsVal) : Exc (list JsVal) :=
  let? included := Js.prop courseResponse "included" in
  if Js.truthy included then
    let? items := asArray included in
    forEach (fun skills item =>
               let? ty := Js.prop item "type" in
               if Js.strictEq ty (JStr "skill") then
                 let? attrs := Js.prop item "attributes" in
                 let? name := Js.prop attrs "name" in
                 Ret (skills ++ [name])
               else Ret skills) items []
  else Ret [].

(** `includedData.find(item => item.id === ref.id)` *)
Definition findById (includedData ref : JsVal) : Exc JsVal :=
  let? items := asArray includedData in
  find (fun item =>
          let? a := Js.prop item "id" in
          let? b := Js.prop ref "id" in
          Ret (Js.strictEq a b)) items.

(** `attributes.localizedMetadata && attributes.localizedMetadata[0]
     ? attributes.localizedMetadata[0] : fallback` *)
Definition firstLocalizedMetadata (attributes fallback : JsVal) : JsVal :=
  let lm := Js.getProp attributes "localizedMetadata" in
  if (Js.truthy lm && Js.truthy (Js.getProp lm "0"))%bool
  then Js.getProp lm "0"
  else fallback.

(** `Math.random() > 0.5` *)
Definition moreThanHalf (r : Q) : bool := negb (Qle_bool r (1 # 2)).

Definition coreModuleOf (E : Engine) (includedData courseData : JsVal)
    (modules : list CoreModule) (resource : JsVal) : M (list CoreModule) :=
  let* resourceData := liftE (findById includedData resource) in
  if (Js.truthy resourceData && Js.truthy (Js.getProp resourceData "attributes"))%bool then
    let attributes := Js.getProp resourceData "attributes" in
    let resourceMetadata :=
      firstLocalizedMetadata attributes
        (JObj [("name", Js.or (Js.getProp attributes "name") (JStr "Module"))]) in
    let* r := Eff.mathRandom in
    let isCompleted := moreThanHalf r in
    let status := if isCompleted then "completed" else "in-progress" in
    let moduleType := Js.or (Js.getProp attributes "loFormat") (JStr "Self-paced") in
    let* lowered := liftE (let? s := asString moduleType in Ret (toLowerCase s)) in
    let moduleDuration :=
      if String.eqb lowered "self-paced" then "Self-paced"
      else formatDuration E
             (Js.or (Js.or (Js.getProp attributes "desiredDuration")
                           (Js.getProp attributes "duration"))
                    (JNum 900)) in
    let* rid := liftE (Js.prop resource "id") in
    let* cid := liftE (Js.prop courseData "id") in
    retM (modules ++
          [{| mod_id := rid;
              mod_courseId := cid;
              mod_name := Js.getProp resourceMetadata "name";
              mod_type := moduleType;
              mod_contentType := Js.or (Js.getProp attributes "contentType") (JStr "SCORM2004");
              mod_duration := moduleDuration;
              mod_status := status;
              mod_isCompleted := isCompleted;
              mod_statusText := if isCompleted then "Last visited" else "In Progress";
              mod_statusIcon := if isCompleted then "‚úì" else "‚è±Ô∏è" |}])
  else retM modules.

Definition extractCoreModules (E : Engine) (courseResponse : JsVal) : M (list CoreModule) :=
  let* courseData := liftE (Js.prop courseResponse "data") in
  let* included := liftE (Js.prop courseResponse "included") in
  let includedData := Js.or included (JArr []) in
  let* rel := liftE (Js.prop courseData "relationships") in
  let instances := Js.getProp rel "instances" in
  if (Js.truthy rel && Js.truthy instances && Js.truthy (Js.getProp instances "data"))%bool then
    let instanceId := Js.optProp (Js.getProp (Js.getProp instances "data") "0") "id" in
    let* instanceData :=
      liftE (let? items := asArray includedData in
             find (fun item =>
                     let? i := Js.prop item "id" in
                     if Js.strictEq i instanceId then
                       let? t := Js.prop item "type" in
                       Ret (Js.strictEq t (JStr "learningObjectInstance"))
                     else Ret false) items) in
    let irel := Js.getProp instanceData "relationships" in
    if (Js.truthy instanceData && Js.truthy irel && Js.truthy (Js.getProp irel "loResources"))%bool then
      let* resources := liftE (asArray (Js.getProp (Js.getProp irel "loResources") "data")) in
      Eff.forEach (coreModuleOf E includedData courseData) resources []
    else retM []
  else retM [].

Definition prerequisiteOf (includedData : JsVal)
    (prerequisites : list Prerequisite) (prereq : JsVal) : Exc (list Prerequisite) :=
  let? prereqData := findById includedData prereq in
  if (Js.truthy prereqData && Js.truthy (Js.getProp prereqData "attributes"))%bool then
    let attributes := Js.getProp prereqData "attributes" in
    let prereqMetadata :=
      firstLocalizedMetadata attributes
        (JObj [("name", Js.or (Js.getProp attributes "name") (JStr "Prerequisite Course"))]) in
    let? pid := Js.prop prereq "id" in
    Ret (prerequisites ++
         [{| pre_id := pid;
             pre_name := Js.getProp prereqMetadata "name";
             pre_type := Js.or (Js.getProp attributes "loFormat") (JStr "Self-paced") |}])
  else Ret prerequisites.

Definition extractPrerequisites (courseResponse : JsVal) : Exc (list Prerequisite) :=
  let? courseData := Js.prop courseResponse "data" in
  let? included := Js.prop courseResponse "included" in
  let includedData := Js.or included (JArr []) in
  let? rel := Js.prop courseData "relationships" in
  let prerequisiteLOs := Js.getProp rel "prerequisiteLOs" in
  if (Js.truthy rel && Js.truthy prerequisiteLOs && Js.truthy (Js.getProp prerequisiteLOs "data"))%bool then
    let? refs := asArray (Js.getProp prerequisiteLOs "data") in
    forEach (prerequisiteOf includedData) refs []
  else Ret [].

(** The callback of `supplementaryLOs.data.filter(...)` *)
Definition isJobAidRef (includedData item : JsVal) : Exc bool :=
  let? itemData := findById includedData item in
  let attributes := Js.getProp itemData "attributes" in
  Ret (Js.truthy itemData && Js.truthy attributes &&
       Js.strictEq (Js.getProp attributes "loType") (JStr "jobAid"))%bool.

(** The callback of `jobAidItems.forEach(...)` *)
Definition jobAidOf (includedData : JsVal)
    (jobAids : list JobAid) (jobAid : JsVal) : Exc (list JobAid) :=
  let? jobAidData := findById includedData jobAid in
  if (Js.truthy jobAidData && Js.truthy (Js.getProp jobAidData "attributes"))%bool then
    let attributes := Js.getProp jobAidData "attributes" in
    let jobAidMetadata :=
      firstLocalizedMetadata attributes
        (JObj [("name", Js.or (Js.getProp attributes "name") (JStr "Job Aid"));
               ("description", JStr "")]) in
    let? jid := Js.prop jobAid "id" in
    Ret (jobAids ++
         [{| aid_id := jid;
             aid_name := Js.getProp jobAidMetadata "name";
             aid_description :=
               Js.or (Js.getProp jobAidMetadata "description") (JStr "Job aid description") |}])
  else Ret jobAids.

Definition extractJobAids (courseResponse : JsVal) : Exc (list JobAid) :=
  let? courseData := Js.prop courseResponse "data" in
  let? included := Js.prop courseResponse "included" in
  let includedData := Js.or included (JArr []) in
  let? rel := Js.prop courseData "relationships" in
  let supplementaryLOs := Js.getProp rel "supplementaryLOs" in
  if (Js.truthy rel && Js.truthy supplementaryLOs && Js.truthy (Js.getProp supplementaryLOs "data"))%bool then
    let? refs := asArray (Js.getProp supplementaryLOs "data") in
    let? jobAidItems := filter (isJobAidRef includedData) refs in
    forEach (jobAidOf includedData) jobAidItems []
  else Ret [].

(** The skill level: `attributes.skillLevel`, else the name of the first
    included `skillLevel` record when the course has skills. *)
Definition skillLevelOf (courseResponse courseData : JsVal) (skillArray : list JsVal) : Exc JsVal :=
  let courseLevel := safeGet courseData "attributes.skillLevel" (JStr "N/A") in
  if (Js.strictEq courseLevel (JStr "N/A") && (0 <? Z.of_nat (List.length skillArray)))%bool then
    let? included := Js.prop courseResponse "included" in
    let? firstSkill :=
      match included with
      | JUndef | JNull => Ret JUndef
      | _ => let? items := asArray included in
             find (fun item =>
                     let? t := Js.prop item "type" in
                     Ret (Js.strictEq t (JStr "skillLevel"))) items
      end in
    if Js.truthy firstSkill
    then Ret (Js.or (Js.optProp (Js.getProp firstSkill "attributes") "name") (JStr "N/A"))
    else Ret courseLevel
  else Ret courseLevel.

Definition processCourseData (E : Engine) (courseResponse courseId instanceId : JsVal)
    : M CourseData :=
  let* courseData := liftE (Js.prop courseResponse "data") in
  let* ty := liftE (Js.prop courseData "type") in
  let courseType :=
    if Js.strictEq ty (JStr "learningProgram") then "Learning Program" else "Course" in
  let courseTitle :=
    safeGet courseData "attributes.localizedMetadata.0.name" (JStr "Untitled Course") in
  let courseDescription :=
    safeGet courseData "attributes.localizedMetadata.0.description"
      (JStr "No description available") in
  let courseOverview :=
    safeGet courseData "attributes.localizedMetadata.0.overview"
      (JStr "No overview available") in
  let durationSeconds := safeGet courseData "attributes.duration" (JNum 0) in
  let courseDuration := formatDuration E durationSeconds in
  let* skillArray := liftE (extractSkills courseResponse) in
  let* courseLevel := liftE (skillLevelOf courseResponse courseData skillArray) in
  let* coreModules := extractCoreModules E courseResponse in
  let* prerequisites := liftE (extractPrerequisites courseResponse) in
  let* jobAids := liftE (extractJobAids courseResponse) in
  let* timestamp := Eff.nowISO in
  retM {| courseId := courseId;
          instanceId := instanceId;
          courseTitle := courseTitle;
          courseDescription := Js.or courseDescription (JStr "No description available");
          courseOverview := Js.or courseOverview (JStr "No overview available");
          courseType := courseType;
          courseDuration := courseDuration;
          courseLevel := courseLevel;
          courseSkills :=
            (let joined := Js.join ", " skillArray in
             if String.eqb joined "" then "No skills specified" else joined);
          enrollmentCount := safeGet courseData "attributes.enrollmentCount" (JNum 0);
          ratingAvg := safeGet courseData "attributes.rating.averageRating" (JNum 0);
          ratingCount := safeGet courseData "attributes.rating.ratingsCount" (JNum 0);
          imageUrl := safeGet courseData "attributes.imageUrl" (JStr "");
          loFormat := safeGet courseData "attributes.loFormat" (JStr "Self-paced");
          coreModules := coreModules;
          prerequisites := prerequisites;
          jobAids := jobAids;
          timestamp := timestamp |}.

End CourseViewer.

Module Html.
Import Str.

(** The `map` object of `escapeHtml`: the entity that replaces each of
    the ampersand, the two angle brackets, the double quote and the
    apostrophe. *)
Definition escapeChar (c : ascii) : string :=
  if Ascii.eqb c "&" then "&amp;"
  else if Ascii.eqb c "<" then "&lt;"
  else if Ascii.eqb c ">" then "&gt;"
  else if Ascii.eqb c Str.dqChar then "&quot;"
  else if Ascii.eqb c "'" then "&#039;"
  else String c EmptyString.

(** `text.replace(.., function(m) { return map[m]; })` over the global
    pattern of these five characters *)
Fixpoint escapeText (text : string) : string :=
  match text with
  | EmptyString => EmptyString
  | String c rest => escapeChar c +:+ escapeText rest
  end.

(** [[
    function escapeHtml(text) {
      if (typeof text !== 'string') {
        return text;
      }
      ...
    }
    ]] *)
Definition escapeHtml (text : JsVal) : JsVal :=
  match text with
  | JStr s => JStr (escapeText s)
  | _ => text
  end.

(** `${escapeHtml(text)}` inside a template literal *)
Definition escaped (text : JsVal) : string := Js.toStr (escapeHtml text).

Definition prerequisiteItemHTML (prereq : Prerequisite) : string :=
  nl +:+
  "          <div class=" +:+ q "prerequisite-item" +:+ ">" +:+ nl +:+
  "            <span class=" +:+ q "prerequisite-type" +:+ ">Course: " +:+ escaped (pre_type prereq) +:+ "</span>" +:+ nl +:+
  "            <a href=" +:+ q "#" +:+ " class=" +:+ q "prerequisite-link" +:+ ">" +:+ escaped (pre_name prereq) +:+ "</a>" +:+ nl +:+
  "          </div>" +:+ nl +:+
  "        ".

Definition moduleItemHTML (courseData : CourseData) (module : CoreModule) : string :=
  nl +:+
  "              <div class=" +:+ q ("module-item " +:+ mod_status module) +:+ " data-resource-id=" +:+ q (escaped (mod_id module)) +:+ " data-course-id=" +:+ q (escaped (courseId courseData)) +:+ ">" +:+ nl +:+
  "                <div class=" +:+ q "module-icon" +:+ ">‚≠ê</div>" +:+ nl +:+
  "                <div class=" +:+ q "module-content" +:+ ">" +:+ nl +:+
  "                  <div class=" +:+ q "module-header" +:+ ">" +:+ nl +:+
  "                    <span class=" +:+ q "module-type" +:+ ">" +:+ escaped (mod_type module) +:+ ": " +:+ escaped (mod_contentType module) +:+ "</span>" +:+ nl +:+
  "                  </div>" +:+ nl +:+
  "                  <div class=" +:+ q "module-title" +:+ ">" +:+ nl +:+
  "                    <a href=" +:+ q "#" +:+ " class=" +:+ q "module-link" +:+ ">" +:+ escaped (mod_name module) +:+ "</a>" +:+ nl +:+
  "                  </div>" +:+ nl +:+
  "                  <div class=" +:+ q "module-meta" +:+ ">" +:+ nl +:+
  "                    <span class=" +:+ q "module-duration" +:+ ">‚è±Ô∏è " +:+ escaped (JStr (mod_duration module)) +:+ "</span>" +:+ nl +:+
  "                    <span class=" +:+ q "module-status" +:+ ">" +:+ mod_statusIcon module +:+ " " +:+ escaped (JStr (mod_statusText module)) +:+ "</span>" +:+ nl +:+
  "                  </div>" +:+ nl +:+
  "                </div>" +:+ nl +:+
  "              </div>" +:+ nl +:+
  "            ".

Definition jobAidItemHTML (jobAid : JobAid) : string :=
  nl +:+
  "          <div class=" +:+ q "job-aid-item" +:+ ">" +:+ nl +:+
  "            <a href=" +:+ q "#" +:+ " class=" +:+ q "job-aid-link" +:+ ">" +:+ escaped (aid_name jobAid) +:+ "</a>" +:+ nl +:+
  "            <p class=" +:+ q "job-aid-description" +:+ ">" +:+ escaped (aid_description jobAid) +:+ "</p>" +:+ nl +:+
  "          </div>" +:+ nl +:+
  "        ".

Definition prerequisitesHTML (courseData : CourseData) : string :=
  if (0 <? Z.of_nat (List.length (prerequisites courseData))) then
  nl +:+
  "    <div class=" +:+ q "course-section prerequisites-section" +:+ ">" +:+ nl +:+
  "      <h2 class=" +:+ q "section-title" +:+ ">Course Prerequisites <span class=" +:+ q "optional-label" +:+ ">(Optional)</span></h2>" +:+ nl +:+
  "      <div class=" +:+ q "prerequisites-content" +:+ ">" +:+ nl +:+
  "        " +:+ String.concat EmptyString (List.map prerequisiteItemHTML (prerequisites courseData)) +:+ nl +:+
  "      </div>" +:+ nl +:+
  "    </div>" +:+ nl +:+
  "  "
  else EmptyString.

Definition modulesHTML (courseData : CourseData) : string :=
  nl +:+
  "    <div class=" +:+ q "course-section modules-section" +:+ ">" +:+ nl +:+
  "      <div class=" +:+ q "section-tabs" +:+ ">" +:+ nl +:+
  "        <button class=" +:+ q "tab-button active" +:+ ">Modules</button>" +:+ nl +:+
  "        <button class=" +:+ q "tab-button" +:+ ">Notes</button>" +:+ nl +:+
  "      </div>" +:+ nl +:+
  "      <div class=" +:+ q "modules-content" +:+ ">" +:+ nl +:+
  "        <div class=" +:+ q "core-content-section" +:+ ">" +:+ nl +:+
  "          <h3 class=" +:+ q "content-title" +:+ ">" +:+ nl +:+
  "            Core content " +:+ nl +:+
  "            <span class=" +:+ q "duration-badge" +:+ ">‚è±Ô∏è " +:+ escaped (JStr (courseDuration courseData)) +:+ " (estimated)</span>" +:+ nl +:+
  "          </h3>" +:+ nl +:+
  "          <div class=" +:+ q "modules-list" +:+ ">" +:+ nl +:+
  "            " +:+ String.concat EmptyString (List.map (moduleItemHTML courseData) (coreModules courseData)) +:+ nl +:+
  "          </div>" +:+ nl +:+
  "        </div>" +:+ nl +:+
  "      </div>" +:+ nl +:+
  "    </div>" +:+ nl +:+
  "  ".

Definition jobAidsHTML (courseData : CourseData) : string :=
  if (0 <? Z.of_nat (List.length (jobAids courseData))) then
  nl +:+
  "    <div class=" +:+ q "sidebar-section job-aids-section" +:+ ">" +:+ nl +:+
  "      <h3 class=" +:+ q "sidebar-title" +:+ ">üîß Job aids</h3>" +:+ nl +:+
  "      <div class=" +:+ q "job-aids-list" +:+ ">" +:+ nl +:+
  "        " +:+ String.concat EmptyString (List.map jobAidItemHTML (jobAids courseData)) +:+ nl +:+
  "      </div>" +:+ nl +:+
  "    </div>" +:+ nl +:+
  "  "
  else EmptyString.

(** The document `generateCourseHTML` returns. *)
Definition courseHTML (courseData : CourseData) : string :=
  let imageUrl :=
    Js.or (imageUrl courseData)
      (JStr "https://images.unsplash.com/photo-1516321318423-f06f85e504b3?w=1200&q=80") in
  let coreContentCompleted :=
    List.length (List.filter mod_isCompleted (coreModules courseData)) in
  let totalCoreContent := List.length (coreModules courseData) in
  let prerequisitesHTML := prerequisitesHTML courseData in
  let modulesHTML := modulesHTML courseData in
  let jobAidsHTML := jobAidsHTML courseData in
  "<head>" +:+ nl +:+
  "  <meta charset=" +:+ q "utf-8" +:+ ">" +:+ nl +:+
  "  <title>" +:+ escaped (courseTitle courseData) +:+ " - Course Viewer</title>" +:+ nl +:+
  "  <meta name=" +:+ q "description" +:+ " content=" +:+ q (escaped (courseDescription courseData)) +:+ ">" +:+ nl +:+
  "  <meta name=" +:+ q "author" +:+ " content=" +:+ q "ALM Course Viewer" +:+ ">" +:+ nl +:+
  "  <meta name=" +:+ q "timestamp" +:+ " content=" +:+ q (timestamp courseData) +:+ ">" +:+ nl +:+
  "  " +:+ nl +:+
  "  <!-- Course Meta Tags for EDS Indexing -->" +:+ nl +:+
  "  <meta name=" +:+ q "course-id" +:+ " content=" +:+ q (escaped (courseId courseData)) +:+ ">" +:+ nl +:+
  "  <meta name=" +:+ q "course-title" +:+ " content=" +:+ q (escaped (courseTitle courseData)) +:+ ">" +:+ nl +:+
  "  <meta name=" +:+ q "course-duration" +:+ " content=" +:+ q (escaped (JStr (courseDuration courseData))) +:+ ">" +:+ nl +:+
  "  <meta name=" +:+ q "course-skill-level" +:+ " content=" +:+ q (escaped (courseLevel courseData)) +:+ ">" +:+ nl +:+
  "  <meta name=" +:+ q "course-skills" +:+ " content=" +:+ q (escaped (JStr (courseSkills courseData))) +:+ ">" +:+ nl +:+
  "  <meta name=" +:+ q "course-type" +:+ " content=" +:+ q (escaped (JStr (courseType courseData))) +:+ ">" +:+ nl +:+
  "  <meta name=" +:+ q "course-rating" +:+ " content=" +:+ q (Js.toStr (ratingAvg courseData)) +:+ ">" +:+ nl +:+
  "  <meta name=" +:+ q "course-enrollment-count" +:+ " content=" +:+ q (Js.toStr (enrollmentCount courseData)) +:+ ">" +:+ nl +:+
  nl +:+
  "  <!-- Open Graph Meta Tags -->" +:+ nl +:+
  "  <meta property=" +:+ q "og:type" +:+ " content=" +:+ q "website" +:+ ">" +:+ nl +:+
  "  <meta property=" +:+ q "og:title" +:+ " content=" +:+ q (escaped (courseTitle courseData) +:+ " - Course Viewer") +:+ ">" +:+ nl +:+
  "  <meta property=" +:+ q "og:description" +:+ " content=" +:+ q (escaped (courseDescription courseData)) +:+ ">" +:+ nl +:+
  "  <meta property=" +:+ q "og:image" +:+ " content=" +:+ q (escaped imageUrl) +:+ ">" +:+ nl +:+
  "</head>" +:+ nl +:+
  nl +:+
  "<body>" +:+ nl +:+
  "  <header></header>" +:+ nl +:+
  "  <main>" +:+ nl +:+
  "    <div>" +:+ nl +:+
  "      <div class=" +:+ q "course-overview" +:+ ">" +:+ nl +:+
  "        <!-- Course Header -->" +:+ nl +:+
  "        <div class=" +:+ q "course-header" +:+ ">" +:+ nl +:+
  "          <div class=" +:+ q "course-hero" +:+ ">" +:+ nl +:+
  "            <h1 class=" +:+ q "course-title" +:+ ">" +:+ escaped (courseTitle courseData) +:+ "</h1>" +:+ nl +:+
  "            <div class=" +:+ q "course-format" +:+ ">" +:+ escaped (loFormat courseData) +:+ "</div>" +:+ nl +:+
  "          </div>" +:+ nl +:+
  "        </div>" +:+ nl +:+
  "        " +:+ nl +:+
  "        <!-- Main Content -->" +:+ nl +:+
  "        <div class=" +:+ q "course-main-content" +:+ ">" +:+ nl +:+
  "          <!-- Left Content -->" +:+ nl +:+
  "          <div class=" +:+ q "course-left-content" +:+ ">" +:+ nl +:+
  "            " +:+ prerequisitesHTML +:+ nl +:+
  "            " +:+ modulesHTML +:+ nl +:+
  "          </div>" +:+ nl +:+
  "          " +:+ nl +:+
  "          <!-- Sidebar -->" +:+ nl +:+
  "          <div class=" +:+ q "course-sidebar" +:+ ">" +:+ nl +:+
  "            <div class=" +:+ q "sidebar-actions" +:+ ">" +:+ nl +:+
  "              <button class=" +:+ q "continue-btn" +:+ ">Continue</button>" +:+ nl +:+
  "            </div>" +:+ nl +:+
  "            " +:+ nl +:+
  "            <div class=" +:+ q "sidebar-section progress-section" +:+ ">" +:+ nl +:+
  "              <div class=" +:+ q "progress-item" +:+ ">" +:+ nl +:+
  "                <span class=" +:+ q "progress-count" +:+ ">" +:+ ofZ (Z.of_nat coreContentCompleted) +:+ "/" +:+ ofZ (Z.of_nat totalCoreContent) +:+ "</span>" +:+ nl +:+
  "                <span class=" +:+ q "progress-label" +:+ ">Core content completed</span>" +:+ nl +:+
  "              </div>" +:+ nl +:+
  "            </div>" +:+ nl +:+
  "            " +:+ nl +:+
  "            " +:+ jobAidsHTML +:+ nl +:+
  "          </div>" +:+ nl +:+
  "        </div>" +:+ nl +:+
  "      </div>" +:+ nl +:+
  "    </div>" +:+ nl +:+
  "  </main>" +:+ nl +:+
  "  <footer></footer>" +:+ nl +:+
  "</body>" +:+ nl +:+
  nl +:+
  "</html>".

Definition generateCourseHTML (courseData : CourseData) : M string :=
  Eff.log LInfo "Generating comprehensive course HTML with EDS structure" >>
  retM (courseHTML courseData).

End Html.

(** What the action returns: a response object, or the result of
    `errorResponse`. *)
Inductive ActionResult : Type :=
| Response (statusCode : Z) (body : string) (headers : list (string * string))
| ErrorResult (statusCode : Z) (message : string).

(** An entry of the list `fetchCourseInstances` returns. *)
Record CourseInstance : Type := {
  inst_id : JsVal;
  inst_almId : JsVal;
  inst_name : JsVal;
  inst_state : JsVal
}.

Module Action.
Import Str ExcOps.

Definition ALM_API_BASE : string := "https://learningmanager.adobe.com/primeapi/v2".

Definition ALM_ACCESS_TOKEN : string := "c0806f12f2e49aad953eae277e281b84".

(** Modelled from the spec: `errorResponse` of `actions/utils.js`, which is
    not among the sources. It reports the status code and the message to
    the logger and wraps them in the error result of the action. *)
Definition errorResponse (statusCode : Z) (message : string) : M ActionResult :=
  Eff.log LInfo (ofZ statusCode +:+ ": " +:+ message) >>
  retM (ErrorResult statusCode message).

Definition almHeaders : list (string * string) :=
  [("Authorization", "Bearer " +:+ ALM_ACCESS_TOKEN); ("Accept", "application/vnd.api+json")].

Definition get (url : string) : Request :=
  {| req_method := "GET"; req_url := url; req_headers := almHeaders; req_body := None |}.

Definition includeParams : string :=
  "instances.enrollment.loResourceGrades,enrollment.loInstance.loResources.resources,authors,supplementaryLOs.instances.loResources.resources,supplementaryResources,prerequisiteLOs.enrollment,instances.loResources.resources.room,subLOs.instances.loResources,skills.skillLevel.skill".

Definition statusLine (r : FetchResponse) : string :=
  ofZ (res_status r) +:+ " " +:+ res_statusText r.

(** Returns the document, or null when both endpoints fail. *)
Definition fetchCourseData (courseId : JsVal) : M JsVal :=
  let numericCourseId := Js.toStr courseId in
  tryCatch
    (let courseUrl :=
       ALM_API_BASE +:+ "/learningObjects/course:" +:+ numericCourseId +:+ "?include=" +:+
       includeParams +:+ "&useCache=true&filter.ignoreEnhancedLP=false" in
     Eff.log LInfo ("Fetching course data from: " +:+ courseUrl) >>
     let* response := Eff.fetch (get courseUrl) in
     Eff.log LInfo ("Course API response status: " +:+ statusLine response) >>
     if res_ok response then
       let* courseData := Eff.json response in
       Eff.log LInfo "Course data fetched successfully as course type" >>
       retM courseData
     else
       Eff.log LInfo ("Course not found (" +:+ ofZ (res_status response) +:+
                      "), trying as learning program") >>
       let programUrl :=
         ALM_API_BASE +:+ "/learningObjects/learningProgram:" +:+ numericCourseId +:+
         "?include=" +:+ includeParams +:+ "&useCache=true&filter.ignoreEnhancedLP=false" in
       Eff.log LInfo ("Fetching learning program data from: " +:+ programUrl) >>
       let* programResponse := Eff.fetch (get programUrl) in
       Eff.log LInfo ("Learning program API response status: " +:+ statusLine programResponse) >>
       if res_ok programResponse then
         let* programData := Eff.json programResponse in
         Eff.log LInfo "Course data fetched successfully as learning program type" >>
         retM programData
       else
         Eff.log LError ("Failed to fetch course data: " +:+ statusLine programResponse) >>
         retM JNull)
    (fun _ => Eff.log LError "Error fetching course data:" >> retM JNull).

(** `v.includes(needle)`: a method of strings and of arrays. *)
Definition includesMethod (v : JsVal) (needle : string) : Exc bool :=
  match v with
  | JStr s => Ret (includes needle s)
  | JArr xs => Ret (existsb (Js.strictEq (JStr needle)) xs)
  | _ => Throw "TypeError: not a function"
  end.

(** ALM format `course:12495374_13216648` to EDS format `12495374-13216648` *)
Definition edsInstanceIdOf (almInstanceId : JsVal) : Exc JsVal :=
  let? hasColon := includesMethod almInstanceId ":" in
  let? hasUnderscore := if hasColon then includesMethod almInstanceId "_" else Ret false in
  if hasUnderscore then
    let? s := asString almInstanceId in
    match nth_error (split ":" s) 1 with
    | Some parts => Ret (JStr (replaceFirst "_" "-" parts))
    | None => Throw "TypeError: cannot read properties of undefined"
    end
  else Ret almInstanceId.

(** The callback of `relationships.instances.data.forEach(...)` *)
Definition courseInstanceOf (included : JsVal)
    (instances : list CourseInstance) (instanceRef : JsVal) : Exc (list CourseInstance) :=
  let? instanceData :=
    match included with
    | JUndef | JNull => Ret JUndef
    | _ => let? items := asArray included in
           find (fun item =>
                   let? a := Js.prop item "id" in
                   let? b := Js.prop instanceRef "id" in
                   if Js.strictEq a b then
                     let? t := Js.prop item "type" in
                     Ret (Js.strictEq t (JStr "learningObjectInstance"))
                   else Ret false) items
    end in
  if Js.truthy instanceData then
    let almInstanceId := Js.getProp instanceData "id" in
    let? edsInstanceId := edsInstanceIdOf almInstanceId in
    let attributes := Js.getProp instanceData "attributes" in
    Ret (instances ++
         [{| inst_id := edsInstanceId;
             inst_almId := almInstanceId;
             inst_name :=
               Js.or (Js.optProp (Js.optProp (Js.optProp attributes "localizedMetadata") "0") "name")
                     (JStr "Default Instance");
             inst_state := Js.or (Js.optProp attributes "state") (JStr "Active") |}])
  else
    let? almInstanceId := Js.prop instanceRef "id" in
    let? edsInstanceId := edsInstanceIdOf almInstanceId in
    Ret (instances ++
         [{| inst_id := edsInstanceId;
             inst_almId := almInstanceId;
             inst_name := JStr ("Instance " +:+ Js.toStr edsInstanceId);
             inst_state := JStr "Unknown" |}]).

(** The instances of the document `?include=instances` returns *)
Definition instancesOf (courseData : JsVal) : Exc (list CourseInstance) :=
  let? data := Js.prop courseData "data" in
  let? rel := Js.prop data "relationships" in
  let? included := Js.prop courseData "included" in
  let instances := Js.getProp rel "instances" in
  if (Js.truthy rel && Js.truthy instances && Js.truthy (Js.getProp instances "data"))%bool then
    let? refs := asArray (Js.getProp instances "data") in
    forEach (courseInstanceOf included) refs []
  else Ret [].

Fixpoint logInstances (instances : list CourseInstance) : M unit :=
  match instances with
  | [] => retM tt
  | instance :: rest =>
      Eff.log LDebug ("Instance: " +:+ Js.toStr (inst_id instance) +:+ " (ALM: " +:+
                      Js.toStr (inst_almId instance) +:+ ") - " +:+ Js.toStr (inst_name instance) +:+
                      " (" +:+ Js.toStr (inst_state instance) +:+ ")") >>
      logInstances rest
  end.

Definition fetchCourseInstances (courseId : JsVal) : M (list CourseInstance) :=
  tryCatch
    (let courseUrl :=
       ALM_API_BASE +:+ "/learningObjects/course:" +:+ Js.toStr courseId +:+ "?include=instances" in
     Eff.log LInfo ("Fetching course instances from: " +:+ courseUrl) >>
     let* first := Eff.fetch (get courseUrl) in
     let* response :=
       if negb (res_ok first) then
         let programUrl :=
           ALM_API_BASE +:+ "/learningObjects/learningProgram:" +:+ Js.toStr courseId +:+
           "?include=instances" in
         Eff.log LInfo ("Course not found, trying learning program: " +:+ programUrl) >>
         Eff.fetch (get programUrl)
       else retM first in
     if res_ok response then
       let* courseData := Eff.json response in
       let* instances := liftE (instancesOf courseData) in
       Eff.log LInfo ("Found " +:+ ofZ (Z.of_nat (List.length instances)) +:+
                      " instances for course " +:+ Js.toStr courseId) >>
       logInstances instances >>
       retM instances
     else
       Eff.log LError ("Failed to fetch course instances: " +:+ statusLine response) >>
       retM [])
    (fun _ => Eff.log LError "Error fetching course instances:" >> retM []).


Definition baseUrl : string := "rohitnegi02/byomeds/main".

(** The POST `publishToEdsCache` sends to [publishUrl]. *)
Definition publishRequest (E : Engine) (edsAuthToken : JsVal) (publishUrl : string) : Request :=
  {| req_method := "POST";
     req_url := publishUrl;
     req_headers := [("Authorization", "token " +:+ Js.toStr edsAuthToken);
                     ("Content-Type", "application/json")];
     req_body := Some (jsonStringify E (JObj [("refresh", JBool true)])) |}.

Definition instanceUrl (courseId instanceId : JsVal) : string :=
  "https://admin.hlx.page/preview/" +:+ baseUrl +:+ "/overview/trainingId/" +:+
  Js.toStr courseId +:+ "/trainingInstanceId/" +:+ Js.toStr instanceId.

Definition courseUrl (courseId : JsVal) : string :=
  "https://admin.hlx.page/preview/" +:+ baseUrl +:+ "/overview/trainingId/" +:+
  Js.toStr courseId.

(** The callback of `instances.map(async (instance) => ...)`: one POST,
    whose failure is caught and logged. The result tells whether the
    publication succeeded. *)
Definition publishInstance (E : Engine) (edsAuthToken courseId : JsVal)
    (instance : CourseInstance) : M bool :=
  let publishUrl := instanceUrl courseId (inst_id instance) in
  Eff.log LInfo ("Publishing to EDS cache for instance " +:+ Js.toStr (inst_id instance) +:+
                 ": " +:+ publishUrl) >>
  tryCatch
    (let* response := Eff.fetch (publishRequest E edsAuthToken publishUrl) in
     let result := res_text response in
     if res_ok response then
       Eff.log LInfo ("Successfully published to EDS cache for instance " +:+
                      Js.toStr (inst_id instance) +:+ ": " +:+ ofZ (res_status response)) >>
       retM true
     else
       Eff.log LWarn ("EDS cache publishing failed for instance " +:+
                      Js.toStr (inst_id instance) +:+ ": " +:+ ofZ (res_status response) +:+
                      " - " +:+ result) >>
       retM false)
    (fun _ =>
       Eff.log LError ("Error publishing to EDS cache for instance " +:+
                       Js.toStr (inst_id instance) +:+ ":") >>
       retM false).

(** `instances.map(...)` followed by `Promise.allSettled`; the result is
    the number of successful publications. The requests leave in the order
    of the list; the log entries of one instance are kept together here,
    whereas the engine may interleave them with those of the others. *)
Fixpoint publishInstances (E : Engine) (edsAuthToken courseId : JsVal)
    (instances : list CourseInstance) : M nat :=
  match instances with
  | [] => retM O
  | instance :: rest =>
      let* success := publishInstance E edsAuthToken courseId instance in
      let* successCount := publishInstances E edsAuthToken courseId rest in
      retM (if success then S successCount else successCount)
  end.

Definition publishToEdsCache (E : Engine) (courseId instanceId params : JsVal) : M unit :=
  Eff.log LInfo ("Publishing to EDS cache for courseId: " +:+ Js.toStr courseId +:+
                 ", instanceId: " +:+ Js.toStr instanceId) >>
  tryCatch
    (let* edsAuthToken := liftE (Js.prop params "EDS_AUTH_TOKEN") in
     if negb (Js.truthy edsAuthToken) then
       Eff.log LWarn "EDS_AUTH_TOKEN not provided, skipping EDS cache publishing"
     else if Js.truthy instanceId then
       let publishUrl := instanceUrl courseId instanceId in
       Eff.log LInfo ("Publishing to EDS cache for specific instance: " +:+ publishUrl) >>
       let* response := Eff.fetch (publishRequest E edsAuthToken publishUrl) in
       let result := res_text response in
       if res_ok response then
         Eff.log LInfo ("Successfully published to EDS cache for instance " +:+
                        Js.toStr instanceId +:+ ": " +:+ ofZ (res_status response)) >>
         Eff.log LDebug ("EDS response: " +:+ result)
       else
         Eff.log LWarn ("EDS cache publishing failed for instance " +:+ Js.toStr instanceId +:+
                        ": " +:+ ofZ (res_status response) +:+ " - " +:+ result)
     else
       Eff.log LInfo "No instance ID provided - fetching all instances for course" >>
       let* instances := fetchCourseInstances courseId in
       if (0 <? Z.of_nat (List.length instances)) then
         Eff.log LInfo ("Found " +:+ ofZ (Z.of_nat (List.length instances)) +:+
                        " instances for course " +:+ Js.toStr courseId) >>
         let* successCount := publishInstances E edsAuthToken courseId instances in
         Eff.log LInfo ("EDS cache publishing completed: " +:+ ofZ (Z.of_nat successCount) +:+
                        "/" +:+ ofZ (Z.of_nat (List.length instances)) +:+
                        " instances updated successfully")
       else
         Eff.log LWarn ("No instances found for course " +:+ Js.toStr courseId +:+
                        " - publishing to course-level cache") >>
         let publishUrl := courseUrl courseId in
         Eff.log LInfo ("Publishing to EDS cache for course level: " +:+ publishUrl) >>
         let* response := Eff.fetch (publishRequest E edsAuthToken publishUrl) in
         let result := res_text response in
         if res_ok response then
           Eff.log LInfo ("Successfully published to EDS cache for course level: " +:+
                          ofZ (res_status response)) >>
           Eff.log LDebug ("EDS response: " +:+ result)
         else
           Eff.log LWarn ("EDS cache publishing failed for course level: " +:+
                          ofZ (res_status response) +:+ " - " +:+ result))
    (fun error => Eff.log LError "Error publishing to EDS cache:" >> throwM error).

(** `Object.entries(v)` *)
Definition objectEntries (v : JsVal) : list (string * JsVal) :=
  match v with
  | JObj fields => fields
  | JArr xs => List.map (fun '(i, x) => (ofZ (Z.of_nat i), x)) (List.combine (List.seq 0 (List.length xs)) xs)
  | JStr s =>
      List.map (fun '(i, c) => (ofZ (Z.of_nat i), JStr (String c EmptyString)))
               (List.combine (List.seq 0 (String.length s)) (list_ascii_of_string s))
  | _ => []
  end.

(** Format 4: the first property whose value looks like webhook data *)
Fixpoint findInEntries (entries : list (string * JsVal)) : M JsVal :=
  match entries with
  | [] => retM JNull
  | (key, value) :: rest =>
      if (Js.truthy value && Js.isObjectType value && Js.truthy (Js.getProp value "events") &&
          Js.isArray (Js.getProp value "events"))%bool
      then Eff.log LInfo ("Found webhook payload format 4: In property '" +:+ key +:+ "'") >>
           retM value
      else findInEntries rest
  end.

(** Formats 1 to 4 of the webhook payload; null when none applies. *)
Definition detectWebhook (E : Engine) (params : JsVal) : M JsVal :=
  let events := Js.getProp params "events" in
  let body := Js.getProp params "body" in
  if (Js.truthy events && Js.isArray events &&
      Js.positive (Js.toNumber E (Js.getProp events "length")))%bool then
    Eff.log LInfo "Found webhook payload format 1: Direct events array" >>
    retM params
  else if (Js.truthy body && Js.isString body)%bool then
    tryCatch
      (match jsonParse E (Js.toStr body) with
       | None => throwM "SyntaxError: invalid JSON"
       | Some parsedBody =>
           let* parsedEvents := liftE (Js.prop parsedBody "events") in
           if (Js.truthy parsedEvents && Js.isArray parsedEvents)%bool then
             Eff.log LInfo "Found webhook payload format 2: JSON string in body" >>
             retM parsedBody
           else retM JNull
       end)
      (fun _ => Eff.log LWarn "Failed to parse body as JSON:" >> retM JNull)
  else if (Js.truthy body && Js.isObjectType body && Js.truthy (Js.getProp body "events"))%bool then
    Eff.log LInfo "Found webhook payload format 3: Object in body" >>
    retM body
  else findInEntries (objectEntries params).

(** Format 5: webhook data sent as individual parameters *)
Definition reconstructWebhook (params webhookData : JsVal) : M JsVal :=
  if (negb (Js.truthy webhookData) && Js.truthy (Js.getProp params "accountId"))%bool then
    if (Js.truthy (Js.getProp params "eventId") && Js.truthy (Js.getProp params "eventName") &&
        Js.truthy (Js.getProp params "loId"))%bool then
      let* timestamp :=
        if Js.truthy (Js.getProp params "timestamp") then retM (Js.getProp params "timestamp")
        else let* t := Eff.nowISO in retM (JStr t) in
      Eff.log LInfo "Found webhook payload format 5: Reconstructed from individual parameters" >>
      retM (JObj [("accountId", Js.getProp params "accountId");
                  ("events",
                   JArr [JObj [("eventId", Js.getProp params "eventId");
                               ("eventName", Js.getProp params "eventName");
                               ("timestamp", timestamp);
                               ("eventInfo", Js.or (Js.getProp params "eventInfo") (JStr ""));
                               ("data",
                                JObj [("loId", Js.getProp params "loId");
                                      ("loType", Js.or (Js.getProp params "loType") (JStr "course"))])]])])
    else retM webhookData
  else retM webhookData.

(** The course ID and instance ID of the request, or the response of an
    early `return`. *)
Definition extractIds (E : Engine) (params webhookData : JsVal)
    : M (ActionResult + JsVal * JsVal) :=
  let events := Js.getProp webhookData "events" in
  if (Js.truthy webhookData && Js.truthy events &&
      Js.positive (Js.toNumber E (Js.getProp events "length")))%bool then
    Eff.log LInfo "Processing webhook payload from ALM" >>
    Eff.log LInfo "Full ALM webhook payload:" >>
    let event := Js.getProp events "0" in
    Eff.log LInfo "Processing ALM event:" >>
    let* data := liftE (Js.prop event "data") in
    if (Js.truthy data && Js.truthy (Js.getProp data "loId"))%bool then
      let* loId := liftE (asString (Js.getProp data "loId")) in
      let loIdParts := split ":" loId in
      if (List.length loIdParts =? 2)%nat then
        let courseId := JStr (nth 1 loIdParts EmptyString) in
        Eff.log LInfo ("Extracted course ID from ALM webhook: " +:+ Js.toStr courseId) >>
        if Js.truthy (Js.getProp data "instanceId") then
          Eff.log LInfo ("Instance ID provided in ALM webhook: " +:+
                         Js.toStr (Js.getProp data "instanceId")) >>
          retM (inr (courseId, Js.getProp data "instanceId"))
        else
          Eff.log LInfo "No instance ID in ALM webhook - will fetch all instances for this course" >>
          retM (inr (courseId, JNull))
      else
        let* r := errorResponse 400 ("Invalid loId format: " +:+ loId) in
        retM (inl r)
    else
      let* r := errorResponse 400 "Missing loId in event data" in
      retM (inl r)
  else if Js.truthy (Js.getProp params "__ow_path") then
    Eff.log LInfo "Processing URL path:" >>
    let* given := liftE (asString (Js.getProp params "__ow_path")) in
    let path := if negb (startsWith "/" given) then "/" +:+ given else given in
    if negb (includes "/overview/trainingId/" path) then
      let* r := errorResponse 404 (path +:+ " is not a course overlay path") in
      retM (inl r)
    else
      let pathParts := List.filter (fun part => (0 <? String.length part)%nat) (split "/" path) in
      if ((3 <=? List.length pathParts)%nat &&
          String.eqb (nth 0 pathParts EmptyString) "overview" &&
          String.eqb (nth 1 pathParts EmptyString) "trainingId")%bool then
        let courseId := JStr (nth 2 pathParts EmptyString) in
        if ((5 <=? List.length pathParts)%nat &&
            String.eqb (nth 3 pathParts EmptyString) "trainingInstanceId")%bool
        then retM (inr (courseId, JStr (nth 4 pathParts EmptyString)))
        else retM (inr (courseId, JNull))
      else retM (inr (JNull, JNull))
  else
    Eff.log LError "No valid webhook payload or URL path found" >>
    Eff.log LError "Available params keys:" >>
    let* r := errorResponse 400 "Missing webhook payload or URL path" in
    retM (inl r).

Definition htmlHeaders : list (string * string) :=
  [("Content-Type", "text/html");
   ("Cache-Control", "no-cache, no-store, must-revalidate");
   ("Pragma", "no-cache");
   ("Expires", "0")].

(** The end of the `try` block of `main`, once the identifiers are known,
    for a given publisher. The promise the publisher returns is not
    awaited: its requests and log entries are recorded after those of
    `main`, its rejection is only logged by the `catch` callback. *)
Definition respond (publish : JsVal -> JsVal -> JsVal -> M unit)
    (E : Engine) (params : JsVal) (ids : ActionResult + JsVal * JsVal) : M ActionResult :=
  match ids with
  | inl early => retM early
  | inr (courseId, instanceId) =>
      if negb (Js.truthy courseId) then
        errorResponse 400 "Could not extract course ID from request"
      else
        Eff.log LInfo ("Processing course ID: " +:+ Js.toStr courseId +:+ ", instance ID: " +:+
                       Js.toStr instanceId) >>
        let* courseData := fetchCourseData courseId in
        if negb (Js.truthy courseData) then errorResponse 404 "Course not found"
        else
          let* processedData := CourseViewer.processCourseData E courseData courseId instanceId in
          let* html := Html.generateCourseHTML processedData in
          let response := Response 200 html htmlHeaders in
          Eff.log LInfo ("200: Course HTML rendered successfully for " +:+ Js.toStr courseId) >>
          tryCatch (publish courseId instanceId params)
                   (fun _ => Eff.log LError "Error publishing to EDS cache:") >>
          retM response
  end.

(** The body of the `try` block of `main`. *)
Definition mainBodyWith (publish : JsVal -> JsVal -> JsVal -> M unit)
    (E : Engine) (params : JsVal) : M ActionResult :=
  Eff.log LInfo "Invoked course-viewer action" >>
  Eff.log LInfo "Received params keys:" >>
  Eff.log LInfo "Received payload:" >>
  if Js.strictEq (Js.getProp params "message") (JStr "Test Connection") then
    Eff.log LInfo "Received test connection from webhook - returning success response" >>
    let* timestamp := Eff.nowISO in
    retM (Response 200
            (jsonStringify E
               (JObj [("status", JStr "success");
                      ("message", JStr "Webhook endpoint is working correctly");
                      ("timestamp", JStr timestamp)]))
            [("Content-Type", "application/json")])
  else
    let* found := detectWebhook E params in
    let* webhookData := reconstructWebhook params found in
    let* ids := extractIds E params webhookData in
    respond publish E params ids.

(** [[
    async function main(params) {
      const logger = Core.Logger('course-viewer', { level: params.LOG_LEVEL || 'debug' })
      try { ... } catch (error) {
        logger.error('Error in course-viewer action:', error);
        return errorResponse(500, 'server error', logger);
      }
    }
    ]] *)
Definition mainWith (publish : JsVal -> JsVal -> JsVal -> M unit)
    (E : Engine) (params : JsVal) : M ActionResult :=
  let* level := liftE (Js.prop params "LOG_LEVEL") in
  tryCatch (mainBodyWith publish E params)
           (fun _ =>
              Eff.log LError "Error in course-viewer action:" >>
              errorResponse 500 "server error").


Definition main (E : Engine) (params : JsVal) : M ActionResult :=
  mainWith (publishToEdsCache E) E params.

End Action.

(* ===================================================================== *)
(** * helpers.js: the extractors, the API client and the templates *)
(* ===================================================================== *)

(** An entry of the list `extractAuthors` returns. *)
Record Author : Type := {
  author_name : JsVal;
  author_email : JsVal
}.

(** An entry of the list `extractInstances` returns. *)
Record InstanceSummary : Type := {
  sum_id : JsVal;
  sum_name : JsVal;
  sum_state : JsVal;
  sum_enrollmentDeadline : JsVal;
  sum_completionDeadline : JsVal
}.

Module HelpersApi.
Import Str ExcOps.

(** [[
    function extractSkills(apiResponse) {
      if (!apiResponse.included) return [];
      return apiResponse.included
        .filter(item => item.type === 'skill')
        .map(skill => skill.attributes.name);
    }
    ]] *)
Definition extractSkills (apiResponse : JsVal) : Exc (list JsVal) :=
  let? included := Js.prop apiResponse "included" in
  if negb (Js.truthy included) then Ret []
  else
    let? items := asArray included in
    let? skills :=
      filter (fun item =>
                let? ty := Js.prop item "type" in
                Ret (Js.strictEq ty (JStr "skill"))) items in
    map (fun skill =>
           let? attributes := Js.prop skill "attributes" in
           Js.prop attributes "name") skills.

(** [[
    function extractAuthors(apiResponse) {
      if (!apiResponse.included) return [];
      return apiResponse.included
        .filter(item => item.type === 'user' && item.attributes)
        .map(author => ({
          name: author.attributes.name || 'Unknown Author',
          email: author.attributes.email || ''
        }));
    }
    ]] *)
Definition extractAuthors (apiResponse : JsVal) : Exc (list Author) :=
  let? included := Js.prop apiResponse "included" in
  if negb (Js.truthy included) then Ret []
  else
    let? items := asArray included in
    let? authors :=
      filter (fun item =>
                let? ty := Js.prop item "type" in
                if Js.strictEq ty (JStr "user") then
                  let? attributes := Js.prop item "attributes" in
                  Ret (Js.truthy attributes)
                else Ret false) items in
    map (fun author =>
           let? attributes := Js.prop author "attributes" in
           let? name := Js.prop attributes "name" in
           let? email := Js.prop attributes "email" in
           Ret {| author_name := Js.or name (JStr "Unknown Author");
                  author_email := Js.or email (JStr "") |}) authors.

(** [[
    function extractInstances(apiResponse) {
      if (!apiResponse.included) return [];
      return apiResponse.included
        .filter(item => item.type === 'learningObjectInstance')
        .map(instance => ({
          id: instance.id,
          name: safeGet(instance, 'attributes.localizedMetadata.0.name', 'Unnamed Instance'),
          state: safeGet(instance, 'attributes.state', 'Unknown'),
          enrollmentDeadline: safeGet(instance, 'attributes.enrollmentDeadline', 'No deadline'),
          completionDeadline: safeGet(instance, 'attributes.completionDeadline', 'No deadline')
        }));
    }
    ]] *)
Definition extractInstances (apiResponse : JsVal) : Exc (list InstanceSummary) :=
  let? included := Js.prop apiResponse "included" in
  if negb (Js.truthy included) then Ret []
  else
    let? items := asArray included in
    let? instances :=
      filter (fun item =>
                let? ty := Js.prop item "type" in
                Ret (Js.strictEq ty (JStr "learningObjectInstance"))) items in
    map (fun instance =>
           let? id := Js.prop instance "id" in
           Ret {| sum_id := id;
                  sum_name :=
                    Helpers.safeGet instance "attributes.localizedMetadata.0.name"
                      (JStr "Unnamed Instance");
                  sum_state := Helpers.safeGet instance "attributes.state" (JStr "Unknown");
                  sum_enrollmentDeadline :=
                    Helpers.safeGet instance "attributes.enrollmentDeadline" (JStr "No deadline");
                  sum_completionDeadline :=
                    Helpers.safeGet instance "attributes.completionDeadline" (JStr "No deadline") |})
        instances.

(** An exception is carried as the text `String(error)` gives, the name of
    the error first and its message after a colon; [errorName] is
    `error.name`. *)
Definition errorName (error : string) : string :=
  match split ":" error with
  | name :: _ => name
  | [] => EmptyString
  end.

(** The request of `getData`. *)
Definition dataRequest (apiUrl token : string) : Request :=
  {| req_method := "GET";
     req_url := apiUrl;
     req_headers := [("Authorization", "Bearer " +:+ token);
                     ("Content-Type", "application/json");
                     ("User-Agent", "ALM-Course-Viewer/1.0")];
     req_body := None |}.

(** [[
    async function getData(apiUrl, token, logger) {
      if (!token || typeof token !== 'string') {
        throw new Error('Valid ALM access token is required');
      }
      if (!apiUrl || typeof apiUrl !== 'string') {
        throw new Error('Valid API URL is required');
      }
      try {
        logger.info('Making API request', ...);
        const response = await fetch(apiUrl, { method: 'GET', headers: ..., timeout: 30000 });
        if (!response.ok) {
          const errorText = await response.text().catch(() => 'Unknown error');
          logger.error('API request failed', ...);
          throw new Error(`API call failed with status: ${response.status} - ${response.statusText}`);
        }
        const data = await response.json();
        logger.info('API request successful',
                    { hasData: !!data.data, includedCount: data.included ? data.included.length : 0 });
        return data;
      } catch (error) {
        if (error.name === 'AbortError') {
          throw new Error('API request timeout');
        }
        logger.error('API request error', { error: error.message });
        throw error;
      }
    }
    ]] *)
Definition getData (apiUrl token : JsVal) : M JsVal :=
  if (negb (Js.truthy token) || negb (Js.isString token))%bool then
    throwM "Error: Valid ALM access token is required"
  else if (negb (Js.truthy apiUrl) || negb (Js.isString apiUrl))%bool then
    throwM "Error: Valid API URL is required"
  else
    tryCatch
      (Eff.log LInfo "Making API request" >>
       let* response := Eff.fetch (dataRequest (Js.toStr apiUrl) (Js.toStr token)) in
       if negb (res_ok response) then
         Eff.log LError "API request failed" >>
         throwM ("Error: API call failed with status: " +:+ ofZ (res_status response) +:+
                 " - " +:+ res_statusText response)
       else
         let* data := Eff.json response in
         let* hasData := liftE (Js.prop data "data") in
         let* included := liftE (Js.prop data "included") in
         Eff.log LInfo "API request successful" >>
         retM data)
      (fun error =>
         if String.eqb (errorName error) "AbortError" then throwM "Error: API request timeout"
         else Eff.log LError "API request error" >> throwM error).

(** `\w` of a regular expression without the unicode flag *)
Definition isWordChar (c : ascii) : bool :=
  let n := nat_of_ascii c in
  ((Nat.leb 48 n && Nat.leb n 57) || (Nat.leb 65 n && Nat.leb n 90) ||
   (Nat.leb 97 n && Nat.leb n 122) || Nat.eqb n 95)%bool.

(** The longest run of word characters [s] starts with, and what follows
    it: the greedy `\w+`, which gives nothing back since no word character
    is a closing brace. *)
Fixpoint spanWord (s : string) : string * string :=
  match s with
  | EmptyString => (EmptyString, EmptyString)
  | String c s' =>
      if isWordChar c then
        let (key, rest) := spanWord s' in (String c key, rest)
      else (EmptyString, s)
  end.

(** A match of the pattern `\{\{(\w+)\}\}` at the very start of [s]: the
    key it captures. *)
Definition placeholderAt (s : string) : option string :=
  match s with
  | String a (String b s') =>
      if (Ascii.eqb a "{" && Ascii.eqb b "{")%bool then
        match spanWord s' with
        | (String c key, rest) => if startsWith "}}" rest then Some (String c key) else None
        | (EmptyString, _) => None
        end
      else None
  | _ => None
  end.

(** The value is neither null nor undefined and has the own property
    [key]. *)
Definition hasOwn (v : JsVal) (key : string) : bool :=
  match v with
  | JObj fields => existsb (fun '(k, _) => String.eqb k key) fields
  | JArr xs =>
      (String.eqb key "length" ||
       match arrayIndex key with Some i => Nat.ltb i (List.length xs) | None => false end)%bool
  | JStr s =>
      (String.eqb key "length" ||
       match arrayIndex key with Some i => Nat.ltb i (String.length s) | None => false end)%bool
  | _ => false
  end.

(** The text that replaces a match whose key is [key], when the callback
    finds `data[key]` defined: the value of an own property, or the member
    [data] inherits under that name (a method of its prototype), which
    [inherited] renders; None when `data[key]` is undefined. *)
Definition memberText (inherited : JsVal -> string -> option string) (data : JsVal)
    (key : string) : option string :=
  if hasOwn data key then
    match Js.getProp data key with
    | JUndef => None
    | value => Some (Js.toStr value)
    end
  else inherited data key.

(** The scan of `replace` with the global pattern: at each position that
    is not inside the previous match, a match is replaced and passed over,
    another character is copied. [skip] counts the characters of the
    previous match still to pass over. *)
Fixpoint replacePlaceholders (inherited : JsVal -> string -> option string) (data : JsVal)
    (skip : nat) (s : string) : Exc string :=
  match s with
  | EmptyString => Ret EmptyString
  | String c s' =>
      match skip with
      | S skip' => replacePlaceholders inherited data skip' s'
      | O =>
          match placeholderAt s with
          | Some key =>
              let? checked := Js.prop data key in
              let replacement :=
                match memberText inherited data key with
                | Some text => text
                | None => "{{" +:+ key +:+ "}}"
                end in
              let? rest := replacePlaceholders inherited data (String.length key + 3) s' in
              Ret (replacement +:+ rest)
          | None =>
              let? rest := replacePlaceholders inherited data 0 s' in
              Ret (String c rest)
          end
      end
  end.

(** [[
    function renderTemplate(templateString, data) {
      return templateString.replace(/\{\{(\w+)\}\}/g, (match, key) => {
        return data[key] !== undefined ? data[key] : match;
      });
    }
    ]] *)
Definition renderTemplate (inherited : JsVal -> string -> option string)
    (templateString data : JsVal) : Exc string :=
  let? template := asString templateString in
  replacePlaceholders inherited data 0 template.

(** [[
    function templateExists(templateName) {
      return templateName === 'demo-course';
    }
    ]] *)
Definition templateExists (templateName : JsVal) : bool :=
  Js.strictEq templateName (JStr "demo-course").

End HelpersApi.

(* ===================================================================== *)
(** * The document the browser builds from the markup *)
(* ===================================================================== *)

(** A tag of the markup: its name (an end tag keeps its slash) and its
    attributes, each name once, in source order. *)
Record Tag : Type := {
  tag_name : string;
  tag_attrs : list (string * string)
}.

(** The browser is not part of the repository. [Dom] models the part of it
    that `getCourseDataFromMeta` relies on: the tokenization of tags and
    comments of the HTML standard, and `querySelector` for a `meta` element
    selected by its `name` attribute. Tag and attribute names are
    lower-cased, the first of two attributes of the same name wins, quoted
    attribute values end at the matching quote. The input is taken as it
    is written: character references are not decoded, line breaks are not
    normalised, and the contents of `title`, `script` and `style` are
    scanned like any other text. *)
Module Dom.

Inductive Mode : Type :=
| Data
| TagOpen
| EndTagOpen
| MarkupOpen (dashes : nat)
| CommentStart
| CommentStartDash
| Comment (dashes : nat)
| CommentBang
| Bogus
| TagName (tag : string)
| BeforeAttrName (tag : string) (attrs : list (string * string))
| AttrName (tag : string) (attrs : list (string * string)) (name : string)
| AfterAttrName (tag : string) (attrs : list (string * string)) (name : string)
| BeforeAttrValue (tag : string) (attrs : list (string * string)) (name : string)
| AttrValueQuoted (quote : ascii) (tag : string) (attrs : list (string * string))
    (name value : string)
| AttrValueUnquoted (tag : string) (attrs : list (string * string)) (name value : string)
| AfterAttrValue (tag : string) (attrs : list (string * string))
| SelfClosing (tag : string) (attrs : list (string * string)).

Definition isSpace (c : ascii) : bool :=
  let n := nat_of_ascii c in
  ((n =? 9) || (n =? 10) || (n =? 12) || (n =? 13) || (n =? 32))%nat.

Definition isAlpha (c : ascii) : bool :=
  let n := nat_of_ascii c in
  ((Nat.leb 65 n && Nat.leb n 90) || (Nat.leb 97 n && Nat.leb n 122))%bool.

Definition lower (c : ascii) : ascii :=
  if Str.isUpper c then ascii_of_nat (nat_of_ascii c + 32) else c.

Definition snoc (s : string) (c : ascii) : string := s +:+ String c EmptyString.

Fixpoint hasAttr (name : string) (attrs : list (string * string)) : bool :=
  match attrs with
  | [] => false
  | (k, _) :: rest => if String.eqb k name then true else hasAttr name rest
  end.

Definition addAttr (attrs : list (string * string)) (name value : string)
    : list (string * string) :=
  if hasAttr name attrs then attrs else attrs ++ [(name, value)].

Definition emit (tags : list Tag) (tag : string) (attrs : list (string * string)) : list Tag :=
  tags ++ [{| tag_name := tag; tag_attrs := attrs |}].

(** The states that look for the next attribute name *)
Definition beforeAttrName (tags : list Tag) (tag : string) (attrs : list (string * string))
    (c : ascii) : Mode * list Tag :=
  if isSpace c then (BeforeAttrName tag attrs, tags)
  else if Ascii.eqb c "/" then (SelfClosing tag attrs, tags)
  else if Ascii.eqb c ">" then (Data, emit tags tag attrs)
  else (AttrName tag attrs (String (lower c) EmptyString), tags).

Definition step (st : Mode * list Tag) (c : ascii) : Mode * list Tag :=
  let (mode, tags) := st in
  match mode with
  | Data => if Ascii.eqb c "<" then (TagOpen, tags) else (Data, tags)
  | TagOpen =>
      if Ascii.eqb c "!" then (MarkupOpen 0, tags)
      else if Ascii.eqb c "/" then (EndTagOpen, tags)
      else if isAlpha c then (TagName (String (lower c) EmptyString), tags)
      else if Ascii.eqb c "?" then (Bogus, tags)
      else if Ascii.eqb c "<" then (TagOpen, tags)
      else (Data, tags)
  | EndTagOpen =>
      if isAlpha c then (TagName (String "/" (String (lower c) EmptyString)), tags)
      else if Ascii.eqb c ">" then (Data, tags)
      else (Bogus, tags)
  | MarkupOpen O =>
      if Ascii.eqb c "-" then (MarkupOpen 1, tags)
      else if Ascii.eqb c ">" then (Data, tags)
      else (Bogus, tags)
  | MarkupOpen (S _) =>
      if Ascii.eqb c "-" then (CommentStart, tags)
      else if Ascii.eqb c ">" then (Data, tags)
      else (Bogus, tags)
  | CommentStart =>
      if Ascii.eqb c "-" then (CommentStartDash, tags)
      else if Ascii.eqb c ">" then (Data, tags)
      else (Comment 0, tags)
  | CommentStartDash =>
      if Ascii.eqb c "-" then (Comment 2, tags)
      else if Ascii.eqb c ">" then (Data, tags)
      else (Comment 0, tags)
  | Comment O => if Ascii.eqb c "-" then (Comment 1, tags) else (Comment 0, tags)
  | Comment (S O) => if Ascii.eqb c "-" then (Comment 2, tags) else (Comment 0, tags)
  | Comment (S (S _)) =>
      if Ascii.eqb c ">" then (Data, tags)
      else if Ascii.eqb c "!" then (CommentBang, tags)
      else if Ascii.eqb c "-" then (Comment 2, tags)
      else (Comment 0, tags)
  | CommentBang =>
      if Ascii.eqb c "-" then (Comment 1, tags)
      else if Ascii.eqb c ">" then (Data, tags)
      else (Comment 0, tags)
  | Bogus => if Ascii.eqb c ">" then (Data, tags) else (Bogus, tags)
  | TagName tag =>
      if isSpace c then (BeforeAttrName tag [], tags)
      else if Ascii.eqb c "/" then (SelfClosing tag [], tags)
      else if Ascii.eqb c ">" then (Data, emit tags tag [])
      else (TagName (snoc tag (lower c)), tags)
  | BeforeAttrName tag attrs => beforeAttrName tags tag attrs c
  | AttrName tag attrs name =>
      if isSpace c then (AfterAttrName tag attrs name, tags)
      else if Ascii.eqb c "/" then (SelfClosing tag (addAttr attrs name EmptyString), tags)
      else if Ascii.eqb c ">" then (Data, emit tags tag (addAttr attrs name EmptyString))
      else if Ascii.eqb c "=" then (BeforeAttrValue tag attrs name, tags)
      else (AttrName tag attrs (snoc name (lower c)), tags)
  | AfterAttrName tag attrs name =>
      if isSpace c then (AfterAttrName tag attrs name, tags)
      else if Ascii.eqb c "/" then (SelfClosing tag (addAttr attrs name EmptyString), tags)
      else if Ascii.eqb c "=" then (BeforeAttrValue tag attrs name, tags)
      else if Ascii.eqb c ">" then (Data, emit tags tag (addAttr attrs name EmptyString))
      else (AttrName tag (addAttr attrs name EmptyString) (String (lower c) EmptyString), tags)
  | BeforeAttrValue tag attrs name =>
      if isSpace c then (BeforeAttrValue tag attrs name, tags)
      else if Ascii.eqb c Str.dqChar then
        (AttrValueQuoted Str.dqChar tag attrs name EmptyString, tags)
      else if Ascii.eqb c "'" then (AttrValueQuoted "'" tag attrs name EmptyString, tags)
      else if Ascii.eqb c ">" then (Data, emit tags tag (addAttr attrs name EmptyString))
      else (AttrValueUnquoted tag attrs name (String c EmptyString), tags)
  | AttrValueQuoted quote tag attrs name value =>
      if Ascii.eqb c quote then (AfterAttrValue tag (addAttr attrs name value), tags)
      else (AttrValueQuoted quote tag attrs name (snoc value c), tags)
  | AttrValueUnquoted tag attrs name value =>
      if isSpace c then (BeforeAttrName tag (addAttr attrs name value), tags)
      else if Ascii.eqb c ">" then (Data, emit tags tag (addAttr attrs name value))
      else (AttrValueUnquoted tag attrs name (snoc value c), tags)
  | AfterAttrValue tag attrs => beforeAttrName tags tag attrs c
  | SelfClosing tag attrs =>
      if Ascii.eqb c ">" then (Data, emit tags tag attrs)
      else beforeAttrName tags tag attrs c
  end.

Fixpoint run (st : Mode * list Tag) (markup : string) : Mode * list Tag :=
  match markup with
  | EmptyString => st
  | String c rest => run (step st c) rest
  end.

(** The tags of a document, in document order *)
Definition parse (markup : string) : list Tag := snd (run (Data, []) markup).

Fixpoint attr (name : string) (attrs : list (string * string)) : option string :=
  match attrs with
  | [] => None
  | (k, v) :: rest => if String.eqb k name then Some v else attr name rest
  end.

(** `document.querySelector('meta[name=..]')` with the name between
    quotes *)
Definition querySelectorMeta (name : string) (document : list Tag) : option Tag :=
  List.find (fun t => (String.eqb (tag_name t) "meta" &&
                       match attr "name" (tag_attrs t) with
                       | Some v => String.eqb v name
                       | None => false
                       end)%bool) document.

(** `element.content` of a meta element: the attribute, or the empty
    string *)
Definition content (t : Tag) : string :=
  match attr "content" (tag_attrs t) with
  | Some v => v
  | None => EmptyString
  end.

End Dom.

(* ===================================================================== *)
(** * course-info.js *)
(* ===================================================================== *)

Record MetaCourseData : Type := {
  meta_courseId : string;
  meta_courseTitle : string;
  meta_courseDuration : string;
  meta_courseSkillLevel : string;
  meta_courseSkills : string;
  meta_courseDescription : string
}.

(** What the block reads and writes of the page it is on: the tags of the
    document, the path of the location, the markup and the classes of the
    block, the number of pending timeouts the block has set, whether the
    click handlers are installed on `window`, and the console (the first
    argument of each call). *)
Record Page : Type := {
  page_document : list Tag;
  page_pathname : string;
  block_innerHTML : string;
  block_classList : list string;
  page_timeouts : nat;
  page_handlers : bool;
  page_console : list string
}.

Module CourseInfo.
Import Str.

(** `document.querySelector(sel)?.content || ''` *)
Definition metaContent (document : list Tag) (name : string) : string :=
  match Dom.querySelectorMeta name document with
  | Some t => if String.eqb (Dom.content t) "" then EmptyString else Dom.content t
  | None => EmptyString
  end.

Definition getCourseDataFromMeta (document : list Tag) : MetaCourseData :=
  {| meta_courseId := metaContent document "course-id";
     meta_courseTitle := metaContent document "course-title";
     meta_courseDuration := metaContent document "course-duration";
     meta_courseSkillLevel := metaContent document "course-skill-level";
     meta_courseSkills := metaContent document "course-skills";
     meta_courseDescription := metaContent document "description" |}.

(** `s || fallback` for a string [s] *)
Definition orElse (s fallback : string) : string :=
  if String.eqb s "" then fallback else s.

(** The markup `createCourseInfoContent` returns: the fields are
    interpolated as they are. *)
Definition createCourseInfoContent (courseData : MetaCourseData) : string :=
  nl +:+
  "    <div class=" +:+ q "course-header" +:+ ">" +:+ nl +:+
  "      <h2 class=" +:+ q "course-title" +:+ ">" +:+ orElse (meta_courseTitle courseData) "Course Title Not Available" +:+ "</h2>" +:+ nl +:+
  "      <div class=" +:+ q "course-id" +:+ ">Course ID: " +:+ orElse (meta_courseId courseData) "Not Available" +:+ "</div>" +:+ nl +:+
  "    </div>" +:+ nl +:+
  "    " +:+ nl +:+
  "    <div class=" +:+ q "course-meta" +:+ ">" +:+ nl +:+
  "      <div class=" +:+ q "course-meta-item" +:+ ">" +:+ nl +:+
  "        <span class=" +:+ q "meta-label" +:+ ">Duration</span>" +:+ nl +:+
  "        <span class=" +:+ q "meta-value" +:+ ">" +:+ orElse (meta_courseDuration courseData) "N/A" +:+ "</span>" +:+ nl +:+
  "      </div>" +:+ nl +:+
  "      <div class=" +:+ q "course-meta-item" +:+ ">" +:+ nl +:+
  "        <span class=" +:+ q "meta-label" +:+ ">Skill Level</span>" +:+ nl +:+
  "        <span class=" +:+ q "meta-value" +:+ ">" +:+ orElse (meta_courseSkillLevel courseData) "N/A" +:+ "</span>" +:+ nl +:+
  "      </div>" +:+ nl +:+
  "      <div class=" +:+ q "course-meta-item" +:+ ">" +:+ nl +:+
  "        <span class=" +:+ q "meta-label" +:+ ">Skills</span>" +:+ nl +:+
  "        <span class=" +:+ q "meta-value" +:+ ">" +:+ orElse (meta_courseSkills courseData) "N/A" +:+ "</span>" +:+ nl +:+
  "      </div>" +:+ nl +:+
  "    </div>" +:+ nl +:+
  "    " +:+ nl +:+
  "    <div class=" +:+ q "course-description" +:+ ">" +:+ nl +:+
  "      <h3>Description</h3>" +:+ nl +:+
  "      <p>" +:+ orElse (meta_courseDescription courseData) "No description available" +:+ "</p>" +:+ nl +:+
  "    </div>" +:+ nl +:+
  "    " +:+ nl +:+
  "    <div class=" +:+ q "course-actions" +:+ ">" +:+ nl +:+
  "      <button class=" +:+ q "course-action-btn primary" +:+ " onclick=" +:+ dq +:+ "handleEnrollClick('" +:+ meta_courseId courseData +:+ "')" +:+ dq +:+ ">" +:+ nl +:+
  "        Enroll Now" +:+ nl +:+
  "      </button>" +:+ nl +:+
  "      <button class=" +:+ q "course-action-btn secondary" +:+ " onclick=" +:+ dq +:+ "handleViewDetailsClick('" +:+ meta_courseId courseData +:+ "')" +:+ dq +:+ ">" +:+ nl +:+
  "        View Details" +:+ nl +:+
  "      </button>" +:+ nl +:+
  "    </div>" +:+ nl +:+
  "  ".

(** The loading state and the placeholder of the block. *)
Definition loadingHTML : string :=
  nl +:+
  "        <div class=" +:+ q "course-info-loading" +:+ ">" +:+ nl +:+
  "          <h3>🔄 Loading Course Information...</h3>" +:+ nl +:+
  "          <p>Waiting for course data to be loaded by the overlay action.</p>" +:+ nl +:+
  "          <div class=" +:+ q "loading-spinner" +:+ "></div>" +:+ nl +:+
  "        </div>" +:+ nl +:+
  "      ".

Definition placeholderHTML : string :=
  nl +:+
  "        <div class=" +:+ q "course-info-placeholder" +:+ ">" +:+ nl +:+
  "          <h3>📚 Course Information Block</h3>" +:+ nl +:+
  "          <p>This block displays course information when viewing a course page.</p>" +:+ nl +:+
  "          <p>Navigate to a course URL like:</p>" +:+ nl +:+
  "          <code>/overview/trainingId/7235188/trainingInstanceId/7235188-7875849</code>" +:+ nl +:+
  "          <p><small>Course data is provided by the App Builder overlay action.</small></p>" +:+ nl +:+
  "        </div>" +:+ nl +:+
  "      ".

(** `block.classList.add(name)` *)
Definition classListAdd (name : string) (classes : list string) : list string :=
  if existsb (String.eqb name) classes then classes else classes ++ [name].

(** [[
    export default function decorate(block) {
      const courseData = getCourseDataFromMeta();
      if (!courseData.courseId) {
        const isCoursePage = window.location.pathname.includes('/overview/trainingId/') ||
                            window.location.pathname.includes('/course/');
        if (isCoursePage) {
          block.innerHTML = `...`;
          setTimeout(() => {
            const retryData = getCourseDataFromMeta();
            if (retryData.courseId) {
              decorate(block); // Retry decoration
            }
          }, 2000);
        } else {
          block.innerHTML = `...`;
        }
        return;
      }
      console.log('Course Info Block - Course data loaded:', courseData);
      block.innerHTML = createCourseInfoContent(courseData);
      block.classList.add('course-info-loaded');
      window.handleEnrollClick = handleEnrollClick;
      window.handleViewDetailsClick = handleViewDetailsClick;
      console.log('Course Info Block decorated successfully');
    }
    ]] *)
Definition decorate (page : Page) : Page :=
  let courseData := getCourseDataFromMeta (page_document page) in
  if String.eqb (meta_courseId courseData) "" then
    let isCoursePage :=
      (Str.includes "/overview/trainingId/" (page_pathname page) ||
       Str.includes "/course/" (page_pathname page))%bool in
    if isCoursePage then
      {| page_document := page_document page;
         page_pathname := page_pathname page;
         block_innerHTML := loadingHTML;
         block_classList := block_classList page;
         page_timeouts := S (page_timeouts page);
         page_handlers := page_handlers page;
         page_console := page_console page |}
    else
      {| page_document := page_document page;
         page_pathname := page_pathname page;
         block_innerHTML := placeholderHTML;
         block_classList := block_classList page;
         page_timeouts := page_timeouts page;
         page_handlers := page_handlers page;
         page_console := page_console page |}
  else
    {| page_document := page_document page;
       page_pathname := page_pathname page;
       block_innerHTML := createCourseInfoContent courseData;
       block_classList := classListAdd "course-info-loaded" (block_classList page);
       page_timeouts := page_timeouts page;
       page_handlers := true;
       page_console := page_console page ++
                       ["Course Info Block - Course data loaded:";
                        "Course Info Block decorated successfully"] |}.

(** The callback `decorate` hands to `setTimeout`, when it fires: it is
    one pending timeout less. *)
Definition retry (page : Page) : Page :=
  let fired :=
    {| page_document := page_document page;
       page_pathname := page_pathname page;
       block_innerHTML := block_innerHTML page;
       block_classList := block_classList page;
       page_timeouts := Nat.pred (page_timeouts page);
       page_handlers := page_handlers page;
       page_console := page_console page |} in
  let retryData := getCourseDataFromMeta (page_document fired) in
  if String.eqb (meta_courseId retryData) "" then fired else decorate fired.

End CourseInfo.

(* ===================================================================== *)
(** * alm-auth.js *)
(* ===================================================================== *)

Module AlmAuth.

Definition ACCESS_TOKEN : string := "alm_access_token".
Definition REFRESH_TOKEN : string := "alm_refresh_token".
Definition TOKEN_EXPIRY : string := "alm_token_expiry".
Definition USER_INFO : string := "alm_user_info".

(** `!s` for the result of `sessionStorage.getItem`: null or a string *)
Definition missing (item : option string) : bool :=
  match item with
  | None => true
  | Some s => String.eqb s ""
  end.

(** [[
    function isAuthenticated() {
      const token = sessionStorage.getItem(STORAGE_KEYS.ACCESS_TOKEN);
      const expiry = sessionStorage.getItem(STORAGE_KEYS.TOKEN_EXPIRY);
      if (!token || !expiry) {
        return false;
      }
      const expiryTime = parseInt(expiry);
      const currentTime = Date.now();
      const bufferTime = 5 * 60 * 1000; // 5 minutes
      return currentTime < (expiryTime - bufferTime);
    }
    ]] *)
Definition isAuthenticated (E : Engine) (sessionStorage : gmap string string)
    (currentTime : Z) : bool :=
  let token := sessionStorage !! ACCESS_TOKEN in
  let expiry := sessionStorage !! TOKEN_EXPIRY in
  if (missing token || missing expiry)%bool then false
  else
    match expiry with
    | Some e =>
        match parseInt E e with
        | Some expiryTime =>
            let bufferTime := 5 * 60 * 1000 in
            currentTime <? expiryTime - bufferTime
        | None => false
        end
    | None => false
    end.

(** [[
    function getAccessToken() {
      if (!isAuthenticated()) {
        return null;
      }
      return sessionStorage.getItem(STORAGE_KEYS.ACCESS_TOKEN);
    }
    ]] *)
Definition getAccessToken (E : Engine) (sessionStorage : gmap string string)
    (currentTime : Z) : option string :=
  if negb (isAuthenticated E sessionStorage currentTime) then None
  else sessionStorage !! ACCESS_TOKEN.

(** `clearTokens()` *)
Definition clearTokens (sessionStorage : gmap string string) : gmap string string :=
  delete USER_INFO (delete TOKEN_EXPIRY (delete REFRESH_TOKEN (delete ACCESS_TOKEN sessionStorage))).

(** `x * k` for a positive integer constant [k] *)
Definition times (x : JsNum) (k : Z) : JsNum :=
  match x with
  | Fin z => Fin (z * k)
  | other => other
  end.

(** `n + x` for an integer [n] *)
Definition plus (n : Z) (x : JsNum) : JsNum :=
  match x with
  | Fin z => Fin (n + z)
  | other => other
  end.

(** [[
    function storeTokens(tokenData) {
      const expiryTime = Date.now() + (tokenData.expires_in * 1000);
      sessionStorage.setItem(STORAGE_KEYS.ACCESS_TOKEN, tokenData.access_token);
      sessionStorage.setItem(STORAGE_KEYS.TOKEN_EXPIRY, expiryTime.toString());
      if (tokenData.refresh_token) {
        sessionStorage.setItem(STORAGE_KEYS.REFRESH_TOKEN, tokenData.refresh_token);
      }
    }
    ]]
    `setItem` stores the string its second argument converts to. *)
Definition storeTokens (E : Engine) (tokenData : JsVal) (currentTime : Z)
    (sessionStorage : gmap string string) : Exc (gmap string string) :=
  let? expires_in := Js.prop tokenData "expires_in" in
  let expiryTime := plus currentTime (times (Js.toNumber E expires_in) 1000) in
  let stored :=
    <[TOKEN_EXPIRY := Js.numToStr expiryTime]>
      (<[ACCESS_TOKEN := Js.toStr (Js.getProp tokenData "access_token")]> sessionStorage) in
  if Js.truthy (Js.getProp tokenData "refresh_token")
  then Ret (<[REFRESH_TOKEN := Js.toStr (Js.getProp tokenData "refresh_token")]> stored)
  else Ret stored.

(** [[
    function getUserInfo() {
      const userInfo = sessionStorage.getItem(STORAGE_KEYS.USER_INFO);
      return userInfo ? JSON.parse(userInfo) : null;
    }
    ]] *)
Definition getUserInfo (E : Engine) (sessionStorage : gmap string string) : Exc JsVal :=
  if missing (sessionStorage !! USER_INFO) then Ret JNull
  else
    match sessionStorage !! USER_INFO with
    | Some userInfo =>
        match jsonParse E userInfo with
        | Some v => Ret v
        | None => Throw "SyntaxError: invalid JSON"
        end
    | None => Ret JNull
    end.

End AlmAuth.

(* ===================================================================== *)
(** * alm-auth.js: the OAuth flows *)
(* ===================================================================== *)

(** What the script reads of the page it runs in: the location, the
    parameters of its query string (`URLSearchParams.get`), the successive
    readings of `Date.now()`, the successive results of
    `Math.random().toString(36)`, the answer of the network to the n-th
    request, and the serialization of a `URLSearchParams` (what
    `toString()` returns and what `fetch` sends as body). *)
Record Window : Type := {
  win_origin : string;
  win_pathname : string;
  win_query : string -> option string;
  win_now : nat -> Z;
  win_random36 : nat -> string;
  win_network : nat -> Request -> FetchResult;
  win_urlencoded : list (string * string) -> string
}.

(** What the script has done so far: the session storage, the values
    assigned to `window.location.href`, the requests sent, the messages of
    `console.error`, the login overlays appended to the body, and how often
    the clock and `Math.random()` have been read. *)
Record Browser : Type := {
  b_storage : gmap string string;
  b_href : list string;
  b_sent : list Request;
  b_errors : list string;
  b_prompts : nat;
  b_reads : nat;
  b_draws : nat
}.

Definition Script (A : Type) : Type := Window -> Browser -> Exc A * Browser.

Definition retS {A : Type} (a : A) : Script A := fun _ b => (Ret a, b).

Definition throwS {A : Type} (msg : string) : Script A := fun _ b => (Throw msg, b).

Definition bindS {A C : Type} (m : Script A) (k : A -> Script C) : Script C :=
  fun win b =>
    match m win b with
    | (Ret a, b') => k a win b'
    | (Throw msg, b') => (Throw msg, b')
    end.

(** `try { m } catch (error) { handler(error) }` *)
Definition catchS {A : Type} (m : Script A) (handler : string -> Script A) : Script A :=
  fun win b =>
    match m win b with
    | (Ret a, b') => (Ret a, b')
    | (Throw msg, b') => handler msg win b'
    end.

Notation "'let!' x ':=' m 'in' k" := (bindS m (fun x => k))
  (at level 10, x name, m at level 100, k at level 200).

Module Web.

Definition window : Script Window := fun win b => (Ret win, b).

Definition withStorage (storage : gmap string string) (b : Browser) : Browser :=
  {| b_storage := storage; b_href := b_href b; b_sent := b_sent b; b_errors := b_errors b;
     b_prompts := b_prompts b; b_reads := b_reads b; b_draws := b_draws b |}.

(** `sessionStorage.getItem(key)` *)
Definition getItem (key : string) : Script (option string) :=
  fun _ b => (Ret (b_storage b !! key), b).

(** `sessionStorage.setItem(key, value)` *)
Definition setItem (key value : string) : Script unit :=
  fun _ b => (Ret tt, withStorage (<[key := value]> (b_storage b)) b).

(** `sessionStorage.removeItem(key)` *)
Definition removeItem (key : string) : Script unit :=
  fun _ b => (Ret tt, withStorage (delete key (b_storage b)) b).

(** `Date.now()` *)
Definition dateNow : Script Z :=
  fun win b =>
    (Ret (win_now win (b_reads b)),
     {| b_storage := b_storage b; b_href := b_href b; b_sent := b_sent b;
        b_errors := b_errors b; b_prompts := b_prompts b; b_reads := S (b_reads b);
        b_draws := b_draws b |}).

(** `Math.random().toString(36)` *)
Definition random36 : Script string :=
  fun win b =>
    (Ret (win_random36 win (b_draws b)),
     {| b_storage := b_storage b; b_href := b_href b; b_sent := b_sent b;
        b_errors := b_errors b; b_prompts := b_prompts b; b_reads := b_reads b;
        b_draws := S (b_draws b) |}).

(** `await fetch(url, options)`: the request is recorded; a network
    failure rejects. *)
Definition fetch (r : Request) : Script FetchResponse :=
  fun win b =>
    let b' := {| b_storage := b_storage b; b_href := b_href b; b_sent := b_sent b ++ [r];
                 b_errors := b_errors b; b_prompts := b_prompts b; b_reads := b_reads b;
                 b_draws := b_draws b |} in
    match win_network win (List.length (b_sent b)) r with
    | NetworkError msg => (Throw msg, b')
    | Responded resp => (Ret resp, b')
    end.

(** `await response.json()` *)
Definition json (resp : FetchResponse) : Script JsVal :=
  match res_json resp with
  | Some v => retS v
  | None => throwS "SyntaxError: invalid json response body"
  end.

(** `window.location.href = url`: the navigation is recorded, the script
    goes on. *)
Definition assignHref (url : string) : Script unit :=
  fun _ b =>
    (Ret tt,
     {| b_storage := b_storage b; b_href := b_href b ++ [url]; b_sent := b_sent b;
        b_errors := b_errors b; b_prompts := b_prompts b; b_reads := b_reads b;
        b_draws := b_draws b |}).

(** `console.error(msg, ...)` *)
Definition consoleError (msg : string) : Script unit :=
  fun _ b =>
    (Ret tt,
     {| b_storage := b_storage b; b_href := b_href b; b_sent := b_sent b;
        b_errors := b_errors b ++ [msg]; b_prompts := b_prompts b; b_reads := b_reads b;
        b_draws := b_draws b |}).

(** `document.body.appendChild(overlay)` *)
Definition appendOverlay : Script unit :=
  fun _ b =>
    (Ret tt,
     {| b_storage := b_storage b; b_href := b_href b; b_sent := b_sent b;
        b_errors := b_errors b; b_prompts := S (b_prompts b); b_reads := b_reads b;
        b_draws := b_draws b |}).

Definition init : Browser :=
  {| b_storage := ∅; b_href := []; b_sent := []; b_errors := []; b_prompts := 0;
     b_reads := 0; b_draws := 0 |}.

End Web.

(** The options of a request, as far as `fetch` reads them here; the
    headers are the properties of `options.headers`, in their order. *)
Record Options : Type := {
  opt_method : option string;
  opt_headers : list (string * string);
  opt_body : option string
}.

Module AuthFlow.
Import Str.

(** [[
    const ALM_CONFIG = {
      clientId: 'your-client-id',
      redirectUri: window.location.origin + '/auth/callback',
      scope: 'learner:read learner:write',
      authUrl: 'https://learningmanager.adobe.com/oauth/o/authorize',
      tokenUrl: 'https://learningmanager.adobe.com/oauth/token',
      apiBaseUrl: 'https://learningmanager.adobe.com/primeapi/v2'
    };
    ]] *)
Definition clientId : string := "your-client-id".
Definition redirectUri (win : Window) : string := win_origin win +:+ "/auth/callback".
Definition scope : string := "learner:read learner:write".
Definition authUrl : string := "https://learningmanager.adobe.com/oauth/o/authorize".
Definition tokenUrl : string := "https://learningmanager.adobe.com/oauth/token".
Definition apiBaseUrl : string := "https://learningmanager.adobe.com/primeapi/v2".

Definition AUTH_RETURN_URL : string := "auth_return_url".

(** `isAuthenticated()` in the page: the clock is read only when both
    items are there. *)
Definition isAuthenticated (E : Engine) : Script bool :=
  fun win b =>
    if (AlmAuth.missing (b_storage b !! AlmAuth.ACCESS_TOKEN) ||
        AlmAuth.missing (b_storage b !! AlmAuth.TOKEN_EXPIRY))%bool
    then (Ret false, b)
    else
      (let! currentTime := Web.dateNow in
       retS (AlmAuth.isAuthenticated E (b_storage b) currentTime)) win b.

(** `getAccessToken()` in the page *)
Definition getAccessToken (E : Engine) : Script (option string) :=
  let! authenticated := isAuthenticated E in
  if negb authenticated then retS None
  else Web.getItem AlmAuth.ACCESS_TOKEN.

(** `storeTokens(tokenData)` in the page: the clock is read first, and
    nothing is stored when reading `tokenData.expires_in` throws. *)
Definition storeTokens (E : Engine) (tokenData : JsVal) : Script unit :=
  let! currentTime := Web.dateNow in
  fun _ b =>
    match AlmAuth.storeTokens E tokenData currentTime (b_storage b) with
    | Ret stored => (Ret tt, Web.withStorage stored b)
    | Throw msg => (Throw msg, b)
    end.

(** `clearTokens()` in the page *)
Definition clearTokens : Script unit :=
  fun _ b => (Ret tt, Web.withStorage (AlmAuth.clearTokens (b_storage b)) b).

(** [[
    function generateState() {
      return Math.random().toString(36).substring(2, 15) +
             Math.random().toString(36).substring(2, 15);
    }
    ]] *)
Definition generateState : Script string :=
  let! first := Web.random36 in
  let! second := Web.random36 in
  retS (String.substring 2 13 first +:+ String.substring 2 13 second).

(** [[
    function getAuthorizationUrl() {
      const params = new URLSearchParams({
        client_id: ALM_CONFIG.clientId,
        redirect_uri: ALM_CONFIG.redirectUri,
        scope: ALM_CONFIG.scope,
        response_type: 'code',
        state: generateState()
      });
      return `${ALM_CONFIG.authUrl}?${params.toString()}`;
    }
    ]] *)
Definition getAuthorizationUrl : Script string :=
  let! state := generateState in
  let! win := Web.window in
  retS (authUrl +:+ "?" +:+
        win_urlencoded win [("client_id", clientId);
                            ("redirect_uri", redirectUri win);
                            ("scope", scope);
                            ("response_type", "code");
                            ("state", state)]).

(** The POST both token requests send. *)
Definition tokenRequest (win : Window) (fields : list (string * string)) : Request :=
  {| req_method := "POST";
     req_url := tokenUrl;
     req_headers := [("Content-Type", "application/x-www-form-urlencoded")];
     req_body := Some (win_urlencoded win fields) |}.

(** [[
    async function exchangeCodeForToken(code) {
      const response = await fetch(ALM_CONFIG.tokenUrl, {
        method: 'POST',
        headers: { 'Content-Type': 'application/x-www-form-urlencoded' },
        body: new URLSearchParams({
          grant_type: 'authorization_code',
          client_id: ALM_CONFIG.clientId,
          code: code,
          redirect_uri: ALM_CONFIG.redirectUri
        })
      });
      if (!response.ok) {
        throw new Error(`Token exchange failed: ${response.status}`);
      }
      return response.json();
    }
    ]] *)
Definition exchangeCodeForToken (code : string) : Script JsVal :=
  let! win := Web.window in
  let! response :=
    Web.fetch (tokenRequest win [("grant_type", "authorization_code");
                                 ("client_id", clientId);
                                 ("code", code);
                                 ("redirect_uri", redirectUri win)]) in
  if negb (res_ok response) then
    throwS ("Error: Token exchange failed: " +:+ ofZ (res_status response))
  else Web.json response.

(** [[
    async function refreshAccessToken() {
      const refreshToken = sessionStorage.getItem(STORAGE_KEYS.REFRESH_TOKEN);
      if (!refreshToken) {
        throw new Error('No refresh token available');
      }
      const response = await fetch(ALM_CONFIG.tokenUrl, {
        method: 'POST',
        headers: { 'Content-Type': 'application/x-www-form-urlencoded' },
        body: new URLSearchParams({
          grant_type: 'refresh_token',
          client_id: ALM_CONFIG.clientId,
          refresh_token: refreshToken
        })
      });
      if (!response.ok) {
        throw new Error(`Token refresh failed: ${response.status}`);
      }
      return response.json();
    }
    ]] *)
Definition refreshAccessToken : Script JsVal :=
  let! refreshToken := Web.getItem AlmAuth.REFRESH_TOKEN in
  match refreshToken with
  | None => throwS "Error: No refresh token available"
  | Some token =>
      if String.eqb token "" then throwS "Error: No refresh token available"
      else
        let! win := Web.window in
        let! response :=
          Web.fetch (tokenRequest win [("grant_type", "refresh_token");
                                       ("client_id", clientId);
                                       ("refresh_token", token)]) in
        if negb (res_ok response) then
          throwS ("Error: Token refresh failed: " +:+ ofZ (res_status response))
        else Web.json response
  end.

(** [[
    function login() {
      const authUrl = getAuthorizationUrl();
      window.location.href = authUrl;
    }
    ]] *)
Definition login : Script unit :=
  let! url := getAuthorizationUrl in
  Web.assignHref url.

(** The request of `fetchUserInfo`. *)
Definition userRequest (token : string) : Request :=
  {| req_method := "GET";
     req_url := apiBaseUrl +:+ "/user";
     req_headers := [("Authorization", "oauth " +:+ token);
                     ("Accept", "application/vnd.api+json")];
     req_body := None |}.

(** [[
    async function fetchUserInfo() {
      const token = getAccessToken();
      if (!token) {
        throw new Error('No access token available');
      }
      const response = await fetch(`${ALM_CONFIG.apiBaseUrl}/user`, {
        headers: {
          'Authorization': `oauth ${token}`,
          'Accept': 'application/vnd.api+json'
        }
      });
      if (!response.ok) {
        throw new Error(`Failed to fetch user info: ${response.status}`);
      }
      const userData = await response.json();
      sessionStorage.setItem(STORAGE_KEYS.USER_INFO, JSON.stringify(userData));
      return userData;
    }
    ]] *)
Definition fetchUserInfo (E : Engine) : Script JsVal :=
  let! stored := getAccessToken E in
  match stored with
  | None => throwS "Error: No access token available"
  | Some token =>
      if String.eqb token "" then throwS "Error: No access token available"
      else
        let! response := Web.fetch (userRequest token) in
        if negb (res_ok response) then
          throwS ("Error: Failed to fetch user info: " +:+ ofZ (res_status response))
        else
          let! userData := Web.json response in
          let! _ := Web.setItem AlmAuth.USER_INFO (jsonStringify E userData) in
          retS userData
  end.

(** What `getItem` returns, as a value: the string or null. *)
Definition itemValue (item : option string) : JsVal :=
  match item with
  | Some text => JStr text
  | None => JNull
  end.

(** `sessionStorage.getItem('auth_return_url') || '/'` *)
Definition returnUrlOf (stored : option string) : string :=
  match stored with
  | Some url => if String.eqb url "" then "/" else url
  | None => "/"
  end.

(** [[
    async function handleCallback(code, state) {
      try {
        const tokenData = await exchangeCodeForToken(code);
        storeTokens(tokenData);
        await fetchUserInfo();
        const returnUrl = sessionStorage.getItem('auth_return_url') || '/';
        sessionStorage.removeItem('auth_return_url');
        window.location.href = returnUrl;
      } catch (error) {
        console.error('Authentication failed:', error);
        window.location.href = '/login?error=auth_failed';
      }
    }
    ]] *)
Definition handleCallback (E : Engine) (code state : string) : Script unit :=
  catchS
    (let! tokenData := exchangeCodeForToken code in
     let! _ := storeTokens E tokenData in
     let! _ := fetchUserInfo E in
     let! stored := Web.getItem AUTH_RETURN_URL in
     let returnUrl := returnUrlOf stored in
     let! _ := Web.removeItem AUTH_RETURN_URL in
     Web.assignHref returnUrl)
    (fun error =>
       let! _ := Web.consoleError "Authentication failed:" in
       Web.assignHref "/login?error=auth_failed").

(** [[
    function logout() {
      clearTokens();
      window.location.href = '/login';
    }
    ]] *)
Definition logout : Script unit :=
  let! _ := clearTokens in
  Web.assignHref "/login".

(** `headers[name] = value` on the headers object: the property keeps its
    place when it is there, and is added at the end when it is not. *)
Fixpoint setHeader (name value : string) (headers : list (string * string))
    : list (string * string) :=
  match headers with
  | [] => [(name, value)]
  | (k, v) :: rest =>
      if String.eqb k name then (k, value) :: rest
      else (k, v) :: setHeader name value rest
  end.

(** `{ ...headers, ...more }` *)
Definition spreadHeaders (headers more : list (string * string)) : list (string * string) :=
  fold_left (fun acc '(k, v) => setHeader k v acc) more headers.

(** `headers[name]` *)
Fixpoint header (name : string) (headers : list (string * string)) : option string :=
  match headers with
  | [] => None
  | (k, v) :: rest => if String.eqb k name then Some v else header name rest
  end.

(** `endpoint.startsWith('http') ? endpoint : `${ALM_CONFIG.apiBaseUrl}${endpoint}`` *)
Definition urlOf (endpoint : string) : string :=
  if startsWith "http" endpoint then endpoint else apiBaseUrl +:+ endpoint.

(** `fetch(url, requestOptions)` with `requestOptions = { ...options,
    headers }`: the method is GET unless the options give one. *)
Definition requestOf (endpoint : string) (options : Options)
    (headers : list (string * string)) : Request :=
  {| req_method := match opt_method options with Some m => m | None => "GET" end;
     req_url := urlOf endpoint;
     req_headers := headers;
     req_body := opt_body options |}.

(** The `catch` of both refreshes: the page is remembered and the login
    starts; the function returns undefined. *)
Definition redirectToLogin {A : Type} : Script (option A) :=
  let! win := Web.window in
  let! _ := Web.setItem AUTH_RETURN_URL (win_pathname win) in
  let! _ := login in
  retS None.

(** `makeAuthenticatedRequest` from `const url` on, once it has a token
    (see below). *)
Definition requestWith (E : Engine) (endpoint : string) (options : Options) (token : JsVal)
    : Script (option FetchResponse) :=
  let headers :=
    spreadHeaders [("Authorization", "oauth " +:+ Js.toStr token);
                   ("Accept", "application/vnd.api+json")]
                  (opt_headers options) in
  let! response := Web.fetch (requestOf endpoint options headers) in
  if res_status response =? 401 then
    let! again :=
      catchS
        (let! tokenData := refreshAccessToken in
         let! _ := storeTokens E tokenData in
         retS (Some (setHeader "Authorization"
                       ("oauth " +:+ Js.toStr (Js.getProp tokenData "access_token"))
                       headers)))
        (fun error => redirectToLogin) in
    match again with
    | Some headers' =>
        let! second := Web.fetch (requestOf endpoint options headers') in
        retS (Some second)
    | None => retS None
    end
  else retS (Some response).

(** [[
    async function makeAuthenticatedRequest(endpoint, options = {}) {
      let token = getAccessToken();
      if (!token) {
        try {
          const tokenData = await refreshAccessToken();
          storeTokens(tokenData);
          token = tokenData.access_token;
        } catch (error) {
          sessionStorage.setItem('auth_return_url', window.location.pathname);
          login();
          return;
        }
      }
      const url = endpoint.startsWith('http') ? endpoint : `${ALM_CONFIG.apiBaseUrl}${endpoint}`;
      const requestOptions = {
        ...options,
        headers: {
          'Authorization': `oauth ${token}`,
          'Accept': 'application/vnd.api+json',
          ...options.headers
        }
      };
      const response = await fetch(url, requestOptions);
      if (response.status === 401) {
        try {
          const tokenData = await refreshAccessToken();
          storeTokens(tokenData);
          requestOptions.headers.Authorization = `oauth ${tokenData.access_token}`;
          return fetch(url, requestOptions);
        } catch (error) {
          sessionStorage.setItem('auth_return_url', window.location.pathname);
          login();
          return;
        }
      }
      return response;
    }
    ]]
    The promise of the second `fetch` is returned from inside the `try`
    without being awaited there, so its rejection is not caught. *)
Definition makeAuthenticatedRequest (E : Engine) (endpoint : string) (options : Options)
    : Script (option FetchResponse) :=
  let! stored := getAccessToken E in
  let! token :=
    if AlmAuth.missing stored then
      catchS
        (let! tokenData := refreshAccessToken in
         let! _ := storeTokens E tokenData in
         retS (Some (Js.getProp tokenData "access_token")))
        (fun error => redirectToLogin)
    else retS (Some (itemValue stored)) in
  match token with
  | None => retS None
  | Some token => requestWith E endpoint options token
  end.

(** [[
    function showLoginPrompt() {
      const overlay = document.createElement('div');
      overlay.className = 'auth-overlay';
      overlay.innerHTML = `...`;
      document.body.appendChild(overlay);
    }
    ]] *)
Definition showLoginPrompt : Script unit := Web.appendOverlay.

(** [[
    function initAuth() {
      const urlParams = new URLSearchParams(window.location.search);
      const code = urlParams.get('code');
      const state = urlParams.get('state');
      if (code && state) {
        handleCallback(code, state);
        return;
      }
      if (!isAuthenticated()) {
        sessionStorage.setItem('auth_return_url', window.location.pathname);
        showLoginPrompt();
      }
    }
    ]]
    The promise of `handleCallback` is dropped; it never rejects, and what
    it does is what the page does next. *)
Definition initAuth (E : Engine) : Script unit :=
  let! win := Web.window in
  let code := win_query win "code" in
  let state := win_query win "state" in
  if (negb (AlmAuth.missing code) && negb (AlmAuth.missing state))%bool then
    handleCallback E (default EmptyString code) (default EmptyString state)
  else
    let! authenticated := isAuthenticated E in
    if negb authenticated then
      let! _ := Web.setItem AUTH_RETURN_URL (win_pathname win) in
      showLoginPrompt
    else retS tt.

End AuthFlow.

(* ===================================================================== *)
(** * The specification's reading of the documents *)
(* ===================================================================== *)

(** Definitions that follow the words of the specification rather than the
    code, for comparison with the functions above. *)
Module Spec.

(** An optional-chaining lookup `v?.k1?.k2...`: undefined as soon as a
    component is missing. A field of the document is missing when its
    lookup is undefined. *)
Definition lookup (v : JsVal) (keys : list string) : JsVal :=
  fold_left Js.optProp keys v.

(** The records of the `included` array of a document. *)
Definition includedOf (doc : JsVal) : list JsVal :=
  match Js.getProp doc "included" with
  | JArr items => items
  | _ => []
  end.

(** The references to supplementary learning objects of a document. *)
Definition supplementaryOf (doc : JsVal) : list JsVal :=
  match lookup doc ["data"; "relationships"; "supplementaryLOs"; "data"] with
  | JArr refs => refs
  | _ => []
  end.

(** The included record a reference resolves to: the first record of
    `included` with the id of the reference; undefined when none. *)
Definition includedRecord (items : list JsVal) (ref : JsVal) : JsVal :=
  match List.find (fun item => Js.strictEq (Js.getProp item "id") (Js.getProp ref "id")) items with
  | Some record => record
  | None => JUndef
  end.

(** The record is a learning object of loType 'jobAid'. *)
Definition isJobAid (record : JsVal) : bool :=
  Js.strictEq (Js.getProp (Js.getProp record "attributes") "loType") (JStr "jobAid").

(** The entry of a job aid: the name and description of its first
    localized metadata; without localized metadata, `attributes.name` and
    then 'Job Aid' for the name, 'Job aid description' for the
    description. *)
Definition jobAidEntry (ref record : JsVal) : JobAid :=
  let attributes := Js.getProp record "attributes" in
  let localized := Js.getProp (Js.getProp attributes "localizedMetadata") "0" in
  if Js.truthy localized then
    {| aid_id := Js.getProp ref "id";
       aid_name := Js.getProp localized "name";
       aid_description := Js.or (Js.getProp localized "description") (JStr "Job aid description") |}
  else
    {| aid_id := Js.getProp ref "id";
       aid_name := Js.or (Js.getProp attributes "name") (JStr "Job Aid");
       aid_description := JStr "Job aid description" |}.

(** One entry per supplementary reference that resolves to a job aid, in
    document order. *)
Definition jobAidsOf (doc : JsVal) : list JobAid :=
  List.map (fun ref => jobAidEntry ref (includedRecord (includedOf doc) ref))
           (List.filter (fun ref => isJobAid (includedRecord (includedOf doc) ref))
                        (supplementaryOf doc)).

Definition isObject (v : JsVal) : bool :=
  match v with JObj _ => true | _ => false end.



(** The payload has at least one event. *)
Definition hasEvents (E : Engine) (webhookData : JsVal) : bool :=
  (Js.truthy webhookData && Js.truthy (Js.getProp webhookData "events") &&
   Js.positive (Js.toNumber E (Js.getProp (Js.getProp webhookData "events") "length")))%bool.



(** The request is the connection test of the webhook. *)
Definition isTestConnection (params : JsVal) : bool :=
  Js.strictEq (Js.getProp params "message") (JStr "Test Connection").


(** The POST requests among the requests sent. *)
Definition posts (requests : list Request) : list Request :=
  List.filter (fun r => String.eqb (req_method r) "POST") requests.


(** The five characters `escapeHtml` replaces. *)
Definition isSpecial (c : ascii) : bool :=
  (Ascii.eqb c "&" || Ascii.eqb c "<" || Ascii.eqb c ">" || Ascii.eqb c Str.dqChar ||
   Ascii.eqb c "'")%bool.

(** The text contains none of them. *)
Fixpoint specialFree (text : string) : bool :=
  match text with
  | EmptyString => true
  | String c rest => (negb (isSpecial c) && specialFree rest)%bool
  end.

(** The characters that open or close markup: all of them but the
    ampersand. *)
Definition isMarkup (c : ascii) : bool :=
  (Ascii.eqb c "<" || Ascii.eqb c ">" || Ascii.eqb c Str.dqChar || Ascii.eqb c "'")%bool.

Fixpoint markupFree (text : string) : bool :=
  match text with
  | EmptyString => true
  | String c rest => (negb (isMarkup c) && markupFree rest)%bool
  end.

(** A module without the fields drawn from `Math.random()`. *)
Definition withoutStatus (m : CoreModule) : CoreModule :=
  {| mod_id := mod_id m;
     mod_courseId := mod_courseId m;
     mod_name := mod_name m;
     mod_type := mod_type m;
     mod_contentType := mod_contentType m;
     mod_duration := mod_duration m;
     mod_status := EmptyString;
     mod_isCompleted := false;
     mod_statusText := EmptyString;
     mod_statusIcon := EmptyString |}.

(** A flat record without the fields that depend on `Math.random()` and
    on the clock. *)
Definition withoutVolatile (r : CourseData) : CourseData :=
  {| courseId := courseId r;
     instanceId := instanceId r;
     courseTitle := courseTitle r;
     courseDescription := courseDescription r;
     courseOverview := courseOverview r;
     courseType := courseType r;
     courseDuration := courseDuration r;
     courseLevel := courseLevel r;
     courseSkills := courseSkills r;
     enrollmentCount := enrollmentCount r;
     ratingAvg := ratingAvg r;
     ratingCount := ratingCount r;
     imageUrl := imageUrl r;
     loFormat := loFormat r;
     coreModules := List.map withoutStatus (coreModules r);
     prerequisites := prerequisites r;
     jobAids := jobAids r;
     timestamp := EmptyString |}.


Definition arrayOfObjectsOrAbsent (v : JsVal) : bool :=
  match v with
  | JUndef => true
  | JArr xs => forallb isObject xs
  | _ => false
  end.

(** A JSON:API document as far as job aids are concerned: an object with
    an object `data`, whose `included` and supplementary references, when
    present, are arrays of objects. *)
Definition jobAidsWellFormed (doc : JsVal) : bool :=
  (isObject doc && isObject (Js.getProp doc "data") &&
   arrayOfObjectsOrAbsent (Js.getProp doc "included") &&
   arrayOfObjectsOrAbsent
     (lookup doc ["data"; "relationships"; "supplementaryLOs"; "data"]))%bool.

End Spec.

(* ===================================================================== *)
(** * The head of the generated document *)
(* ===================================================================== *)

(** The text of the template of `generateCourseHTML` between its first
    interpolations, up to the end of the course-skills meta tag. *)
Module Head.
Import Str.










End Head.

(* ===================================================================== *)
(** * Vocabulary of the properties *)
(* ===================================================================== *)

(** A key that is neither an array index nor `length`: only objects have
    such a property. *)
Definition plainKey (key : string) : bool :=
  (negb (String.eqb key "length") &&
   match Str.arrayIndex key with None => true | Some _ => false end)%bool.

(** A value that is neither an array nor an object. *)
Definition isPrimitive (v : JsVal) : bool :=
  match v with JArr _ | JObj _ => false | _ => true end.

(** The two runs draw the same numbers. *)
Definition sameDraws (w1 w2 : World) (s1 s2 : St) : Prop :=
  forall i : nat, random w1 (draws s1 + i) = random w2 (draws s2 + i).

(** The module lists built so far by the two runs, and the states reached. *)
Definition modulesRelated (w1 w2 : World) (s1 s2 : St)
    (acc1 acc2 : list CoreModule) (t1 t2 : St) : Prop :=
  List.map Spec.withoutStatus acc1 = List.map Spec.withoutStatus acc2 /\
  (sameDraws w1 w2 s1 s2 -> acc1 = acc2) /\
  (exists k : nat, (draws t1 = draws s1 + k)%nat /\ (draws t2 = draws s2 + k)%nat) /\
  ticks t1 = ticks s1 /\ ticks t2 = ticks s2.

Definition outcomesRelated (w1 w2 : World) (s1 s2 : St)
    (o1 o2 : Exc (list CoreModule) * St) : Prop :=
  match o1, o2 with
  | (Ret a1, t1), (Ret a2, t2) => modulesRelated w1 w2 s1 s2 a1 a2 t1 t2
  | (Throw m1, _), (Throw m2, _) => m1 = m2
  | _, _ => False
  end.




(* ===================================================================== *)
(** * Vocabulary of the further properties *)
(* ===================================================================== *)

(** ** Texts *)

(** The text has no occurrence of the character. *)
Fixpoint lacks (c : ascii) (s : string) : bool :=
  match s with
  | EmptyString => true
  | String a s' => (negb (Ascii.eqb a c) && lacks c s')%bool
  end.

(** The number of occurrences of the character in the text. *)
Fixpoint occurrences (c : ascii) (s : string) : nat :=
  match s with
  | EmptyString => O
  | String a s' => if Ascii.eqb a c then S (occurrences c s') else occurrences c s'
  end.

(** The text without its first [n] characters. *)
Fixpoint dropChars (n : nat) (s : string) : string :=
  match n, s with
  | S n', String _ s' => dropChars n' s'
  | _, _ => s
  end.

(** A non-empty string. *)
Definition nonEmptyString (v : JsVal) : bool := (Js.truthy v && Js.isString v)%bool.

(** Null or undefined. *)
Definition isNullish (v : JsVal) : bool :=
  match v with JUndef | JNull => true | _ => false end.

(** ** Requests and runs of the action *)

(** A segment of a path: a non-empty text without a slash. *)
Definition pathSegment (x : string) : bool := (negb (String.eqb x "") && lacks "/" x)%bool.

(** The overlay path of a course and, when there is one, of an instance of
    it. *)
Definition overlayPath (course : string) (instance : option string) : string :=
  "/overview/trainingId/" +:+ course +:+
  match instance with
  | Some i => "/trainingInstanceId/" +:+ i
  | None => EmptyString
  end.

(** The instance ID `main` goes on with: null when the request names
    none. *)
Definition instanceValue (instance : option string) : JsVal :=
  match instance with
  | Some i => JStr i
  | None => JNull
  end.

(** The ALM endpoint of a learning object of the given kind, with the
    relations `fetchCourseData` asks for. *)
Definition learningObjectUrl (kind : string) (courseId : JsVal) : string :=
  Action.ALM_API_BASE +:+ "/learningObjects/" +:+ kind +:+ ":" +:+ Js.toStr courseId +:+
  "?include=" +:+ Action.includeParams +:+ "&useCache=true&filter.ignoreEnhancedLP=false".

(** The body of a response as `response.json()` gives it, null when it
    cannot be read. *)
Definition bodyOrNull (r : FetchResponse) : JsVal :=
  match res_json r with
  | Some document => document
  | None => JNull
  end.

(** The second state differs from the first by log entries only. *)
Definition loggedOnly (s s' : St) : Prop :=
  draws s' = draws s /\ ticks s' = ticks s /\ sent s' = sent s.

(** The second state differs from the first by [n] draws of
    `Math.random()` and nothing else. *)
Definition drewOnly (n : nat) (s s' : St) : Prop :=
  draws s' = (draws s + n)%nat /\ ticks s' = ticks s /\ sent s' = sent s /\ logged s' = logged s.

(** ** Records of a document *)

(** The completion fields of a module agree with each other, its type is
    a non-empty string and its content type is not empty. *)
Definition moduleConsistent (m : CoreModule) : Prop :=
  (if mod_isCompleted m
   then mod_status m = "completed" /\ mod_statusText m = "Last visited"
   else mod_status m = "in-progress" /\ mod_statusText m = "In Progress") /\
  (exists type, mod_type m = JStr type /\ type <> "") /\
  Js.truthy (mod_contentType m) = true.

(** The references to prerequisite learning objects of a document. *)
Definition prerequisiteRefs (doc : JsVal) : list JsVal :=
  match Spec.lookup doc ["data"; "relationships"; "prerequisiteLOs"; "data"] with
  | JArr refs => refs
  | _ => []
  end.

(** The included record has attributes. *)
Definition hasAttributes (record : JsVal) : bool := Js.truthy (Js.getProp record "attributes").

(** The entry of a prerequisite: the name of its first localized metadata,
    whatever that is; without localized metadata, `attributes.name` and
    then 'Prerequisite Course'; the type is `attributes.loFormat`, or
    'Self-paced'. *)
Definition prerequisiteEntry (ref record : JsVal) : Prerequisite :=
  let attributes := Js.getProp record "attributes" in
  let localized := Js.getProp (Js.getProp attributes "localizedMetadata") "0" in
  {| pre_id := Js.getProp ref "id";
     pre_name :=
       if Js.truthy localized then Js.getProp localized "name"
       else Js.or (Js.getProp attributes "name") (JStr "Prerequisite Course");
     pre_type := Js.or (Js.getProp attributes "loFormat") (JStr "Self-paced") |}.

(** One entry per prerequisite reference that resolves to an included
    record with attributes, in document order. *)
Definition prerequisitesOf (doc : JsVal) : list Prerequisite :=
  List.map (fun ref => prerequisiteEntry ref (Spec.includedRecord (Spec.includedOf doc) ref))
           (List.filter (fun ref => hasAttributes (Spec.includedRecord (Spec.includedOf doc) ref))
                        (prerequisiteRefs doc)).

(** The included record is a user with attributes. *)
Definition isAuthorRecord (item : JsVal) : bool :=
  (Js.strictEq (Js.getProp item "type") (JStr "user") &&
   Js.truthy (Js.getProp item "attributes"))%bool.

(** The author entry of a user record. *)
Definition authorEntry (item : JsVal) : Author :=
  let attributes := Js.getProp item "attributes" in
  {| author_name := Js.or (Js.getProp attributes "name") (JStr "Unknown Author");
     author_email := Js.or (Js.getProp attributes "email") (JStr "") |}.

(** The included record is a learning object instance. *)
Definition isInstanceRecord (item : JsVal) : bool :=
  Js.strictEq (Js.getProp item "type") (JStr "learningObjectInstance").

(** The entry summarizes the instance record: it has the ID of the record
    and, for each detail the record does not have, the default of
    `extractInstances`. *)
Definition summarizes (record : JsVal) (entry : InstanceSummary) : Prop :=
  let missing keys := Spec.lookup record keys = JUndef in
  sum_id entry = Js.getProp record "id" /\
  (missing ["attributes"; "localizedMetadata"; "0"; "name"] ->
   sum_name entry = JStr "Unnamed Instance") /\
  (missing ["attributes"; "state"] -> sum_state entry = JStr "Unknown") /\
  (missing ["attributes"; "enrollmentDeadline"] ->
   sum_enrollmentDeadline entry = JStr "No deadline") /\
  (missing ["attributes"; "completionDeadline"] ->
   sum_completionDeadline entry = JStr "No deadline").

(** A JSON:API document as far as the included records are concerned: an
    object whose `included`, when present, is an array of objects. *)
Definition includedWellFormed (doc : JsVal) : bool :=
  (Spec.isObject doc && Spec.arrayOfObjectsOrAbsent (Js.getProp doc "included"))%bool.

(** ** Templates *)

(** A key of word characters only. *)
Fixpoint isWord (key : string) : bool :=
  match key with
  | EmptyString => true
  | String c key' => (HelpersApi.isWordChar c && isWord key')%bool
  end.

(** The keys of the placeholders of a template, in order: the matches the
    scan of `renderTemplate` replaces. *)
Fixpoint placeholderKeys (skip : nat) (s : string) : list string :=
  match s with
  | EmptyString => []
  | String c s' =>
      match skip with
      | S skip' => placeholderKeys skip' s'
      | O =>
          match HelpersApi.placeholderAt s with
          | Some key => key :: placeholderKeys (String.length key + 3) s'
          | None => placeholderKeys 0 s'
          end
      end
  end.

(** ** The browser *)

(** The keys `storeTokens` writes. *)
Definition tokenKeys : list string :=
  [AlmAuth.ACCESS_TOKEN; AlmAuth.TOKEN_EXPIRY; AlmAuth.REFRESH_TOKEN].

(** The keys `clearTokens` removes. *)
Definition authKeys : list string :=
  [AlmAuth.ACCESS_TOKEN; AlmAuth.REFRESH_TOKEN; AlmAuth.TOKEN_EXPIRY; AlmAuth.USER_INFO].

(** The page with another document. *)
Definition withDocument (document : list Tag) (page : Page) : Page :=
  {| page_document := document;
     page_pathname := page_pathname page;
     block_innerHTML := block_innerHTML page;
     block_classList := block_classList page;
     page_timeouts := page_timeouts page;
     page_handlers := page_handlers page;
     page_console := page_console page |}.



(** ** The page of the OAuth flows *)

(** The state after one more reading of the clock, one more request, one
    more navigation, one more message of `console.error`. *)
Definition reading (b : Browser) : Browser :=
  {| b_storage := b_storage b; b_href := b_href b; b_sent := b_sent b; b_errors := b_errors b;
     b_prompts := b_prompts b; b_reads := S (b_reads b); b_draws := b_draws b |}.

Definition sending (r : Request) (b : Browser) : Browser :=
  {| b_storage := b_storage b; b_href := b_href b; b_sent := b_sent b ++ [r];
     b_errors := b_errors b; b_prompts := b_prompts b; b_reads := b_reads b;
     b_draws := b_draws b |}.

Definition navigating (url : string) (b : Browser) : Browser :=
  {| b_storage := b_storage b; b_href := b_href b ++ [url]; b_sent := b_sent b;
     b_errors := b_errors b; b_prompts := b_prompts b; b_reads := b_reads b;
     b_draws := b_draws b |}.

Definition complaining (msg : string) (b : Browser) : Browser :=
  {| b_storage := b_storage b; b_href := b_href b; b_sent := b_sent b;
     b_errors := b_errors b ++ [msg]; b_prompts := b_prompts b; b_reads := b_reads b;
     b_draws := b_draws b |}.

(** The access token and its expiry are both stored and not empty. *)
Definition tokenStored (b : Browser) : bool :=
  negb (AlmAuth.missing (b_storage b !! AlmAuth.ACCESS_TOKEN) ||
        AlmAuth.missing (b_storage b !! AlmAuth.TOKEN_EXPIRY)).

(** The state after `isAuthenticated()`: the clock has been read when both
    items were there. *)
Definition checked (b : Browser) : Browser := if tokenStored b then reading b else b.

(** What a flow makes of the answer to a request: the JSON body of an ok
    answer, and else the error it throws, which for an answer that is not
    ok is [failure] followed by the status. *)
Definition bodyOf (failure : string) (answer : FetchResult) : Exc JsVal :=
  match answer with
  | NetworkError msg => Throw msg
  | Responded resp =>
      if res_ok resp then
        match res_json resp with
        | Some v => Ret v
        | None => Throw "SyntaxError: invalid json response body"
        end
      else Throw (failure +:+ Str.ofZ (res_status resp))
  end.

(** The request `exchangeCodeForToken` sends for a code, and the one
    `refreshAccessToken` sends for a refresh token. *)
Definition exchangeRequest (win : Window) (code : string) : Request :=
  AuthFlow.tokenRequest win [("grant_type", "authorization_code");
                             ("client_id", AuthFlow.clientId);
                             ("code", code);
                             ("redirect_uri", AuthFlow.redirectUri win)].

Definition refreshRequest (win : Window) (refreshToken : string) : Request :=
  AuthFlow.tokenRequest win [("grant_type", "refresh_token");
                             ("client_id", AuthFlow.clientId);
                             ("refresh_token", refreshToken)].

(** The URL `login` navigates to when `Math.random()` has been called [n]
    times before. *)
Definition authorizationUrl (win : Window) (n : nat) : string :=
  AuthFlow.authUrl +:+ "?" +:+
  win_urlencoded win [("client_id", AuthFlow.clientId);
                      ("redirect_uri", AuthFlow.redirectUri win);
                      ("scope", AuthFlow.scope);
                      ("response_type", "code");
                      ("state", String.substring 2 13 (win_random36 win n) +:+
                                String.substring 2 13 (win_random36 win (S n)))].

(** The headers `makeAuthenticatedRequest` sends with a token. *)
Definition authHeaders (token : string) (options : Options) : list (string * string) :=
  AuthFlow.spreadHeaders [("Authorization", "oauth " +:+ token);
                          ("Accept", "application/vnd.api+json")]
                         (opt_headers options).

(* ===================================================================== *)
(** * Concrete inputs *)
(* ===================================================================== *)

Module Samples.

(** An engine whose `parseInt` reads the expiry used below. *)
Definition engine : Engine :=
  {| stringToNumber := fun _ => NaN;
     jsonParse := fun _ => None;
     jsonStringify := fun _ => "{}";
     parseInt := fun s => if String.eqb s "1700000600000" then Some 1700000600000 else None |}.

Definition world : World :=
  {| random := fun _ => 3 # 4;
     clock := fun _ => "2024-01-01T00:00:00.000Z";
     network := fun _ _ => NetworkError "offline" |}.

Definition sessionStorage : gmap string string :=
  <[AlmAuth.TOKEN_EXPIRY := "1700000600000"]>
    (<[AlmAuth.ACCESS_TOKEN := "secret"]> ∅).

(** Another run of the same invocation: other draws, another time. *)
Definition laterWorld : World :=
  {| random := fun _ => 1 # 4;
     clock := fun _ => "2024-01-01T00:00:01.000Z";
     network := fun _ _ => NetworkError "offline" |}.

(** A course whose first instance has one classroom module. *)
Definition courseWithModule : JsVal :=
  JObj [("data",
         JObj [("id", JStr "course:1"); ("type", JStr "course");
               ("attributes",
                JObj [("localizedMetadata", JArr [JObj [("name", JStr "Safety")]]);
                      ("duration", JNum 5400)]);
               ("relationships",
                JObj [("instances", JObj [("data", JArr [JObj [("id", JStr "course:1_2")]])])])]);
        ("included",
         JArr [JObj [("id", JStr "course:1_2"); ("type", JStr "learningObjectInstance");
                     ("relationships",
                      JObj [("loResources", JObj [("data", JArr [JObj [("id", JStr "r1")]])])])];
               JObj [("id", JStr "r1"); ("type", JStr "learningObjectResource");
                     ("attributes", JObj [("loFormat", JStr "Classroom");
                                          ("duration", JNum 5400)])]])].

(** A network that serves [courseWithModule] to every GET and refuses every
    POST. *)
Definition readOnlyWorld : World :=
  {| random := fun _ => 3 # 4;
     clock := fun _ => "2024-01-01T00:00:00.000Z";
     network := fun _ r =>
       if String.eqb (req_method r) "GET" then
         Responded {| res_ok := true; res_status := 200; res_statusText := "OK";
                      res_text := EmptyString; res_json := Some courseWithModule |}
       else NetworkError "refused" |}.

(** A request for a course, with a token for the cache. *)
Definition publishingRequest : JsVal :=
  JObj [("__ow_path", JStr "/overview/trainingId/1"); ("EDS_AUTH_TOKEN", JStr "token")].





(** A rating that is not a number but a piece of markup. *)
Definition markup : string := Str.dq +:+ "><script>alert(1)</script>".

Definition courseWithMarkupRating : JsVal :=
  JObj [("data",
         JObj [("id", JStr "course:1"); ("type", JStr "course");
               ("attributes", JObj [("rating", JObj [("averageRating", JStr markup)])])])].


(** A course with two supplementary learning objects: a job aid that has
    a name but no localized metadata, and a learning object of another
    type. *)
Definition courseWithJobAid : JsVal :=
  JObj [("data",
         JObj [("id", JStr "course:1"); ("type", JStr "course");
               ("relationships",
                JObj [("supplementaryLOs",
                       JObj [("data", JArr [JObj [("id", JStr "jobAid:7")];
                                            JObj [("id", JStr "course:8")]])])])]);
        ("included",
         JArr [JObj [("id", JStr "jobAid:7"); ("type", JStr "learningObject");
                     ("attributes", JObj [("loType", JStr "jobAid");
                                          ("name", JStr "Cheat sheet")])];
               JObj [("id", JStr "course:8"); ("type", JStr "learningObject");
                     ("attributes", JObj [("loType", JStr "course")])]])].


Definition untypedWebhookRequest : JsVal :=
  JObj [("events", JArr [JObj [("data", JObj [("loId", JStr "123836")])]])].

(** A request for an instance of the course [courseWithModule]. *)
Definition instancePathRequest : JsVal :=
  JObj [("__ow_path", JStr "/overview/trainingId/1/trainingInstanceId/1-2")].

(** A course with two prerequisites, of which only the first is among the
    included records. *)
Definition courseWithPrerequisite : JsVal :=
  JObj [("data",
         JObj [("id", JStr "course:1"); ("type", JStr "course");
               ("relationships",
                JObj [("prerequisiteLOs",
                       JObj [("data", JArr [JObj [("id", JStr "course:5")];
                                            JObj [("id", JStr "course:6")]])])])]);
        ("included",
         JArr [JObj [("id", JStr "course:5"); ("type", JStr "learningObject");
                     ("attributes", JObj [("name", JStr "Basics")])]])].

(** A document with a user and an instance, both without details. *)
Definition documentWithPeople : JsVal :=
  JObj [("data", JObj [("id", JStr "course:1")]);
        ("included",
         JArr [JObj [("id", JStr "user:3"); ("type", JStr "user");
                     ("attributes", JObj [("email", JStr "ada@example.com")])];
               JObj [("id", JStr "course:1_2"); ("type", JStr "learningObjectInstance")]])].

(** The members an object inherits, as far as this engine renders them. *)
Definition inherited (v : JsVal) (key : string) : option string :=
  match v with
  | JObj _ => if String.eqb key "toString" then Some "function toString() { [native code] }"
              else None
  | _ => None
  end.

(** The answer of the token endpoint. *)
Definition tokenData : JsVal :=
  JObj [("access_token", JStr "secret"); ("expires_in", JNum 600)].

(** A course page whose meta tags have not arrived yet. *)
Definition emptyCoursePage : Page :=
  {| page_document := [];
     page_pathname := "/overview/trainingId/7235188";
     block_innerHTML := EmptyString;
     block_classList := ["course-info"; "block"];
     page_timeouts := 0;
     page_handlers := false;
     page_console := [] |}.


(** A page of the site, whose clock advances by a millisecond per reading.
    The token endpoint issues [tokenData]; every other request is answered
    with [courseWithModule]. The serialization of the parameters escapes
    nothing. *)
Definition window : Window :=
  {| win_origin := "https://example.com";
     win_pathname := "/courses";
     win_query := fun _ => None;
     win_now := fun n => 1700000000000 + Z.of_nat n;
     win_random36 := fun _ => "0.4fzyo82mvyr";
     win_network := fun _ r =>
       Responded {| res_ok := true; res_status := 200; res_statusText := "OK";
                    res_text := EmptyString;
                    res_json := Some (if String.eqb (req_url r) AuthFlow.tokenUrl
                                      then tokenData else courseWithModule) |};
     win_urlencoded := fun fields =>
       String.concat "&" (List.map (fun '(k, v) => k +:+ "=" +:+ v) fields) |}.

(** The same page with a clock that advances by 400 seconds per reading. *)
Definition slowWindow : Window :=
  {| win_origin := win_origin window;
     win_pathname := win_pathname window;
     win_query := win_query window;
     win_now := fun n => 1700000000000 + Z.of_nat n * 400000;
     win_random36 := win_random36 window;
     win_network := win_network window;
     win_urlencoded := win_urlencoded window |}.

(** The same page with an API that answers the first request with 401. *)
Definition refusingWindow : Window :=
  {| win_origin := win_origin window;
     win_pathname := win_pathname window;
     win_query := win_query window;
     win_now := win_now window;
     win_random36 := win_random36 window;
     win_network := fun n r =>
       match n with
       | O => Responded {| res_ok := false; res_status := 401; res_statusText := "Unauthorized";
                           res_text := EmptyString; res_json := None |}
       | S _ => win_network window n r
       end;
     win_urlencoded := win_urlencoded window |}.

(** A session with the tokens of [sessionStorage] and a refresh token. *)
Definition signedIn : Browser :=
  Web.withStorage (<[AlmAuth.REFRESH_TOKEN := "refresh"]> sessionStorage) Web.init.

End Samples.

(* ===================================================================== *)
(** * Properties *)
(* ===================================================================== *)

(** ** Strings *)

#[local] Arguments append !s1 s2 /.

Lemma append_assoc (a b c : string) : (a +:+ b) +:+ c = a +:+ (b +:+ c).
Proof.
  induction a as [|x a IH]; simpl; [reflexivity|].
  now rewrite IH.
Qed.

Lemma append_nil_r (a : string) : a +:+ "" = a.
Proof.
  induction a as [|x a IH]; simpl; [reflexivity|].
  now rewrite IH.
Qed.

Lemma append_cancel_l (a b c : string) : a +:+ b = a +:+ c -> b = c.
Proof.
  induction a as [|x a IH]; simpl; intros H; [exact H|].
  injection H as H. auto.
Qed.

(** ** formatDuration: the helpers version against the action version *)

Section FormatDuration.
Variable E : Engine.

(** The two versions differ exactly on the truthy values that have whole
    hours and no whole minute left. *)
Lemma formatDuration_versions_val (seconds : JsVal) :
  Helpers.formatDuration E seconds = CourseViewer.formatDuration E seconds <->
  (Js.truthy seconds &&
   Js.positive (Js.floorDiv (Js.toNumber E seconds) 3600) &&
   negb (Js.positive (Js.floorDiv (Js.remainder (Js.toNumber E seconds) 3600) 60)))%bool = false.
Proof.
  unfold Helpers.formatDuration, CourseViewer.formatDuration.
  destruct (Js.truthy seconds) eqn:Ht; simpl.
  - assert (Hz : Js.strictEq seconds (JNum 0) = false).
    { destruct seconds; simpl in *; try reflexivity.
      destruct (n =? 0); simpl in *; congruence. }
    rewrite Hz.
    destruct (Js.positive (Js.floorDiv (Js.toNumber E seconds) 3600)); simpl.
    + destruct (Js.positive (Js.floorDiv (Js.remainder (Js.toNumber E seconds) 3600) 60)); simpl.
      * split; auto.
      * split; [|discriminate].
        intros H. apply append_cancel_l in H. discriminate H.
    + split; auto.
  - split; auto.
Qed.

End FormatDuration.

(** C9 (as stated, refuted): at 3600 seconds the helpers version prints the
    zero minutes and the action version drops them. *)
Lemma formatDuration_versions_differ :
  Helpers.formatDuration Samples.engine (JNum 3600) = "1h 0m" /\
  CourseViewer.formatDuration Samples.engine (JNum 3600) = "1h" /\
  Helpers.formatDuration Samples.engine (JNum 3600) <>
  CourseViewer.formatDuration Samples.engine (JNum 3600).
Proof.
  repeat split; try reflexivity.
  vm_compute. discriminate.
Qed.

(** C9 (amended): for every integer number of seconds the two
    `formatDuration` implementations return the same string, except when the
    duration is at least one hour and less than a minute above a whole
    number of hours; there the helpers version ends in the zero minutes
    (as in 1h 0m) and the action version stops after the hours (1h). *)
Theorem formatDuration_versions (E : Engine) (seconds : Z) :
  Helpers.formatDuration E (JNum seconds) = CourseViewer.formatDuration E (JNum seconds) <->
  ~ (3600 <= seconds /\ Z.rem seconds 3600 < 60).
Proof.
  rewrite formatDuration_versions_val. simpl.
  destruct (Z.eqb_spec seconds 0) as [->|Hne]; simpl.
  - split; [intros _ [H _]; lia | reflexivity].
  - assert (Hh : (0 <? seconds / 3600) = true <-> 3600 <= seconds).
    { rewrite Z.ltb_lt. split; intros H.
      - destruct (Z_lt_le_dec seconds 3600) as [Hlt|]; [|assumption].
        destruct (Z_lt_le_dec seconds 0) as [Hneg|Hpos].
        + assert (seconds / 3600 < 0) by (apply Z.div_lt_upper_bound; lia). lia.
        + rewrite Z.div_small in H by lia. lia.
      - apply Z.div_str_pos. lia. }
    assert (Hm : forall r, (0 <? r / 60) = true <-> 60 <= r).
    { intros r. rewrite Z.ltb_lt. split; intros H.
      - destruct (Z_lt_le_dec r 60) as [Hlt|]; [|assumption].
        destruct (Z_lt_le_dec r 0) as [Hneg|Hpos].
        + assert (r / 60 < 0) by (apply Z.div_lt_upper_bound; lia). lia.
        + rewrite Z.div_small in H by lia. lia.
      - apply Z.div_str_pos. lia. }
    destruct (0 <? seconds / 3600) eqn:H1; simpl.
    + destruct (0 <? Z.rem seconds 3600 / 60) eqn:H2; simpl.
      * split; [|reflexivity]. intros _ [_ H]. apply Hm in H2. lia.
      * split; [discriminate|]. intros H. exfalso. apply H. split.
        -- apply Hh. reflexivity.
        -- destruct (Z_lt_le_dec (Z.rem seconds 3600) 60) as [|Hge]; [assumption|].
           apply Hm in Hge. congruence.
    + split; [|reflexivity]. intros _ [H _]. apply Hh in H. congruence.
Qed.

(** ** safeGet *)

(** C8 (the code departs from it): after a missing component the reducer
    goes on with the default value and reads the remaining components from
    it; with the default 'N/A' and the path `a.0` over the empty object
    `safeGet` returns the first character of the default. Both copies of
    the function behave so. *)
Theorem safeGet_reads_default :
  Helpers.safeGet (JObj []) "a.0" (JStr "N/A") = JStr "N" /\
  CourseViewer.safeGet (JObj []) "a.0" (JStr "N/A") = JStr "N" /\
  Helpers.safeGet (JObj []) "a.length" (JStr "N/A") = JNum 3.
Proof. repeat split; reflexivity. Qed.

Lemma safeGet_same (obj : JsVal) (path : string) (defaultValue : JsVal) :
  Helpers.safeGet obj path defaultValue = CourseViewer.safeGet obj path defaultValue.
Proof. reflexivity. Qed.

(** ** The OAuth helper *)

Section AccessToken.
Variable E : Engine.
Variable sessionStorage : gmap string string.
Variable currentTime : Z.

Lemma isAuthenticated_iff :
  AlmAuth.isAuthenticated E sessionStorage currentTime = true <->
  exists token expiry expiryTime,
    sessionStorage !! AlmAuth.ACCESS_TOKEN = Some token /\ token <> "" /\
    sessionStorage !! AlmAuth.TOKEN_EXPIRY = Some expiry /\ expiry <> "" /\
    parseInt E expiry = Some expiryTime /\
    currentTime < expiryTime - 5 * 60 * 1000.
Proof.
  unfold AlmAuth.isAuthenticated, AlmAuth.missing.
  destruct (sessionStorage !! AlmAuth.ACCESS_TOKEN) as [token|] eqn:Ht;
    destruct (sessionStorage !! AlmAuth.TOKEN_EXPIRY) as [expiry|] eqn:He; simpl.
  - destruct (String.eqb_spec token "") as [->|Hnt]; simpl.
    { split; [discriminate|]. intros (t & e & x & Heq & Hne & _). congruence. }
    destruct (String.eqb_spec expiry "") as [->|Hne]; simpl.
    { split; [discriminate|]. intros (t & e & x & _ & _ & Heq & Hn & _). congruence. }
    destruct (parseInt E expiry) as [expiryTime|] eqn:Hp.
    + rewrite Z.ltb_lt. split.
      * intros H. exists token, expiry, expiryTime. repeat split; auto.
      * intros (t & e & x & _ & _ & Heq & _ & Hpe & Hlt).
        injection Heq as <-. rewrite Hp in Hpe. injection Hpe as <-. exact Hlt.
    + split; [discriminate|].
      intros (t & e & x & _ & _ & Heq & _ & Hpe & _).
      injection Heq as <-. congruence.
  - destruct (String.eqb token ""); simpl;
      (split; [discriminate|]; intros (t & e & x & _ & _ & Heq & _); discriminate).
  - split; [discriminate|]. intros (t & e & x & Heq & _); discriminate.
  - split; [discriminate|]. intros (t & e & x & Heq & _); discriminate.
Qed.

End AccessToken.

(** C10: `getAccessToken` returns a token only if it is the stored access
    token, an expiry is stored too and the current time is more than five
    minutes before that expiry; in every state where these do not all hold
    it returns null. *)
Theorem getAccessToken_never_stale (E : Engine) (sessionStorage : gmap string string)
    (currentTime : Z) :
  (forall token,
      AlmAuth.getAccessToken E sessionStorage currentTime = Some token ->
      sessionStorage !! AlmAuth.ACCESS_TOKEN = Some token /\
      exists expiry expiryTime,
        sessionStorage !! AlmAuth.TOKEN_EXPIRY = Some expiry /\
        parseInt E expiry = Some expiryTime /\
        currentTime < expiryTime - 5 * 60 * 1000) /\
  (~ (exists token expiry expiryTime,
         sessionStorage !! AlmAuth.ACCESS_TOKEN = Some token /\
         sessionStorage !! AlmAuth.TOKEN_EXPIRY = Some expiry /\
         parseInt E expiry = Some expiryTime /\
         currentTime < expiryTime - 5 * 60 * 1000) ->
   AlmAuth.getAccessToken E sessionStorage currentTime = None).
Proof.
  unfold AlmAuth.getAccessToken.
  destruct (AlmAuth.isAuthenticated E sessionStorage currentTime) eqn:Ha; simpl.
  - apply isAuthenticated_iff in Ha.
    destruct Ha as (t & e & x & Ht & Hnt & He & Hne & Hp & Hlt).
    split.
    + intros token Heq. split; [exact Heq|]. exists e, x. auto.
    + intros Hno. exfalso. apply Hno. exists t, e, x. auto.
  - split; [discriminate | reflexivity].
Qed.

(** The token is handed out six minutes before the expiry and withheld
    four minutes before it. *)
Example getAccessToken_fresh_and_stale :
  AlmAuth.getAccessToken Samples.engine Samples.sessionStorage 1700000240000 = Some "secret" /\
  AlmAuth.getAccessToken Samples.engine Samples.sessionStorage 1700000360000 = None.
Proof. split; vm_compute; reflexivity. Qed.

Lemma getAccessToken_cleared (E : Engine) (sessionStorage : gmap string string) (currentTime : Z) :
  AlmAuth.getAccessToken E (AlmAuth.clearTokens sessionStorage) currentTime = None.
Proof.
  unfold AlmAuth.getAccessToken, AlmAuth.isAuthenticated, AlmAuth.clearTokens.
  assert (H : delete AlmAuth.USER_INFO
                (delete AlmAuth.TOKEN_EXPIRY
                   (delete AlmAuth.REFRESH_TOKEN
                      (delete AlmAuth.ACCESS_TOKEN sessionStorage))) !! AlmAuth.ACCESS_TOKEN = None).
  { rewrite !lookup_delete_ne by discriminate. apply lookup_delete_eq. }
  rewrite H. reflexivity.
Qed.

(** ** Exceptions: inversion and the pure content of the array methods *)

Lemma bindE_Ret {A B : Type} (e : Exc A) (k : A -> Exc B) (b : B) :
  bindE e k = Ret b -> exists a, e = Ret a /\ k a = Ret b.
Proof. destruct e as [a|msg]; simpl; [eauto | discriminate]. Qed.

Lemma prop_Ret (v : JsVal) (key : string) (x : JsVal) :
  Js.prop v key = Ret x -> x = Js.getProp v key.
Proof. destruct v; simpl; congruence. Qed.

Lemma prop_object (v : JsVal) (key : string) :
  Spec.isObject v = true -> Js.prop v key = Ret (Js.getProp v key).
Proof. destruct v; simpl; congruence. Qed.

Lemma optProp_getProp (v : JsVal) (key : string) : Js.optProp v key = Js.getProp v key.
Proof. destruct v; reflexivity. Qed.

(** Inversion of a successful sequence of bindings. *)
Ltac exc_inv :=
  repeat match goal with
    | H : bindE _ _ = Ret _ |- _ =>
        let a := fresh "v" in
        let Ha := fresh "Hv" in
        apply bindE_Ret in H; destruct H as (a & Ha & H)
    | H : Js.prop _ _ = Ret _ |- _ => apply prop_Ret in H; subst
    | H : Ret _ = Ret _ |- _ => injection H as H; subst
    end.

Lemma getProp_plain_object (v : JsVal) (key : string) :
  plainKey key = true -> Spec.isObject v = false -> Js.getProp v key = JUndef.
Proof.
  unfold plainKey. intros Hk Hv.
  apply andb_prop in Hk as [Hl Hi]. apply negb_true_iff in Hl.
  destruct v; simpl in *; try reflexivity; try discriminate.
  - rewrite Hl. destruct (Str.arrayIndex key); [discriminate | reflexivity].
  - rewrite Hl. destruct (Str.arrayIndex key); [discriminate | reflexivity].
Qed.

Lemma getProp_plain_truthy (v : JsVal) (key : string) :
  plainKey key = true -> Js.truthy (Js.getProp v key) = true -> Js.truthy v = true.
Proof.
  intros Hk Ht. destruct (Spec.isObject v) eqn:Hv.
  - destruct v; simpl in *; congruence.
  - rewrite (getProp_plain_object v key Hk Hv) in Ht. discriminate.
Qed.

Lemma find_pure (p : JsVal -> Exc bool) (q : JsVal -> bool) (xs : list JsVal) (r : JsVal) :
  (forall x b, In x xs -> p x = Ret b -> b = q x) ->
  ExcOps.find p xs = Ret r ->
  r = match List.find q xs with Some y => y | None => JUndef end.
Proof.
  induction xs as [|x xs IH]; simpl; intros Hp H.
  - congruence.
  - apply bindE_Ret in H as (b & Hb & H).
    rewrite <- (Hp x b (or_introl eq_refl) Hb).
    destruct b; [congruence|].
    apply IH; auto.
Qed.

Lemma filter_pure (p : JsVal -> Exc bool) (q : JsVal -> bool) (xs ys : list JsVal) :
  (forall x b, In x xs -> p x = Ret b -> b = q x) ->
  ExcOps.filter p xs = Ret ys ->
  ys = List.filter q xs.
Proof.
  revert ys. induction xs as [|x xs IH]; simpl; intros ys Hp H.
  - congruence.
  - apply bindE_Ret in H as (b & Hb & H).
    apply bindE_Ret in H as (zs & Hzs & H).
    rewrite <- (Hp x b (or_introl eq_refl) Hb).
    rewrite (IH zs) in H by auto.
    destruct b; congruence.
Qed.

Lemma forEach_pure {B : Type} (f : list B -> JsVal -> Exc (list B)) (g : JsVal -> list B)
    (xs : list JsVal) (acc res : list B) :
  (forall a x a', In x xs -> f a x = Ret a' -> a' = a ++ g x) ->
  ExcOps.forEach f xs acc = Ret res ->
  res = acc ++ List.flat_map g xs.
Proof.
  revert acc. induction xs as [|x xs IH]; simpl; intros acc Hf H.
  - rewrite app_nil_r. congruence.
  - apply bindE_Ret in H as (a' & Ha & H).
    apply (Hf acc x a' (or_introl eq_refl)) in Ha. subst a'.
    rewrite (IH _ (fun a y a' Hy => Hf a y a' (or_intror Hy)) H).
    now rewrite <- app_assoc.
Qed.

Lemma find_total (p : JsVal -> Exc bool) (xs : list JsVal) :
  (forall x, In x xs -> exists b, p x = Ret b) -> exists r, ExcOps.find p xs = Ret r.
Proof.
  induction xs as [|x xs IH]; simpl; intros Hp; [eauto|].
  destruct (Hp x (or_introl eq_refl)) as (b & ->). simpl.
  destruct b; eauto.
Qed.

Lemma filter_total (p : JsVal -> Exc bool) (xs : list JsVal) :
  (forall x, In x xs -> exists b, p x = Ret b) -> exists ys, ExcOps.filter p xs = Ret ys.
Proof.
  induction xs as [|x xs IH]; simpl; intros Hp; [eauto|].
  destruct (Hp x (or_introl eq_refl)) as (b & ->). simpl.
  destruct IH as (ys & ->); [auto|]. simpl. eauto.
Qed.

Lemma forEach_total {B : Type} (f : B -> JsVal -> Exc B) (xs : list JsVal) (acc : B) :
  (forall a x, In x xs -> exists a', f a x = Ret a') -> exists res, ExcOps.forEach f xs acc = Ret res.
Proof.
  revert acc. induction xs as [|x xs IH]; simpl; intros acc Hf; [eauto|].
  destruct (Hf acc x (or_introl eq_refl)) as (a' & ->). simpl.
  apply IH. auto.
Qed.

Lemma filter_In_sub {A : Type} (q : A -> bool) (xs : list A) (x : A) :
  In x (List.filter q xs) -> In x xs /\ q x = true.
Proof. apply List.filter_In. Qed.

Lemma flat_map_singletons {A B : Type} (g : A -> list B) (h : A -> B) (xs : list A) :
  (forall x, In x xs -> g x = [h x]) -> List.flat_map g xs = List.map h xs.
Proof.
  induction xs as [|x xs IH]; simpl; intros Hg; [reflexivity|].
  rewrite (Hg x (or_introl eq_refl)), IH by auto. reflexivity.
Qed.

Lemma getProp_truthy (v : JsVal) (key : string) :
  Js.truthy (Js.getProp v key) = true -> Js.truthy v = true.
Proof.
  destruct v as [| |b|n|s|xs|fields]; simpl; try discriminate; try reflexivity.
  destruct s as [|c s]; [|reflexivity]. simpl.
  destruct (String.eqb key "length"); [discriminate|].
  destruct (Str.arrayIndex key) as [i|]; [|discriminate].
  destruct i; discriminate.
Qed.

Lemma and_truthy_getProp (v : JsVal) (key : string) :
  (Js.truthy v && Js.truthy (Js.getProp v key))%bool = Js.truthy (Js.getProp v key).
Proof.
  destruct (Js.truthy (Js.getProp v key)) eqn:H.
  - now rewrite (getProp_truthy _ _ H).
  - apply andb_false_r.
Qed.

(** ** Job aids *)

Section JobAids.
Variable doc : JsVal.

Let includedData : JsVal := Js.or (Js.getProp doc "included") (JArr []).

Lemma includedData_items (items : list JsVal) :
  ExcOps.asArray includedData = Ret items -> items = Spec.includedOf doc.
Proof.
  unfold includedData, Spec.includedOf, Js.or.
  destruct (Js.getProp doc "included") as [| |b|n|s|xs|fields]; simpl; try congruence.
  - destruct b; simpl; congruence.
  - destruct (n =? 0); simpl; congruence.
  - destruct (String.eqb s ""); simpl; congruence.
Qed.

Lemma findById_record (ref r : JsVal) :
  CourseViewer.findById includedData ref = Ret r ->
  r = Spec.includedRecord (Spec.includedOf doc) ref.
Proof.
  unfold CourseViewer.findById, Spec.includedRecord. intros H.
  apply bindE_Ret in H as (items & Hitems & H).
  apply includedData_items in Hitems. subst items.
  apply (find_pure _ (fun item => Js.strictEq (Js.getProp item "id") (Js.getProp ref "id"))) in H;
    [exact H|].
  intros x b _ Hx. exc_inv. reflexivity.
Qed.

Lemma isJobAid_truthy (record : JsVal) :
  (Js.truthy record && Js.truthy (Js.getProp record "attributes") &&
   Js.strictEq (Js.getProp (Js.getProp record "attributes") "loType") (JStr "jobAid"))%bool =
  Spec.isJobAid record.
Proof.
  unfold Spec.isJobAid.
  destruct (Js.strictEq (Js.getProp (Js.getProp record "attributes") "loType") (JStr "jobAid")) eqn:H.
  - assert (Ht : Js.truthy (Js.getProp (Js.getProp record "attributes") "loType") = true).
    { destruct (Js.getProp (Js.getProp record "attributes") "loType"); simpl in H; try discriminate.
      apply String.eqb_eq in H. subst. reflexivity. }
    apply getProp_truthy in Ht. rewrite Ht.
    apply getProp_truthy in Ht. rewrite Ht. reflexivity.
  - apply andb_false_r.
Qed.

Lemma isJobAidRef_pure (ref : JsVal) (b : bool) :
  CourseViewer.isJobAidRef includedData ref = Ret b ->
  b = Spec.isJobAid (Spec.includedRecord (Spec.includedOf doc) ref).
Proof.
  unfold CourseViewer.isJobAidRef. intros H.
  apply bindE_Ret in H as (r & Hr & H).
  apply findById_record in Hr. subst r.
  injection H as <-. apply isJobAid_truthy.
Qed.

Lemma jobAidOf_pure (acc acc' : list JobAid) (ref : JsVal) :
  Spec.isJobAid (Spec.includedRecord (Spec.includedOf doc) ref) = true ->
  CourseViewer.jobAidOf includedData acc ref = Ret acc' ->
  acc' = acc ++ [Spec.jobAidEntry ref (Spec.includedRecord (Spec.includedOf doc) ref)].
Proof.
  unfold CourseViewer.jobAidOf. intros Hjob H.
  apply bindE_Ret in H as (r & Hr & H).
  apply findById_record in Hr. subst r.
  set (record := Spec.includedRecord (Spec.includedOf doc) ref) in *.
  rewrite <- isJobAid_truthy in Hjob.
  apply andb_prop in Hjob as [Hjob _]. rewrite Hjob in H.
  exc_inv. f_equal. f_equal.
  unfold Spec.jobAidEntry, CourseViewer.firstLocalizedMetadata.
  rewrite and_truthy_getProp.
  destruct (Js.truthy (Js.getProp (Js.getProp (Js.getProp record "attributes") "localizedMetadata") "0"));
    reflexivity.
Qed.

Lemma lookup_supplementary :
  Spec.lookup doc ["data"; "relationships"; "supplementaryLOs"; "data"] =
  Js.getProp (Js.getProp (Js.getProp (Js.getProp doc "data") "relationships") "supplementaryLOs") "data".
Proof. unfold Spec.lookup. simpl. now rewrite !optProp_getProp. Qed.

Lemma extractJobAids_sound (aids : list JobAid) :
  CourseViewer.extractJobAids doc = Ret aids -> aids = Spec.jobAidsOf doc.
Proof.
  unfold CourseViewer.extractJobAids, Spec.jobAidsOf, Spec.supplementaryOf.
  rewrite lookup_supplementary. intros H.
  exc_inv. fold includedData in H.
  set (rel := Js.getProp (Js.getProp doc "data") "relationships") in *.
  rewrite !and_truthy_getProp in H.
  destruct (Js.getProp (Js.getProp rel "supplementaryLOs") "data") as [| |b|n|s|refs|fields] eqn:Hd;
    simpl in H;
    try solve [ repeat match type of H with
                  | context [if ?c then _ else _] => destruct c
                  end; simpl in H; first [discriminate | injection H as <-; reflexivity] ].
  apply bindE_Ret in H as (items & Hitems & H).
  apply (filter_pure _ (fun ref => Spec.isJobAid (Spec.includedRecord (Spec.includedOf doc) ref)))
    in Hitems; [|intros x b _; apply isJobAidRef_pure].
  subst items.
  apply (forEach_pure _
           (fun ref => [Spec.jobAidEntry ref (Spec.includedRecord (Spec.includedOf doc) ref)]))
    in H.
  - simpl in H. subst aids. apply flat_map_singletons. reflexivity.
  - intros a x a' Hx. apply filter_In_sub in Hx as [_ Hx].
    now apply jobAidOf_pure.
Qed.

Lemma findById_total (ref : JsVal) :
  Spec.jobAidsWellFormed doc = true -> Spec.isObject ref = true ->
  exists r, CourseViewer.findById includedData ref = Ret r.
Proof.
  unfold Spec.jobAidsWellFormed, CourseViewer.findById, includedData, Js.or.
  intros Hwf Href.
  apply andb_prop in Hwf as [Hwf _]. apply andb_prop in Hwf as [_ Hinc].
  destruct (Js.getProp doc "included") as [| |b|n|s|xs|fields]; simpl in *; try discriminate.
  - eauto.
  - apply find_total. intros x Hx.
    rewrite forallb_forall in Hinc.
    rewrite (prop_object x) by auto. rewrite (prop_object ref) by auto. simpl. eauto.
Qed.

Lemma extractJobAids_total :
  Spec.jobAidsWellFormed doc = true -> exists aids, CourseViewer.extractJobAids doc = Ret aids.
Proof.
  intros Hwf. pose proof Hwf as Hwf'.
  unfold Spec.jobAidsWellFormed in Hwf'. rewrite lookup_supplementary in Hwf'.
  apply andb_prop in Hwf' as [Hwf' Hsup]. apply andb_prop in Hwf' as [Hwf' _].
  apply andb_prop in Hwf' as [Hdoc Hdata].
  unfold CourseViewer.extractJobAids.
  rewrite (prop_object doc) by assumption. simpl.
  rewrite (prop_object doc) by assumption. simpl.
  rewrite (prop_object (Js.getProp doc "data")) by assumption. simpl.
  fold includedData.
  rewrite !and_truthy_getProp.
  destruct (Js.getProp (Js.getProp (Js.getProp (Js.getProp doc "data") "relationships")
                          "supplementaryLOs") "data") as [| |b|n|s|refs|fields];
    simpl in Hsup; try discriminate; simpl.
  - eauto.
  - rewrite forallb_forall in Hsup.
    destruct (filter_total (CourseViewer.isJobAidRef includedData) refs) as (items & Hitems).
    { intros x Hx. unfold CourseViewer.isJobAidRef.
      destruct (findById_total x Hwf (Hsup x Hx)) as (r & ->). simpl. eauto. }
    rewrite Hitems. simpl.
    apply forEach_total. intros a x Hx.
    assert (Hin : In x refs).
    { apply (filter_pure _ (fun ref => Spec.isJobAid (Spec.includedRecord (Spec.includedOf doc) ref)))
        in Hitems; [|intros y b _; apply isJobAidRef_pure].
      subst items. now apply filter_In_sub in Hx as [Hx _]. }
    unfold CourseViewer.jobAidOf.
    destruct (findById_total x Hwf (Hsup x Hin)) as (r & ->). simpl.
    destruct (_ && _)%bool; [|eauto].
    rewrite (prop_object x) by auto. simpl. eauto.
Qed.

End JobAids.

(** C7 (as stated, refuted): the job aid of [Samples.courseWithJobAid] has no
    localized metadata, and its entry is named after `attributes.name`, not
    'Job Aid'. *)
Lemma extractJobAids_name_from_attributes :
  Spec.lookup Samples.courseWithJobAid ["included"; "0"; "attributes"; "localizedMetadata"] = JUndef /\
  CourseViewer.extractJobAids Samples.courseWithJobAid =
    Ret [{| aid_id := JStr "jobAid:7";
            aid_name := JStr "Cheat sheet";
            aid_description := JStr "Job aid description" |}] /\
  (forall aids,
      CourseViewer.extractJobAids Samples.courseWithJobAid = Ret aids ->
      List.map aid_name aids <> [JStr "Job Aid"]).
Proof.
  split; [reflexivity|]. split; [reflexivity|].
  intros aids H. vm_compute in H. injection H as <-. discriminate.
Qed.

(** C7 (amended): `extractJobAids` returns exactly the supplementary
    learning objects of the document whose matching included record has
    loType 'jobAid': one entry per such reference in document order, every
    reference to a record of another loType or to no included record being
    left out. An entry takes its name and description from the first
    localized metadata of the record; when the record has no localized
    metadata the name is `attributes.name`, or 'Job Aid' when that is missing
    too, and the description is 'Job aid description'. On a well-formed
    document the function returns. *)
Theorem extractJobAids_exact (doc : JsVal) :
  (forall aids, CourseViewer.extractJobAids doc = Ret aids -> aids = Spec.jobAidsOf doc) /\
  (Spec.jobAidsWellFormed doc = true ->
   exists aids, CourseViewer.extractJobAids doc = Ret aids).
Proof.
  split.
  - apply extractJobAids_sound.
  - apply extractJobAids_total.
Qed.

Lemma extractJobAids_exact_witness :
  exists aids,
    CourseViewer.extractJobAids Samples.courseWithJobAid = Ret aids /\
    aids = Spec.jobAidsOf Samples.courseWithJobAid.
Proof.
  destruct (extractJobAids_exact Samples.courseWithJobAid) as [Hsound Htotal].
  destruct (Htotal eq_refl) as (aids & H).
  exists aids. split; [exact H | exact (Hsound aids H)].
Defined.

(** ** Effects: inversion *)

Lemma bindM_Ret {A B : Type} (m : M A) (k : A -> M B) (w : World) (s s' : St) (b : B) :
  bindM m k w s = (Ret b, s') ->
  exists a s1, m w s = (Ret a, s1) /\ k a w s1 = (Ret b, s').
Proof.
  unfold bindM. destruct (m w s) as [[a|msg] s1]; [eauto | discriminate].
Qed.

Lemma liftE_Ret {A : Type} (e : Exc A) (w : World) (s s' : St) (a : A) :
  liftE e w s = (Ret a, s') -> e = Ret a /\ s' = s.
Proof. unfold liftE. intros H. injection H as -> ->. auto. Qed.

Lemma retM_Ret {A : Type} (x a : A) (w : World) (s s' : St) :
  retM x w s = (Ret a, s') -> a = x /\ s' = s.
Proof. unfold retM. intros H. injection H as -> ->. auto. Qed.


(** ** safeGet on the paths of the normalizer *)

Lemma getProp_primitive (v : JsVal) (key : string) :
  isPrimitive v = true -> isPrimitive (Js.getProp v key) = true.
Proof.
  destruct v; simpl; try reflexivity; try discriminate.
  intros _. destruct (String.eqb key "length"); [reflexivity|].
  destruct (Str.arrayIndex key) as [i|]; [|reflexivity].
  destruct (Str.nthChar i s); reflexivity.
Qed.

Lemma getProp_primitive_plain (v : JsVal) (key : string) :
  isPrimitive v = true -> plainKey key = true -> Js.getProp v key = JUndef.
Proof.
  intros Hv Hk. apply getProp_plain_object; [assumption|].
  destruct v; simpl in *; congruence.
Qed.

Section SafeGet.
Variable defaultValue : JsVal.
Hypothesis primitiveDefault : isPrimitive defaultValue = true.

(** While no component is missing the reducer follows the lookup; after a
    miss it holds the default or a value read from the default. *)
Lemma safeGetStep_track (current found : JsVal) (key : string) :
  current = found \/ isPrimitive current = true ->
  CourseViewer.safeGetStep defaultValue current key = Js.optProp found key \/
  isPrimitive (CourseViewer.safeGetStep defaultValue current key) = true.
Proof.
  unfold CourseViewer.safeGetStep. intros [<-|Hp].
  - destruct (Js.truthy current && negb (Js.isUndef (Js.getProp current key)))%bool;
      [|right; assumption].
    left. symmetry. apply optProp_getProp.
  - right.
    destruct (Js.truthy current && negb (Js.isUndef (Js.getProp current key)))%bool;
      [|assumption].
    now apply getProp_primitive.
Qed.

Lemma safeGet_track (keys : list string) (current found : JsVal) :
  current = found \/ isPrimitive current = true ->
  fold_left (CourseViewer.safeGetStep defaultValue) keys current = fold_left Js.optProp keys found \/
  isPrimitive (fold_left (CourseViewer.safeGetStep defaultValue) keys current) = true.
Proof.
  revert current found. induction keys as [|key keys IH]; simpl; intros current found H.
  - exact H.
  - apply IH. destruct (safeGetStep_track current found key H) as [->|Hp]; auto.
Qed.

(** A path that ends in a plain key and whose lookup is undefined yields
    the default. *)
Lemma safeGet_missing (obj : JsVal) (keys : list string) (key : string) :
  plainKey key = true ->
  Spec.lookup obj (keys ++ [key]) = JUndef ->
  fold_left (CourseViewer.safeGetStep defaultValue) (keys ++ [key]) obj = defaultValue.
Proof.
  unfold Spec.lookup. rewrite !fold_left_app. simpl. intros Hk Hmiss.
  destruct (safeGet_track keys obj obj (or_introl eq_refl)) as [Heq|Hp].
  - rewrite Heq. unfold CourseViewer.safeGetStep.
    rewrite <- optProp_getProp, Hmiss. simpl. now rewrite andb_false_r.
  - set (current := fold_left (CourseViewer.safeGetStep defaultValue) keys obj) in *.
    unfold CourseViewer.safeGetStep.
    rewrite (getProp_primitive_plain _ key Hp Hk). simpl. now rewrite andb_false_r.
Qed.

End SafeGet.

Lemma safeGet_default (obj : JsVal) (path : string) (keys : list string) (key : string)
    (defaultValue : JsVal) :
  Str.split "." path = keys ++ [key] ->
  isPrimitive defaultValue = true ->
  plainKey key = true ->
  Spec.lookup obj (keys ++ [key]) = JUndef ->
  CourseViewer.safeGet obj path defaultValue = defaultValue.
Proof.
  intros Hsplit Hd Hk Hmiss. unfold CourseViewer.safeGet. rewrite Hsplit.
  now apply safeGet_missing.
Qed.

(** ** The defaults of the normalizer *)



Lemma asArray_truthy_included (doc : JsVal) (items : list JsVal) :
  ExcOps.asArray (Js.getProp doc "included") = Ret items -> items = Spec.includedOf doc.
Proof.
  unfold Spec.includedOf. destruct (Js.getProp doc "included"); simpl; congruence.
Qed.











(** ** What the normalizer owes to `Math.random()` and to the clock *)

Section Determinism.
Variable E : Engine.
Variables w1 w2 : World.
Variables s1 s2 : St.

Lemma coreModuleOf_related (includedData courseData resource : JsVal)
    (acc1 acc2 : list CoreModule) (t1 t2 : St) :
  modulesRelated w1 w2 s1 s2 acc1 acc2 t1 t2 ->
  outcomesRelated w1 w2 s1 s2 (CourseViewer.coreModuleOf E includedData courseData acc1 resource w1 t1)
                  (CourseViewer.coreModuleOf E includedData courseData acc2 resource w2 t2).
Proof.
  intros (Hmap & Hsame & (k & Hk1 & Hk2) & Hc1 & Hc2).
  unfold CourseViewer.coreModuleOf, bindM, liftE, retM, Eff.mathRandom.
  destruct (CourseViewer.findById includedData resource) as [resourceData|msg]; simpl; [|reflexivity].
  destruct (Js.truthy resourceData && Js.truthy (Js.getProp resourceData "attributes"))%bool; simpl.
  - destruct (ExcOps.asString _) as [moduleType|msg]; simpl; [|reflexivity].
    destruct (Js.prop resource "id") as [rid|msg]; simpl; [|reflexivity].
    destruct (Js.prop courseData "id") as [cid|msg]; simpl; [|reflexivity].
    repeat split; simpl; auto.
    + rewrite !map_app, Hmap. reflexivity.
    + intros Hs. rewrite (Hsame Hs), Hk1, Hk2, (Hs k). reflexivity.
    + exists (S k). lia.
  - repeat split; auto. exists k. auto.
Qed.

Lemma forEach_related (includedData courseData : JsVal) (resources : list JsVal) :
  forall (acc1 acc2 : list CoreModule) (t1 t2 : St),
    modulesRelated w1 w2 s1 s2 acc1 acc2 t1 t2 ->
    outcomesRelated w1 w2 s1 s2
      (Eff.forEach (CourseViewer.coreModuleOf E includedData courseData) resources acc1 w1 t1)
      (Eff.forEach (CourseViewer.coreModuleOf E includedData courseData) resources acc2 w2 t2).
Proof.
  induction resources as [|resource resources IH]; intros acc1 acc2 t1 t2 Hrel; simpl.
  - exact Hrel.
  - unfold bindM.
    pose proof (coreModuleOf_related includedData courseData resource acc1 acc2 t1 t2 Hrel) as Hstep.
    destruct (CourseViewer.coreModuleOf E includedData courseData acc1 resource w1 t1) as [[a1|m1] u1];
      destruct (CourseViewer.coreModuleOf E includedData courseData acc2 resource w2 t2) as [[a2|m2] u2];
      simpl in Hstep; try contradiction.
    + now apply IH.
    + exact Hstep.
Qed.

Lemma modulesRelated_init : modulesRelated w1 w2 s1 s2 [] [] s1 s2.
Proof. repeat split; auto. exists O. lia. Qed.

Lemma extractCoreModules_related (doc : JsVal) :
  outcomesRelated w1 w2 s1 s2 (CourseViewer.extractCoreModules E doc w1 s1)
                  (CourseViewer.extractCoreModules E doc w2 s2).
Proof.
  unfold CourseViewer.extractCoreModules, bindM, liftE, retM.
  destruct (Js.prop doc "data") as [courseData|msg]; simpl; [|reflexivity].
  destruct (Js.prop doc "included") as [included|msg]; simpl; [|reflexivity].
  destruct (Js.prop courseData "relationships") as [rel|msg]; simpl; [|reflexivity].
  destruct (_ && _ && _)%bool; simpl; [|apply modulesRelated_init].
  destruct (let? items := ExcOps.asArray (Js.or included (JArr [])) in _) as [instanceData|msg];
    simpl; [|reflexivity].
  destruct (_ && _ && _)%bool; simpl; [|apply modulesRelated_init].
  destruct (ExcOps.asArray _) as [resources|msg]; simpl; [|reflexivity].
  apply forEach_related. apply modulesRelated_init.
Qed.

End Determinism.

(** C3 (as stated, refuted): two invocations on the same document, course
    ID and instance ID return records with different module statuses and
    timestamps, and different HTML, when `Math.random()` and the clock
    answer differently. *)
Lemma processCourseData_depends_on_random_and_clock :
  exists r1 r2,
    fst (CourseViewer.processCourseData Samples.engine Samples.courseWithModule (JStr "1") JNull
           Samples.world Eff.init) = Ret r1 /\
    fst (CourseViewer.processCourseData Samples.engine Samples.courseWithModule (JStr "1") JNull
           Samples.laterWorld Eff.init) = Ret r2 /\
    List.map mod_status (coreModules r1) = ["completed"] /\
    List.map mod_status (coreModules r2) = ["in-progress"] /\
    timestamp r1 <> timestamp r2 /\
    r1 <> r2 /\
    Html.courseHTML r1 <> Html.courseHTML r2.
Proof.
  eexists. eexists.
  split; [vm_compute; reflexivity|].
  split; [vm_compute; reflexivity|].
  split; [reflexivity|]. split; [reflexivity|].
  split; [discriminate|]. split; [discriminate|].
  intros H. apply String.eqb_eq in H. vm_compute in H. discriminate H.
Qed.

(** C3 (amended): the normalizer is a function of the JSON:API document,
    the course ID, the instance ID, the results of `Math.random()` and the
    reading of the clock. Two invocations on equal arguments both fail with
    the same exception or both return; the records returned agree on every
    field except `timestamp` and the completion fields of the modules
    (status, isCompleted, statusText, statusIcon); when the two invocations
    also draw the same random numbers and read the same time, the records
    are equal and so is the HTML `generateCourseHTML` produces. *)
Theorem processCourseData_deterministic_modulo (E : Engine)
    (doc courseId instanceId : JsVal) (w1 w2 : World) (s1 s2 : St) :
  match fst (CourseViewer.processCourseData E doc courseId instanceId w1 s1),
        fst (CourseViewer.processCourseData E doc courseId instanceId w2 s2) with
  | Ret r1, Ret r2 =>
      Spec.withoutVolatile r1 = Spec.withoutVolatile r2 /\
      (sameDraws w1 w2 s1 s2 ->
       clock w1 (ticks s1) = clock w2 (ticks s2) ->
       r1 = r2 /\ Html.courseHTML r1 = Html.courseHTML r2)
  | Throw m1, Throw m2 => m1 = m2
  | _, _ => False
  end.
Proof.
  unfold CourseViewer.processCourseData, bindM, liftE, retM, Eff.nowISO.
  destruct (Js.prop doc "data") as [courseData|msg]; simpl; [|reflexivity].
  destruct (Js.prop courseData "type") as [ty|msg]; simpl; [|reflexivity].
  destruct (CourseViewer.extractSkills doc) as [skills|msg]; simpl; [|reflexivity].
  destruct (CourseViewer.skillLevelOf doc courseData skills) as [level|msg]; simpl; [|reflexivity].
  pose proof (extractCoreModules_related E w1 w2 s1 s2 doc) as Hmods.
  destruct (CourseViewer.extractCoreModules E doc w1 s1) as [[mods1|m1] t1];
    destruct (CourseViewer.extractCoreModules E doc w2 s2) as [[mods2|m2] t2];
    simpl in Hmods; try contradiction; simpl; [|exact Hmods].
  destruct Hmods as (Hmap & Hsame & _ & Hc1 & Hc2).
  destruct (CourseViewer.extractPrerequisites doc) as [pre|msg]; simpl; [|reflexivity].
  destruct (CourseViewer.extractJobAids doc) as [aids|msg]; simpl; [|reflexivity].
  split.
  - unfold Spec.withoutVolatile. simpl. now rewrite Hmap.
  - intros Hs Hclock. rewrite (Hsame Hs), Hc1, Hc2, Hclock. split; reflexivity.
Qed.

(** ** Escaping *)

Lemma escapeChar_markupFree (c : ascii) : Spec.markupFree (Html.escapeChar c) = true.
Proof.
  unfold Html.escapeChar.
  destruct (Ascii.eqb c "&") eqn:H1; [reflexivity|].
  destruct (Ascii.eqb c "<") eqn:H2; [reflexivity|].
  destruct (Ascii.eqb c ">") eqn:H3; [reflexivity|].
  destruct (Ascii.eqb c Str.dqChar) eqn:H4; [reflexivity|].
  destruct (Ascii.eqb c "'") eqn:H5; [reflexivity|].
  simpl. unfold Spec.isMarkup. now rewrite H2, H3, H4, H5.
Qed.

Lemma markupFree_app (a b : string) :
  Spec.markupFree (a +:+ b) = (Spec.markupFree a && Spec.markupFree b)%bool.
Proof.
  induction a as [|c a IH]; simpl; [reflexivity|].
  now rewrite IH, andb_assoc.
Qed.

(** What `escapeHtml` returns for a string contains no angle bracket and no
    quote. *)
Lemma escapeText_markupFree (text : string) : Spec.markupFree (Html.escapeText text) = true.
Proof.
  induction text as [|c text IH]; simpl; [reflexivity|].
  now rewrite markupFree_app, escapeChar_markupFree, IH.
Qed.

(** A text without special characters is left as it is. *)
Lemma escapeText_specialFree (text : string) :
  Spec.specialFree text = true -> Html.escapeText text = text.
Proof.
  induction text as [|c text IH]; simpl; [reflexivity|].
  intros H. apply andb_prop in H as [Hc Ht]. rewrite (IH Ht).
  unfold Spec.isSpecial in Hc. apply negb_true_iff in Hc.
  repeat (apply orb_false_elim in Hc as [Hc ?]).
  unfold Html.escapeChar.
  repeat match goal with H : Ascii.eqb _ _ = false |- _ => rewrite H; clear H end.
  reflexivity.
Qed.

(** C1 (the code departs from it): the content of the course-rating meta tag
    is interpolated without `escapeHtml` (and so are those of
    course-enrollment-count and timestamp). A rating that the API returns as
    a string reaches the document as it is: its double quote closes the
    attribute, and the browser sees a script element. *)
Theorem courseHTML_rating_not_escaped :
  exists r,
    fst (CourseViewer.processCourseData Samples.engine Samples.courseWithMarkupRating
           (JStr "1") JNull Samples.world Eff.init) = Ret r /\
    ratingAvg r = JStr Samples.markup /\
    Str.includes ("<meta name=" +:+ Str.q "course-rating" +:+ " content=" +:+ Str.dq +:+
                  Samples.markup)
                 (Html.courseHTML r) = true /\
    existsb (fun t => String.eqb (tag_name t) "script") (Dom.parse (Html.courseHTML r)) = true.
Proof.
  eexists. split; [vm_compute; reflexivity|].
  repeat split; vm_compute; reflexivity.
Qed.

(** ** From the assembler to the client decorator *)













(** ** The action *)

Lemma bindM_run {A B : Type} (m : M A) (k : A -> M B) (w : World) (s s' : St) (a : A) :
  m w s = (Ret a, s') -> bindM m k w s = k a w s'.
Proof. unfold bindM. now intros ->. Qed.

Lemma log_run (lvl : LogLevel) (msg : string) (w : World) (s : St) :
  Eff.log lvl msg w s =
  (Ret tt, {| draws := draws s; ticks := ticks s; sent := sent s;
              logged := logged s ++ [(lvl, msg)] |}).
Proof. reflexivity. Qed.




Lemma errorResponse_run (statusCode : Z) (message : string) (w : World) (s : St) :
  exists s', Action.errorResponse statusCode message w s = (Ret (ErrorResult statusCode message), s').
Proof. eexists. reflexivity. Qed.



Lemma main_catches (publish : JsVal -> JsVal -> JsVal -> M unit) (E : Engine)
    (fields : list (string * JsVal)) (w : World) (s : St) :
  match Action.mainBodyWith publish E (JObj fields) w s with
  | (Ret result, s1) => Action.mainWith publish E (JObj fields) w s = (Ret result, s1)
  | (Throw _, s1) =>
      exists s',
        Action.mainWith publish E (JObj fields) w s = (Ret (ErrorResult 500 "server error"), s') /\
        In (LError, "Error in course-viewer action:") (logged s')
  end.
Proof.
  unfold Action.mainWith, bindM, liftE, tryCatch. simpl.
  destruct (Action.mainBodyWith publish E (JObj fields) w s) as [[result|msg] s1].
  - reflexivity.
  - eexists. split; [reflexivity|]. simpl.
    apply in_or_app. left. apply in_or_app. right. left. reflexivity.
Qed.



Lemma main_of_body (publish : JsVal -> JsVal -> JsVal -> M unit) (E : Engine)
    (fields : list (string * JsVal)) (w : World) (s s' : St) (result : ActionResult) :
  Action.mainBodyWith publish E (JObj fields) w s = (Ret result, s') ->
  Action.mainWith publish E (JObj fields) w s = (Ret result, s').
Proof.
  intros H. pose proof (main_catches publish E fields w s) as Hc.
  now rewrite H in Hc.
Qed.




(** ** The requests of a run *)













(** ** The publisher *)

Section Publisher.
Variable E : Engine.
Variables token courseId : JsVal.



End Publisher.











(** ** The response does not depend on the publisher *)







(** A course with one instance, on a network that refuses every POST: the
    page is served, the instance got its one POST, the failure is in the
    log. *)
Example main_publishes_each_instance_once :
  exists html s',
    Action.main Samples.engine Samples.publishingRequest Samples.readOnlyWorld Eff.init =
    (Ret (Response 200 html Action.htmlHeaders), s') /\
    List.map req_url (Spec.posts (sent s')) =
    ["https://admin.hlx.page/preview/rohitnegi02/byomeds/main/overview/trainingId/1/trainingInstanceId/1-2"] /\
    In (LError, "Error publishing to EDS cache for instance 1-2:") (logged s').
Proof.
  do 2 eexists. split; [vm_compute; reflexivity|].
  split; [vm_compute; reflexivity|].
  vm_compute. tauto.
Qed.
(* ===================================================================== *)
(** * Further properties *)
(* ===================================================================== *)

(** ** Splitting and searching texts *)

Lemma lacks_app (c : ascii) (a b : string) :
  lacks c (a +:+ b) = (lacks c a && lacks c b)%bool.
Proof. induction a as [|x a IH]; simpl; [reflexivity | now rewrite IH, andb_assoc]. Qed.

Lemma split_lacks (c : ascii) (s : string) : lacks c s = true -> Str.split c s = [s].
Proof.
  induction s as [|a s IH]; simpl; [reflexivity|].
  intros H. apply andb_prop in H as [Ha Hs]. apply negb_true_iff in Ha.
  now rewrite Ha, (IH Hs).
Qed.

Lemma split_app (c : ascii) (a b : string) :
  lacks c a = true -> Str.split c (a +:+ String c b) = a :: Str.split c b.
Proof.
  induction a as [|x a IH]; simpl.
  - intros _. now rewrite Ascii.eqb_refl.
  - intros H. apply andb_prop in H as [Hx Ha]. apply negb_true_iff in Hx.
    now rewrite Hx, (IH Ha).
Qed.

Lemma split_length (c : ascii) (s : string) :
  List.length (Str.split c s) = S (occurrences c s).
Proof.
  induction s as [|a s IH]; simpl; [reflexivity|].
  destruct (Ascii.eqb a c); simpl; [now rewrite IH|].
  destruct (Str.split c s) as [|w ws] eqn:Hs; simpl in *; [discriminate | exact IH].
Qed.

Lemma startsWith_app (p s : string) : Str.startsWith p (p +:+ s) = true.
Proof. induction p as [|a p IH]; simpl; [reflexivity | now rewrite Ascii.eqb_refl]. Qed.

Lemma startsWith_split (p s : string) :
  Str.startsWith p s = true -> exists rest, s = p +:+ rest.
Proof.
  revert s. induction p as [|a p IH]; intros s H.
  - exists s. reflexivity.
  - destruct s as [|b s]; simpl in H; [discriminate|].
    destruct (Ascii.eqb_spec a b) as [->|]; [|discriminate].
    destruct (IH s H) as (rest & ->). exists rest. reflexivity.
Qed.

Lemma includes_prefix (p s : string) : Str.includes p (p +:+ s) = true.
Proof. destruct (p +:+ s) eqn:H; simpl; rewrite <- H, startsWith_app; reflexivity. Qed.

Lemma includes_char (c : ascii) (s : string) :
  Str.includes (String c EmptyString) s = negb (lacks c s).
Proof.
  induction s as [|a s IH]; simpl; [reflexivity|].
  rewrite Ascii.eqb_sym.
  destruct (Ascii.eqb a c); simpl; [reflexivity|].
  destruct s; exact IH.
Qed.

Lemma replaceFirst_app (a b : ascii) (s t : string) :
  lacks a s = true -> Str.replaceFirst a b (s +:+ String a t) = s +:+ String b t.
Proof.
  induction s as [|x s IH]; simpl.
  - intros _. now rewrite Ascii.eqb_refl.
  - intros H. apply andb_prop in H as [Hx Hs]. apply negb_true_iff in Hx.
    now rewrite Hx, (IH Hs).
Qed.

Lemma length_append (a b : string) :
  String.length (a +:+ b) = (String.length a + String.length b)%nat.
Proof. induction a as [|c a IH]; simpl; [reflexivity | now rewrite IH]. Qed.

Lemma dropChars_app (p s : string) : dropChars (String.length p) (p +:+ s) = s.
Proof. induction p as [|c p IH]; simpl; [now destruct s | exact IH]. Qed.

Lemma nonempty_length (s : string) : s <> "" -> (0 <? String.length s)%nat = true.
Proof. destruct s; [congruence | reflexivity]. Qed.

Lemma pathSegment_spec (x : string) : pathSegment x = true -> x <> "" /\ lacks "/" x = true.
Proof.
  unfold pathSegment. intros H. apply andb_prop in H as [Hne Hl]. split; [|exact Hl].
  intros ->. discriminate Hne.
Qed.

(** ** Values *)

Lemma strictEq_eq (a b : JsVal) : Js.strictEq a b = true -> a = b.
Proof.
  destruct a, b; simpl; try discriminate; intros H; try reflexivity.
  - apply Bool.eqb_prop in H. now subst.
  - apply Z.eqb_eq in H. now subst.
  - apply String.eqb_eq in H. now subst.
Qed.

Lemma or_truthy (a b : JsVal) : Js.truthy b = true -> Js.truthy (Js.or a b) = true.
Proof. unfold Js.or. destruct (Js.truthy a) eqn:H; auto. Qed.

Lemma prop_truthy (v : JsVal) (key : string) :
  Js.truthy v = true -> Js.prop v key = Ret (Js.getProp v key).
Proof. destruct v; simpl; congruence. Qed.

Lemma prop_not_nullish (v : JsVal) (key : string) :
  isNullish v = false -> Js.prop v key = Ret (Js.getProp v key).
Proof. destruct v; simpl; congruence. Qed.

Lemma truthy_nonempty (s : string) : s <> "" -> Js.truthy (JStr s) = true.
Proof. intros H. simpl. destruct (String.eqb_spec s ""); [contradiction | reflexivity]. Qed.

Lemma map_pure {B : Type} (f : JsVal -> Exc B) (g : JsVal -> B) (xs : list JsVal) (ys : list B) :
  (forall x y, In x xs -> f x = Ret y -> y = g x) ->
  ExcOps.map f xs = Ret ys -> ys = List.map g xs.
Proof.
  revert ys. induction xs as [|x xs IH]; simpl; intros ys Hf H.
  - congruence.
  - apply bindE_Ret in H as (y & Hy & H).
    apply bindE_Ret in H as (rest & Hrest & H).
    injection H as <-.
    rewrite (Hf x y (or_introl eq_refl) Hy), (IH rest) by auto. reflexivity.
Qed.

Lemma map_total {B : Type} (f : JsVal -> Exc B) (xs : list JsVal) :
  (forall x, In x xs -> exists y, f x = Ret y) -> exists ys, ExcOps.map f xs = Ret ys.
Proof.
  induction xs as [|x xs IH]; simpl; intros Hf; [eauto|].
  destruct (Hf x (or_introl eq_refl)) as (y & ->). simpl.
  destruct IH as (ys & ->); [auto|]. simpl. eauto.
Qed.

Lemma find_holds (p : JsVal -> Exc bool) (xs : list JsVal) (r : JsVal) :
  ExcOps.find p xs = Ret r -> r = JUndef \/ p r = Ret true.
Proof.
  induction xs as [|x xs IH]; simpl; intros H.
  - left. congruence.
  - apply bindE_Ret in H as (b & Hb & H).
    destruct b; [right; congruence | auto].
Qed.

Lemma flat_map_filter_map {A B : Type} (p : A -> bool) (h : A -> B) (xs : list A) :
  List.flat_map (fun x => if p x then [h x] else []) xs = List.map h (List.filter p xs).
Proof.
  induction xs as [|x xs IH]; simpl; [reflexivity|].
  destruct (p x); simpl; now rewrite IH.
Qed.




Lemma log_loggedOnly (lvl : LogLevel) (msg : string) (w : World) (s : St) :
  loggedOnly s (snd (Eff.log lvl msg w s)).
Proof. repeat split. Qed.

(** ** escapeHtml *)

(** X1: what `escapeHtml` returns for a string
    is a string that contains no angle bracket, no double quote and no
    apostrophe, so it cannot close the attribute or the element it is
    interpolated in; a text without any of the five special characters is
    returned as it is. *)
Theorem escapeHtml_closes_markup (text : string) :
  exists escaped,
    Html.escapeHtml (JStr text) = JStr escaped /\
    Spec.markupFree escaped = true /\
    (Spec.specialFree text = true -> escaped = text).
Proof.
  exists (Html.escapeText text). split; [reflexivity|]. split.
  - apply escapeText_markupFree.
  - apply escapeText_specialFree.
Qed.

(** What `escapeChar` returns: the character itself when it is not
    special, else an entity, which starts with an ampersand and goes on
    with a character that tells the five entities apart. *)
Lemma escapeChar_shape (c : ascii) :
  (Spec.isSpecial c = false /\ Html.escapeChar c = String c EmptyString) \/
  (Spec.isSpecial c = true /\
   exists d rest, Html.escapeChar c = String "&" (String d rest) /\
                  forall c', Spec.isSpecial c' = true ->
                             (exists rest', Html.escapeChar c' = String "&" (String d rest')) -> c' = c).
Proof.
  unfold Spec.isSpecial, Html.escapeChar.
  destruct (Ascii.eqb_spec c "&") as [->|H1].
  { right. split; [reflexivity|]. do 2 eexists. split; [reflexivity|].
    intros c' _ (rest' & H). revert H.
    destruct (Ascii.eqb_spec c' "&"); [auto|].
    repeat match goal with |- context [Ascii.eqb c' ?x] => destruct (Ascii.eqb c' x) end; discriminate. }
  destruct (Ascii.eqb_spec c "<") as [->|H2].
  { right. split; [reflexivity|]. do 2 eexists. split; [reflexivity|].
    intros c' _ (rest' & H). revert H.
    destruct (Ascii.eqb_spec c' "&"); [discriminate|].
    destruct (Ascii.eqb_spec c' "<"); [auto|].
    repeat match goal with |- context [Ascii.eqb c' ?x] => destruct (Ascii.eqb c' x) end; discriminate. }
  destruct (Ascii.eqb_spec c ">") as [->|H3].
  { right. split; [reflexivity|]. do 2 eexists. split; [reflexivity|].
    intros c' _ (rest' & H). revert H.
    destruct (Ascii.eqb_spec c' "&"); [discriminate|].
    destruct (Ascii.eqb_spec c' "<"); [discriminate|].
    destruct (Ascii.eqb_spec c' ">"); [auto|].
    repeat match goal with |- context [Ascii.eqb c' ?x] => destruct (Ascii.eqb c' x) end; discriminate. }
  destruct (Ascii.eqb_spec c Str.dqChar) as [->|H4].
  { right. split; [reflexivity|]. do 2 eexists. split; [reflexivity|].
    intros c' _ (rest' & H). revert H.
    destruct (Ascii.eqb_spec c' "&"); [discriminate|].
    destruct (Ascii.eqb_spec c' "<"); [discriminate|].
    destruct (Ascii.eqb_spec c' ">"); [discriminate|].
    destruct (Ascii.eqb_spec c' Str.dqChar); [auto|].
    repeat match goal with |- context [Ascii.eqb c' ?x] => destruct (Ascii.eqb c' x) end; discriminate. }
  destruct (Ascii.eqb_spec c "'") as [->|H5].
  { right. split; [reflexivity|]. do 2 eexists. split; [reflexivity|].
    intros c' Hs (rest' & H). revert H Hs.
    destruct (Ascii.eqb_spec c' "&"); [discriminate|].
    destruct (Ascii.eqb_spec c' "<"); [discriminate|].
    destruct (Ascii.eqb_spec c' ">"); [discriminate|].
    destruct (Ascii.eqb_spec c' Str.dqChar); [discriminate|].
    destruct (Ascii.eqb_spec c' "'"); [auto|]. discriminate. }
  left. split; reflexivity.
Qed.

Lemma escapeChar_same_entity (c c' : ascii) (rest rest' : string) :
  Spec.isSpecial c = true -> Spec.isSpecial c' = true ->
  Html.escapeChar c +:+ rest = Html.escapeChar c' +:+ rest' -> c' = c.
Proof.
  intros Hc Hc' H.
  destruct (escapeChar_shape c) as [[Hn _]|(_ & d & r & He & Huniq)]; [congruence|].
  apply Huniq; [assumption|].
  destruct (escapeChar_shape c') as [[Hn _]|(_ & d' & r' & He' & _)]; [congruence|].
  rewrite He, He' in H. simpl in H. injection H as Hd _. subst d'. eauto.
Qed.

Lemma special_amp (c : ascii) : Spec.isSpecial c = false -> c <> "&"%char.
Proof. intros H ->. discriminate H. Qed.

Lemma escapeText_injective (a : string) :
  forall b, Html.escapeText a = Html.escapeText b -> a = b.
Proof.
  induction a as [|c a IH]; intros [|c' b] H.
  - reflexivity.
  - exfalso. simpl in H.
    destruct (escapeChar_shape c') as [[_ He]|(_ & d & r & He & _)]; rewrite He in H; discriminate H.
  - exfalso. simpl in H.
    destruct (escapeChar_shape c) as [[_ He]|(_ & d & r & He & _)]; rewrite He in H; discriminate H.
  - simpl in H.
    destruct (Spec.isSpecial c) eqn:Hc; destruct (Spec.isSpecial c') eqn:Hc'.
    + pose proof (escapeChar_same_entity c c' _ _ Hc Hc' H). subst c'.
      apply append_cancel_l in H. f_equal. now apply IH.
    + exfalso.
      destruct (escapeChar_shape c) as [[Hn _]|(_ & d & r & He & _)]; [congruence|].
      destruct (escapeChar_shape c') as [[_ He']|(Hn & _)]; [|congruence].
      rewrite He, He' in H. simpl in H. injection H as Hamp _.
      now apply (special_amp c' Hc').
    + exfalso.
      destruct (escapeChar_shape c') as [[Hn _]|(_ & d & r & He & _)]; [congruence|].
      destruct (escapeChar_shape c) as [[_ He']|(Hn & _)]; [|congruence].
      rewrite He, He' in H. simpl in H. injection H as Hamp _.
      now apply (special_amp c Hc).
    + destruct (escapeChar_shape c) as [[_ He]|(Hn & _)]; [|congruence].
      destruct (escapeChar_shape c') as [[_ He']|(Hn & _)]; [|congruence].
      rewrite He, He' in H. simpl in H. injection H as -> H. f_equal. now apply IH.
Qed.

(** X2: `escapeHtml` loses nothing. Two different
    texts have different escapes, so the text can be recovered from its
    escape (an entity typed in by an author is not confused with the
    character it stands for). *)
Theorem escapeHtml_injective (a b : string) :
  a <> b -> Html.escapeHtml (JStr a) <> Html.escapeHtml (JStr b).
Proof.
  intros Hne H. apply Hne. simpl in H. injection H as H. now apply escapeText_injective.
Qed.

Lemma escapeHtml_injective_witness :
  Html.escapeHtml (JStr "<") <> Html.escapeHtml (JStr "&lt;").
Proof. apply escapeHtml_injective. discriminate. Defined.

(** ** The identifiers of a request *)

(** The parts of an overlay path. *)
Lemma overlay_path_parts (course : string) (instance : option string) :
  pathSegment course = true ->
  (forall i, instance = Some i -> pathSegment i = true) ->
  Str.startsWith "/" (overlayPath course instance) = true /\
  Str.includes "/overview/trainingId/" (overlayPath course instance) = true /\
  List.filter (fun part => (0 <? String.length part)%nat)
              (Str.split "/" (overlayPath course instance)) =
  "overview" :: "trainingId" :: course ::
  match instance with
  | Some i => ["trainingInstanceId"; i]
  | None => []
  end.
Proof.
  intros Hc Hi. apply pathSegment_spec in Hc as [Hne Hl].
  split; [reflexivity|]. split; [apply includes_prefix|].
  unfold overlayPath. destruct instance as [i|].
  - destruct (pathSegment_spec i (Hi i eq_refl)) as [Hnei Hli].
    change ("/overview/trainingId/" +:+ course +:+ "/trainingInstanceId/" +:+ i)
      with ("" +:+ String "/" ("overview" +:+ String "/" ("trainingId" +:+ String "/"
              (course +:+ String "/" ("trainingInstanceId" +:+ String "/" i))))).
    rewrite !split_app by (assumption || reflexivity).
    rewrite split_lacks by assumption.
    cbn [List.filter].
    rewrite (nonempty_length course Hne), (nonempty_length i Hnei). reflexivity.
  - rewrite append_nil_r.
    change ("/overview/trainingId/" +:+ course)
      with ("" +:+ String "/" ("overview" +:+ String "/" ("trainingId" +:+ String "/" course))).
    rewrite !split_app by reflexivity.
    rewrite split_lacks by assumption.
    cbn [List.filter].
    rewrite (nonempty_length course Hne). reflexivity.
Qed.

Lemma extractIds_overlay_path (E : Engine) (params webhookData : JsVal) (course : string)
    (instance : option string) (w : World) (s : St) :
  Spec.hasEvents E webhookData = false ->
  pathSegment course = true ->
  (forall i, instance = Some i -> pathSegment i = true) ->
  Js.getProp params "__ow_path" = JStr (overlayPath course instance) ->
  exists s',
    Action.extractIds E params webhookData w s =
    (Ret (inr (JStr course, instanceValue instance)), s') /\
    loggedOnly s s'.
Proof.
  intros Hno Hc Hi Hpath.
  destruct (overlay_path_parts course instance Hc Hi) as (Hstart & Hinc & Hparts).
  unfold Action.extractIds. unfold Spec.hasEvents in Hno. rewrite Hno, Hpath.
  assert (Hne : Js.truthy (JStr (overlayPath course instance)) = true) by reflexivity.
  rewrite Hne.
  unfold bindM, liftE. cbn [Eff.log ExcOps.asString].
  rewrite Hstart. cbn [negb]. rewrite Hinc. cbn [negb]. rewrite Hparts.
  destruct instance as [i|]; eexists; (split; [reflexivity | repeat split]).
Qed.

(** X7: the URLs the publisher asks the
    preview service to refresh and the paths `main` accepts are inverse to
    each other. The URL `publishToEdsCache` builds for a course, or for an
    instance of it, ends in an overlay path, and from that path `main`
    extracts the same course ID and the same instance ID (null for the
    course URL), sending nothing. The IDs are path segments: non-empty and
    without a slash. *)
Theorem extractIds_published_path (E : Engine) (params webhookData : JsVal) (course : string)
    (instance : option string) (w : World) (s : St) :
  Spec.hasEvents E webhookData = false ->
  pathSegment course = true ->
  (forall i, instance = Some i -> pathSegment i = true) ->
  Js.getProp params "__ow_path" = JStr (overlayPath course instance) ->
  match instance with
  | Some i => Action.instanceUrl (JStr course) (JStr i)
  | None => Action.courseUrl (JStr course)
  end = "https://admin.hlx.page/preview/" +:+ Action.baseUrl +:+ overlayPath course instance /\
  fst (Action.extractIds E params webhookData w s) =
    Ret (inr (JStr course, instanceValue instance)) /\
  sent (snd (Action.extractIds E params webhookData w s)) = sent s.
Proof.
  intros Hno Hc Hi Hpath. split.
  - destruct instance as [i|]; [reflexivity|].
    unfold Action.courseUrl, overlayPath. cbn [Js.toStr]. now rewrite append_nil_r.
  - destruct (extractIds_overlay_path E params webhookData course instance w s Hno Hc Hi Hpath)
      as (s' & -> & _ & _ & Hsent).
    split; [reflexivity | exact Hsent].
Qed.

Lemma extractIds_published_path_witness :
  Action.instanceUrl (JStr "1") (JStr "1-2") =
    "https://admin.hlx.page/preview/" +:+ Action.baseUrl +:+ overlayPath "1" (Some "1-2") /\
  fst (Action.extractIds Samples.engine Samples.instancePathRequest JNull Samples.world Eff.init) =
    Ret (inr (JStr "1", JStr "1-2")) /\
  sent (snd (Action.extractIds Samples.engine Samples.instancePathRequest JNull
               Samples.world Eff.init)) = [].
Proof.
  apply (extractIds_published_path Samples.engine Samples.instancePathRequest JNull
           "1" (Some "1-2") Samples.world Eff.init); try reflexivity.
  intros i H. injection H as <-. reflexivity.
Defined.

(** ** From the request to the page *)





Section WebhookEvent.
Variable E : Engine.
Variable fields : list (string * JsVal).
Variables (event : JsVal) (others : list JsVal) (loId : string).

Hypothesis notTest : Spec.isTestConnection (JObj fields) = false.
Hypothesis events : Js.getProp (JObj fields) "events" = JArr (event :: others).
Hypothesis eventLoId : Js.getProp (Js.getProp event "data") "loId" = JStr loId.
Hypothesis loIdGiven : loId <> "".

Lemma event_data_truthy : Js.truthy (Js.getProp event "data") = true /\ Js.truthy event = true.
Proof.
  assert (H : Js.truthy (Js.getProp (Js.getProp event "data") "loId") = true).
  { rewrite eventLoId. now apply truthy_nonempty. }
  apply getProp_truthy in H. split; [exact H|]. now apply getProp_truthy in H.
Qed.

Lemma events_positive :
  Js.positive (Js.toNumber E (Js.getProp (JArr (event :: others)) "length")) = true.
Proof.
  cbn [Js.getProp String.eqb Ascii.eqb Bool.eqb Js.toNumber Js.positive].
  apply Z.ltb_lt. simpl List.length. lia.
Qed.

(** A payload with the events at the top (format 1) is the webhook data;
    up to the extraction of the identifiers the request is only logged. *)
Lemma mainBody_webhook (publish : JsVal -> JsVal -> JsVal -> M unit) (w : World) (s : St) :
  exists s2,
    loggedOnly s s2 /\
    Action.mainBodyWith publish E (JObj fields) w s =
    (let* ids := Action.extractIds E (JObj fields) (JObj fields) in
     Action.respond publish E (JObj fields) ids) w s2.
Proof.
  unfold Action.mainBodyWith. unfold Spec.isTestConnection in notTest. rewrite notTest.
  rewrite (bindM_run _ _ _ _ _ _ (log_run _ _ _ _)).
  rewrite (bindM_run _ _ _ _ _ _ (log_run _ _ _ _)).
  rewrite (bindM_run _ _ _ _ _ _ (log_run _ _ _ _)).
  unfold Action.detectWebhook. rewrite events, events_positive. cbn [Js.truthy Js.isArray andb].
  unfold Action.reconstructWebhook.
  assert (Ht : Js.truthy (JObj fields) = true) by reflexivity.
  eexists. split; [|unfold bindM at 1 2 3; cbn [Eff.log retM]; rewrite Ht; cbn [negb andb retM]; reflexivity].
  repeat split.
Qed.

(** The first event decides: its `data.loId` is split at the colons. *)
Lemma extractIds_event (w : World) (s : St) :
  exists s1,
    loggedOnly s s1 /\
    Action.extractIds E (JObj fields) (JObj fields) w s =
    (if (List.length (Str.split ":" loId) =? 2)%nat then
       let courseId := JStr (nth 1 (Str.split ":" loId) EmptyString) in
       Eff.log LInfo ("Extracted course ID from ALM webhook: " +:+ Js.toStr courseId) >>
       if Js.truthy (Js.getProp (Js.getProp event "data") "instanceId") then
         Eff.log LInfo ("Instance ID provided in ALM webhook: " +:+
                        Js.toStr (Js.getProp (Js.getProp event "data") "instanceId")) >>
         retM (inr (courseId, Js.getProp (Js.getProp event "data") "instanceId"))
       else
         Eff.log LInfo "No instance ID in ALM webhook - will fetch all instances for this course" >>
         retM (inr (courseId, JNull))
     else
       let* r := Action.errorResponse 400 ("Invalid loId format: " +:+ loId) in
       retM (inl r)) w s1.
Proof.
  destruct event_data_truthy as [Hdata Hevent].
  unfold Action.extractIds. rewrite events, events_positive.
  assert (Ht : Js.truthy (JObj fields) = true) by reflexivity. rewrite Ht. cbn [Js.truthy andb].
  rewrite (bindM_run _ _ _ _ _ _ (log_run _ _ _ _)).
  rewrite (bindM_run _ _ _ _ _ _ (log_run _ _ _ _)).
  rewrite (bindM_run _ _ _ _ _ _ (log_run _ _ _ _)).
  change (Js.getProp (JArr (event :: others)) "0") with event.
  rewrite (prop_truthy event "data" Hevent).
  rewrite (bindM_run _ _ _ _ _ _ eq_refl).
  rewrite Hdata, eventLoId, (truthy_nonempty loId loIdGiven). cbn [andb ExcOps.asString].
  rewrite (bindM_run _ _ _ _ _ _ eq_refl).
  eexists. split; [|reflexivity]. repeat split.
Qed.


End WebhookEvent.










(** X5: a webhook event whose `data.loId` does
    not have exactly one colon is refused. For a payload with its events at
    the top, `main` answers 400 'Invalid loId format: ' followed by the
    `loId`, and sends no request: nothing is fetched and nothing is
    published. *)
Theorem main_rejects_malformed_loId (E : Engine) (fields : list (string * JsVal))
    (event : JsVal) (others : list JsVal) (loId : string) (w : World) (s : St) :
  let params := JObj fields in
  Spec.isTestConnection params = false ->
  Js.getProp params "events" = JArr (event :: others) ->
  Js.getProp (Js.getProp event "data") "loId" = JStr loId ->
  loId <> "" ->
  occurrences ":" loId <> 1%nat ->
  exists s',
    Action.main E params w s = (Ret (ErrorResult 400 ("Invalid loId format: " +:+ loId)), s') /\
    sent s' = sent s.
Proof.
  intros params Htest Hevents HloId Hne Hcolons.
  destruct (mainBody_webhook E fields event others Htest Hevents (Action.publishToEdsCache E) w s)
    as (s2 & (_ & _ & Hsent2) & Hbody).
  destruct (extractIds_event E fields event others loId Hevents HloId Hne w s2)
    as (s3 & (_ & _ & Hsent3) & Hids).
  assert (Hlen : (List.length (Str.split ":" loId) =? 2)%nat = false).
  { rewrite split_length. apply Nat.eqb_neq. lia. }
  rewrite Hlen in Hids.
  eexists. split.
  - unfold Action.main. apply main_of_body. rewrite Hbody. unfold bindM at 1. rewrite Hids.
    reflexivity.
  - cbn [sent]. congruence.
Qed.

Lemma main_rejects_malformed_loId_witness :
  exists s',
    Action.main Samples.engine Samples.untypedWebhookRequest Samples.world Eff.init =
    (Ret (ErrorResult 400 "Invalid loId format: 123836"), s') /\
    sent s' = [].
Proof.
  apply (main_rejects_malformed_loId Samples.engine
           [("events", JArr [JObj [("data", JObj [("loId", JStr "123836")])]])]
           (JObj [("data", JObj [("loId", JStr "123836")])]) [] "123836"
           Samples.world Eff.init); try reflexivity; discriminate.
Defined.

(** X6: the connection test of the webhook
    is answered before anything else is looked at. When `message` is 'Test
    Connection', whatever else the request carries (events, a path, a
    token), `main` returns statusCode 200 with the JSON of status 'success',
    the message 'Webhook endpoint is working correctly' and the time of the
    clock, and sends no request: nothing is fetched and nothing is
    published. *)
Theorem main_answers_test_connection (E : Engine) (fields : list (string * JsVal))
    (w : World) (s : St) :
  let params := JObj fields in
  Spec.isTestConnection params = true ->
  exists s',
    Action.main E params w s =
    (Ret (Response 200
            (jsonStringify E
               (JObj [("status", JStr "success");
                      ("message", JStr "Webhook endpoint is working correctly");
                      ("timestamp", JStr (clock w (ticks s)))]))
            [("Content-Type", "application/json")]), s') /\
    sent s' = sent s /\ draws s' = draws s.
Proof.
  intros params Htest. subst params. unfold Spec.isTestConnection in Htest.
  eexists. split.
  - unfold Action.main. apply main_of_body. unfold Action.mainBodyWith. rewrite Htest.
    reflexivity.
  - split; reflexivity.
Qed.

Lemma main_answers_test_connection_witness :
  exists s',
    Action.main Samples.engine
      (JObj [("message", JStr "Test Connection"); ("__ow_path", JStr "/overview/trainingId/1")])
      Samples.world Eff.init =
    (Ret (Response 200 "{}" [("Content-Type", "application/json")]), s') /\
    sent s' = [] /\ draws s' = 0%nat.
Proof.
  apply (main_answers_test_connection Samples.engine
           [("message", JStr "Test Connection"); ("__ow_path", JStr "/overview/trainingId/1")]
           Samples.world Eff.init).
  reflexivity.
Defined.

(** ** The course document *)

(** X8: `fetchCourseData` never throws and asks
    the learning program endpoint only after the course endpoint has
    answered with a status that is not ok. It sends the course request
    first; an ok answer is returned as its JSON body and nothing else is
    sent; after an answer that is not ok it sends exactly one more request,
    to the learning program endpoint, and returns that body when the answer
    is ok. In every other case (a network error, a body that is not JSON,
    two answers that are not ok) the result is null. *)
Theorem fetchCourseData_falls_back (courseId : JsVal) (w : World) (s : St) :
  let course := Action.get (learningObjectUrl "course" courseId) in
  let program := Action.get (learningObjectUrl "learningProgram" courseId) in
  exists v s',
    Action.fetchCourseData courseId w s = (Ret v, s') /\
    match network w (List.length (sent s)) course with
    | Responded r1 =>
        if res_ok r1 then sent s' = sent s ++ [course] /\ v = bodyOrNull r1
        else
          sent s' = sent s ++ [course; program] /\
          match network w (S (List.length (sent s))) program with
          | Responded r2 => v = if res_ok r2 then bodyOrNull r2 else JNull
          | NetworkError _ => v = JNull
          end
    | NetworkError _ => sent s' = sent s ++ [course] /\ v = JNull
    end.
Proof.
  intros course program. subst course program.
  unfold Action.fetchCourseData, tryCatch, learningObjectUrl.
  rewrite (bindM_run _ _ _ _ _ _ (log_run _ _ _ _)).
  unfold bindM at 1. unfold Eff.fetch at 1. cbn [sent logged draws ticks append].
  destruct (network w (List.length (sent s)) _) as [msg|r1].
  - do 2 eexists. split; [reflexivity|]. split; reflexivity.
  - rewrite (bindM_run _ _ _ _ _ _ (log_run _ _ _ _)).
    destruct (res_ok r1).
    + unfold bindM, Eff.json, bodyOrNull. destruct (res_json r1) as [d|].
      * do 2 eexists. split; [reflexivity|]. split; reflexivity.
      * do 2 eexists. split; [reflexivity|]. split; reflexivity.
    + rewrite (bindM_run _ _ _ _ _ _ (log_run _ _ _ _)).
      rewrite (bindM_run _ _ _ _ _ _ (log_run _ _ _ _)).
      unfold bindM at 1. unfold Eff.fetch at 1. cbn [sent logged draws ticks append].
      rewrite length_app. simpl List.length. rewrite Nat.add_1_r.
      destruct (network w (S (List.length (sent s))) _) as [msg|r2].
      * do 2 eexists. split; [reflexivity|]. cbn [sent]. rewrite <- app_assoc. split; reflexivity.
      * rewrite (bindM_run _ _ _ _ _ _ (log_run _ _ _ _)).
        destruct (res_ok r2).
        -- unfold bindM, Eff.json, bodyOrNull. destruct (res_json r2) as [d|];
             do 2 eexists; (split; [reflexivity|]); cbn [sent]; rewrite <- app_assoc; split; reflexivity.
        -- do 2 eexists. split; [reflexivity|]. cbn [sent]. rewrite <- app_assoc. split; reflexivity.
Qed.

(** ** The instances of a course *)

Lemma replaceFirst_lacks (a b : ascii) (s : string) :
  lacks a s = true -> Str.replaceFirst a b s = s.
Proof.
  induction s as [|x s IH]; simpl; [reflexivity|].
  intros H. apply andb_prop in H as [Hx Hs]. apply negb_true_iff in Hx.
  now rewrite Hx, (IH Hs).
Qed.

Lemma edsInstanceIdOf_converts (prefix course rest : string) :
  lacks ":" prefix = true ->
  lacks ":" course = true -> lacks "_" course = true ->
  lacks ":" rest = true ->
  Action.edsInstanceIdOf (JStr (prefix +:+ ":" +:+ course +:+ "_" +:+ rest)) =
  Ret (JStr (course +:+ "-" +:+ rest)).
Proof.
  intros Hp Hc Hu Hr. unfold Action.edsInstanceIdOf. cbn [Action.includesMethod bindE].
  rewrite !includes_char.
  assert (H1 : lacks ":" (prefix +:+ ":" +:+ course +:+ "_" +:+ rest) = false).
  { rewrite lacks_app. simpl. now rewrite andb_false_r. }
  assert (H2 : lacks "_" (prefix +:+ ":" +:+ course +:+ "_" +:+ rest) = false).
  { rewrite lacks_app. cbn [append lacks]. rewrite lacks_app. cbn [append lacks].
    rewrite Ascii.eqb_refl. cbn. now rewrite !andb_false_r. }
  rewrite H1. cbn [negb]. rewrite H2. cbn [negb ExcOps.asString bindE].
  change (prefix +:+ ":" +:+ course +:+ "_" +:+ rest)
    with (prefix +:+ String ":" (course +:+ "_" +:+ rest)).
  rewrite split_app by assumption.
  rewrite split_lacks.
  - cbn [nth_error]. change (course +:+ "_" +:+ rest) with (course +:+ String "_" rest).
    now rewrite replaceFirst_app.
  - rewrite lacks_app. cbn. now rewrite Hc, Hr.
Qed.

Lemma edsInstanceIdOf_keeps (almInstanceId : string) :
  (lacks ":" almInstanceId || lacks "_" almInstanceId)%bool = true ->
  Action.edsInstanceIdOf (JStr almInstanceId) = Ret (JStr almInstanceId).
Proof.
  intros H. unfold Action.edsInstanceIdOf. cbn [Action.includesMethod bindE].
  rewrite !includes_char.
  destruct (lacks ":" almInstanceId); cbn [negb bindE]; [reflexivity|].
  simpl in H. now rewrite H.
Qed.

(** X9: the conversion of an ALM instance ID to
    the form of the cache URLs. An ID `prefix:course_rest`, with one colon
    and no underscore before `rest`, becomes `course-rest`: the prefix is
    dropped and the first underscore becomes a hyphen. An ID without a
    colon or without an underscore is kept as it is. *)
Theorem edsInstanceIdOf_format (prefix course rest almInstanceId : string) :
  (lacks ":" prefix = true ->
   lacks ":" course = true -> lacks "_" course = true ->
   lacks ":" rest = true ->
   Action.edsInstanceIdOf (JStr (prefix +:+ ":" +:+ course +:+ "_" +:+ rest)) =
   Ret (JStr (course +:+ "-" +:+ rest))) /\
  ((lacks ":" almInstanceId || lacks "_" almInstanceId)%bool = true ->
   Action.edsInstanceIdOf (JStr almInstanceId) = Ret (JStr almInstanceId)).
Proof.
  split.
  - apply edsInstanceIdOf_converts.
  - apply edsInstanceIdOf_keeps.
Qed.

Lemma edsInstanceIdOf_format_witness :
  Action.edsInstanceIdOf (JStr "course:12495374_13216648") = Ret (JStr "12495374-13216648") /\
  Action.edsInstanceIdOf (JStr "12495374-13216648") = Ret (JStr "12495374-13216648").
Proof.
  split.
  - apply (proj1 (edsInstanceIdOf_format "course" "12495374" "13216648" "12495374-13216648"));
      reflexivity.
  - apply (proj2 (edsInstanceIdOf_format "course" "12495374" "13216648" "12495374-13216648"));
      reflexivity.
Defined.

(** The instance built for a reference carries the ID of the reference. *)
Lemma courseInstanceOf_almId (included : JsVal) (acc acc' : list CourseInstance) (ref : JsVal) :
  Action.courseInstanceOf included acc ref = Ret acc' ->
  exists instance, acc' = acc ++ [instance] /\ inst_almId instance = Js.getProp ref "id".
Proof.
  unfold Action.courseInstanceOf. intros H.
  apply bindE_Ret in H as (instanceData & Hfind & H).
  destruct (Js.truthy instanceData) eqn:Ht.
  - apply bindE_Ret in H as (eds & _ & H). injection H as <-.
    eexists. split; [reflexivity|]. simpl.
    destruct included; try (injection Hfind as <-; discriminate Ht).
    + simpl in Hfind. discriminate.
    + simpl in Hfind. discriminate.
    + simpl in Hfind. discriminate.
    + simpl in Hfind. apply find_holds in Hfind as [->|Hp]; [discriminate Ht|].
      exc_inv. destruct (Js.strictEq (Js.getProp instanceData "id") (Js.getProp ref "id")) eqn:Heq;
        [|discriminate].
      now apply strictEq_eq.
    + simpl in Hfind. discriminate.
  - apply bindE_Ret in H as (alm & Halm & H). apply prop_Ret in Halm. subst alm.
    apply bindE_Ret in H as (eds & _ & H). injection H as <-.
    eexists. split; reflexivity.
Qed.

Lemma forEach_courseInstanceOf (included : JsVal) (refs : list JsVal) :
  forall acc res,
    ExcOps.forEach (Action.courseInstanceOf included) refs acc = Ret res ->
    List.map inst_almId res =
    List.map inst_almId acc ++ List.map (fun ref => Js.getProp ref "id") refs.
Proof.
  induction refs as [|ref refs IH]; simpl; intros acc res H.
  - injection H as <-. now rewrite app_nil_r.
  - apply bindE_Ret in H as (acc' & Hstep & H).
    apply courseInstanceOf_almId in Hstep as (instance & -> & Hid).
    rewrite (IH _ _ H), map_app, <- app_assoc. simpl. now rewrite Hid.
Qed.

(** X10: when the `instances` relationship of
    the document `fetchCourseInstances` has fetched is an array of
    references and building the list does not throw, the list holds exactly
    one instance per reference, in the order of the references, and the ALM
    ID of each is the ID of its reference, whether an included record is
    found for it or not. *)
Theorem instancesOf_one_per_reference (doc : JsVal) (refs : list JsVal)
    (instances : list CourseInstance) :
  Spec.lookup doc ["data"; "relationships"; "instances"; "data"] = JArr refs ->
  Action.instancesOf doc = Ret instances ->
  List.map inst_almId instances = List.map (fun ref => Js.getProp ref "id") refs.
Proof.
  unfold Spec.lookup, Action.instancesOf. simpl. rewrite !optProp_getProp.
  intros Hrefs H. exc_inv.
  rewrite !and_truthy_getProp, Hrefs in H. cbn [Js.truthy ExcOps.asArray bindE] in H.
  apply forEach_courseInstanceOf in H. exact H.
Qed.

Lemma instancesOf_one_per_reference_witness :
  exists instances,
    Action.instancesOf Samples.courseWithModule = Ret instances /\
    List.map inst_almId instances = [JStr "course:1_2"].
Proof.
  eexists. split; [reflexivity|].
  apply (instancesOf_one_per_reference Samples.courseWithModule [JObj [("id", JStr "course:1_2")]]);
    reflexivity.
Defined.

(** ** The modules and the prerequisites *)

Lemma coreModuleOf_step (E : Engine) (includedData courseData resource : JsVal)
    (acc acc' : list CoreModule) (w : World) (t t' : St) :
  CourseViewer.coreModuleOf E includedData courseData acc resource w t = (Ret acc', t') ->
  (acc' = acc /\ t' = t) \/
  (exists m, acc' = acc ++ [m] /\ moduleConsistent m /\ drewOnly 1 t t').
Proof.
  unfold CourseViewer.coreModuleOf. intros H.
  apply bindM_Ret in H as (resourceData & t1 & Hfind & H).
  apply liftE_Ret in Hfind as [_ ->].
  destruct (_ && _)%bool.
  - right.
    apply bindM_Ret in H as (r & t2 & Hr & H).
    unfold Eff.mathRandom in Hr. injection Hr as <- <-.
    apply bindM_Ret in H as (lowered & t3 & Hl & H).
    apply liftE_Ret in Hl as [Hl ->].
    apply bindE_Ret in Hl as (type & Htype & _).
    apply bindM_Ret in H as (rid & t4 & Hrid & H). apply liftE_Ret in Hrid as [_ ->].
    apply bindM_Ret in H as (cid & t5 & Hcid & H). apply liftE_Ret in Hcid as [_ ->].
    apply retM_Ret in H as [-> ->].
    eexists. split; [reflexivity|]. split.
    + unfold moduleConsistent. cbn [mod_isCompleted mod_status mod_statusText mod_type mod_contentType].
      split; [destruct (CourseViewer.moreThanHalf _); split; reflexivity|].
      split; [|apply or_truthy; reflexivity].
      set (moduleType := Js.or _ (JStr "Self-paced")) in *.
      assert (Ht : Js.truthy moduleType = true) by (apply or_truthy; reflexivity).
      destruct moduleType; try discriminate Htype.
      exists s. split; [reflexivity|]. intros ->. discriminate Ht.
    + repeat split; simpl; lia.
  - left. apply retM_Ret in H as [-> ->]. auto.
Qed.

Lemma forEach_coreModuleOf (E : Engine) (includedData courseData : JsVal) (resources : list JsVal) :
  forall (acc res : list CoreModule) (w : World) (t t' : St),
    Eff.forEach (CourseViewer.coreModuleOf E includedData courseData) resources acc w t = (Ret res, t') ->
    exists added,
      res = acc ++ added /\ Forall moduleConsistent added /\ drewOnly (List.length added) t t' /\
      (List.length added <= List.length resources)%nat.
Proof.
  induction resources as [|resource resources IH]; simpl; intros acc res w t t' H.
  - apply retM_Ret in H as [-> ->]. exists []. rewrite app_nil_r.
    repeat split; simpl; auto; lia.
  - apply bindM_Ret in H as (acc' & t1 & Hstep & H).
    apply IH in H as (added & -> & Hall & (Hd & Ht & Hs & Hl) & Hlen).
    apply coreModuleOf_step in Hstep as [[-> ->]|(m & -> & Hm & (Hd1 & Ht1 & Hs1 & Hl1))].
    + exists added. repeat split; auto.
    + exists (m :: added). rewrite <- app_assoc. repeat split; simpl; auto; try congruence; lia.
Qed.

(** X11: what `extractCoreModules` keeps.
    In every module it returns the completion fields agree (`isCompleted`
    goes with status 'completed' and 'Last visited', otherwise with
    'in-progress' and 'In Progress'), the type is a non-empty string and the
    content type is not empty; and the function calls `Math.random()`
    exactly once per module it returns, reads no clock and sends and logs
    nothing. *)
Theorem extractCoreModules_invariants (E : Engine) (doc : JsVal) (w : World) (s s' : St)
    (modules : list CoreModule) :
  CourseViewer.extractCoreModules E doc w s = (Ret modules, s') ->
  Forall moduleConsistent modules /\ drewOnly (List.length modules) s s'.
Proof.
  unfold CourseViewer.extractCoreModules. intros H.
  assert (Hnone : Forall moduleConsistent [] /\ drewOnly (List.length (@nil CoreModule)) s s).
  { repeat split; simpl; auto. }
  apply bindM_Ret in H as (courseData & t1 & H1 & H). apply liftE_Ret in H1 as [_ ->].
  apply bindM_Ret in H as (included & t2 & H2 & H). apply liftE_Ret in H2 as [_ ->].
  apply bindM_Ret in H as (rel & t3 & H3 & H). apply liftE_Ret in H3 as [_ ->].
  destruct (_ && _ && _)%bool; [|apply retM_Ret in H as [-> ->]; exact Hnone].
  apply bindM_Ret in H as (instanceData & t4 & H4 & H). apply liftE_Ret in H4 as [_ ->].
  destruct (_ && _ && _)%bool; [|apply retM_Ret in H as [-> ->]; exact Hnone].
  apply bindM_Ret in H as (resources & t5 & H5 & H). apply liftE_Ret in H5 as [_ ->].
  apply forEach_coreModuleOf in H as (added & -> & Hall & Hdrew & _).
  simpl. auto.
Qed.

Lemma extractCoreModules_invariants_witness :
  exists modules s',
    CourseViewer.extractCoreModules Samples.engine Samples.courseWithModule Samples.world Eff.init =
    (Ret modules, s') /\
    Forall moduleConsistent modules /\ drewOnly (List.length modules) Eff.init s'.
Proof.
  do 2 eexists. split; [vm_compute; reflexivity|].
  apply (extractCoreModules_invariants Samples.engine Samples.courseWithModule Samples.world Eff.init).
  vm_compute. reflexivity.
Defined.

Lemma prerequisiteOf_pure (doc : JsVal) (acc acc' : list Prerequisite) (ref : JsVal) :
  CourseViewer.prerequisiteOf (Js.or (Js.getProp doc "included") (JArr [])) acc ref = Ret acc' ->
  acc' = acc ++
         (if hasAttributes (Spec.includedRecord (Spec.includedOf doc) ref)
          then [prerequisiteEntry ref (Spec.includedRecord (Spec.includedOf doc) ref)]
          else []).
Proof.
  unfold CourseViewer.prerequisiteOf, hasAttributes. intros H.
  apply bindE_Ret in H as (r & Hr & H).
  apply findById_record in Hr. subst r.
  set (record := Spec.includedRecord (Spec.includedOf doc) ref) in *.
  rewrite and_truthy_getProp in H.
  destruct (Js.truthy (Js.getProp record "attributes")).
  - exc_inv. f_equal. f_equal.
    unfold prerequisiteEntry, CourseViewer.firstLocalizedMetadata.
    rewrite and_truthy_getProp.
    destruct (Js.truthy (Js.getProp (Js.getProp (Js.getProp record "attributes") "localizedMetadata") "0"));
      reflexivity.
  - injection H as <-. now rewrite app_nil_r.
Qed.

(** X12: when `extractPrerequisites` returns,
    its result is one entry per prerequisite reference that resolves to an
    included record with attributes, in the order of the references;
    references that resolve to nothing are dropped without an error, so
    there are at most as many entries as references. The name of an entry
    is the name of the first localized metadata, else `attributes.name`,
    else 'Prerequisite Course'; its type is `attributes.loFormat` or
    'Self-paced' and is never empty. *)
Theorem extractPrerequisites_exact (doc : JsVal) (prerequisites : list Prerequisite) :
  CourseViewer.extractPrerequisites doc = Ret prerequisites ->
  prerequisites = prerequisitesOf doc /\
  (List.length prerequisites <= List.length (prerequisiteRefs doc))%nat /\
  Forall (fun p => Js.truthy (pre_type p) = true) prerequisites.
Proof.
  intros H.
  assert (Heq : prerequisites = prerequisitesOf doc).
  { unfold CourseViewer.extractPrerequisites, prerequisitesOf, prerequisiteRefs, Spec.lookup in *.
    simpl. rewrite !optProp_getProp. exc_inv.
    set (rel := Js.getProp (Js.getProp doc "data") "relationships") in *.
    rewrite !and_truthy_getProp in H.
    destruct (Js.getProp (Js.getProp rel "prerequisiteLOs") "data") as [| |b|n|s|refs|fields] eqn:Hd;
      simpl in H;
      try solve [ repeat match type of H with
                    | context [if ?c then _ else _] => destruct c
                    end; simpl in H; first [discriminate | injection H as <-; reflexivity] ].
    apply (forEach_pure _
             (fun ref => if hasAttributes (Spec.includedRecord (Spec.includedOf doc) ref)
                         then [prerequisiteEntry ref (Spec.includedRecord (Spec.includedOf doc) ref)]
                         else [])) in H.
    - simpl in H. subst prerequisites. apply flat_map_filter_map.
    - intros a x a' _. apply prerequisiteOf_pure. }
  split; [exact Heq|]. subst prerequisites. unfold prerequisitesOf. split.
  - rewrite length_map. apply List.filter_length_le.
  - apply Forall_map. apply Forall_forall. intros ref _. simpl. now apply or_truthy.
Qed.

Lemma extractPrerequisites_exact_witness :
  exists prerequisites,
    CourseViewer.extractPrerequisites Samples.courseWithPrerequisite = Ret prerequisites /\
    prerequisites = prerequisitesOf Samples.courseWithPrerequisite /\
    (List.length prerequisites <= List.length (prerequisiteRefs Samples.courseWithPrerequisite))%nat /\
    Forall (fun p => Js.truthy (pre_type p) = true) prerequisites.
Proof.
  eexists. split; [reflexivity|].
  apply (extractPrerequisites_exact Samples.courseWithPrerequisite). reflexivity.
Defined.

(** ** The extractors of helpers.js *)

Lemma skills_loop (items : list JsVal) :
  forall (acc l : list JsVal),
    ExcOps.forEach (fun skills item =>
                      let? ty := Js.prop item "type" in
                      if Js.strictEq ty (JStr "skill") then
                        let? attrs := Js.prop item "attributes" in
                        let? name := Js.prop attrs "name" in
                        Ret (skills ++ [name])
                      else Ret skills) items acc = Ret l <->
    exists names,
      (let? selected :=
         ExcOps.filter (fun item =>
                          let? ty := Js.prop item "type" in
                          Ret (Js.strictEq ty (JStr "skill"))) items in
       ExcOps.map (fun skill =>
                     let? attributes := Js.prop skill "attributes" in
                     Js.prop attributes "name") selected) = Ret names /\
      l = acc ++ names.
Proof.
  induction items as [|item items IH]; intros acc l; simpl.
  - split.
    + intros H. injection H as <-. exists []. now rewrite app_nil_r.
    + intros (names & H & ->). injection H as <-. now rewrite app_nil_r.
  - destruct (Js.prop item "type") as [ty|msg]; simpl.
    2:{ split; [discriminate | intros (names & H & _); discriminate]. }
    destruct (Js.strictEq ty (JStr "skill")).
    + destruct (Js.prop item "attributes") as [attrs|msg] eqn:Ha; simpl.
      2:{ split; [discriminate|]. intros (names & H & _).
          destruct (ExcOps.filter _ items); simpl in H; [|discriminate].
          rewrite Ha in H. discriminate. }
      destruct (Js.prop attrs "name") as [name|msg] eqn:Hn; simpl.
      2:{ split; [discriminate|]. intros (names & H & _).
          destruct (ExcOps.filter _ items); simpl in H; [|discriminate].
          rewrite Ha in H. simpl in H. rewrite Hn in H. discriminate. }
      rewrite IH. split.
      * intros (names & H & ->).
        destruct (ExcOps.filter _ items) as [selected|]; simpl in *; [|discriminate].
        rewrite Ha. simpl. rewrite Hn. simpl. rewrite H. simpl.
        exists (name :: names). split; [reflexivity|].
        now rewrite <- app_assoc.
      * intros (names & H & ->).
        destruct (ExcOps.filter _ items) as [selected|]; simpl in *; [|discriminate].
        rewrite Ha in H. simpl in H. rewrite Hn in H. simpl in H.
        destruct (ExcOps.map _ selected) as [rest|]; simpl in *; [|discriminate].
        injection H as <-. exists rest. split; [reflexivity|].
        now rewrite <- app_assoc.
    + cbn [bindE]. rewrite IH. split.
      * intros (names & H & ->).
        destruct (ExcOps.filter _ items) as [selected|]; simpl in *; [|discriminate].
        eauto.
      * intros (names & H & ->).
        destruct (ExcOps.filter _ items) as [selected|]; simpl in *; [|discriminate].
        eauto.
Qed.

(** X13: the two `extractSkills` of the
    repository, the chain of `filter` and `map` of the helpers module and
    the loop of the action, return the same lists: on every document one
    returns a list exactly when the other does, and then it is the same
    list, in the same order. *)
Theorem extractSkills_versions_agree (doc : JsVal) (skills : list JsVal) :
  HelpersApi.extractSkills doc = Ret skills <-> CourseViewer.extractSkills doc = Ret skills.
Proof.
  unfold HelpersApi.extractSkills, CourseViewer.extractSkills.
  destruct (Js.prop doc "included") as [included|msg]; simpl; [|tauto].
  destruct (Js.truthy included); simpl; [|tauto].
  destruct (ExcOps.asArray included) as [items|msg]; simpl; [|tauto].
  rewrite skills_loop. split.
  - intros H. exists skills. auto.
  - intros (names & H & ->). exact H.
Qed.

Lemma included_items (doc : JsVal) (included : JsVal) (items : list JsVal) :
  Js.prop doc "included" = Ret included ->
  ExcOps.asArray included = Ret items -> items = Spec.includedOf doc.
Proof.
  intros Hp Ha. apply prop_Ret in Hp. subst included.
  now apply asArray_truthy_included.
Qed.

Lemma included_falsy (doc : JsVal) :
  Js.truthy (Js.getProp doc "included") = false -> Spec.includedOf doc = [].
Proof. unfold Spec.includedOf. destruct (Js.getProp doc "included"); simpl; congruence. Qed.

Lemma included_total (doc : JsVal) :
  includedWellFormed doc = true ->
  Js.prop doc "included" = Ret (Js.getProp doc "included") /\
  Forall (fun item => Spec.isObject item = true) (Spec.includedOf doc) /\
  (Js.truthy (Js.getProp doc "included") = true ->
   ExcOps.asArray (Js.getProp doc "included") = Ret (Spec.includedOf doc)).
Proof.
  unfold includedWellFormed, Spec.includedOf. intros H. apply andb_prop in H as [Hdoc Hinc].
  split; [now apply prop_object|].
  destruct (Js.getProp doc "included"); simpl in *; try discriminate.
  - split; [constructor | discriminate].
  - split; [|reflexivity]. apply List.Forall_forall. intros x Hx.
    rewrite forallb_forall in Hinc. auto.
Qed.

(** X14: when `extractAuthors` returns, its result
    is one entry per included record of type 'user' that has attributes, in
    document order, with 'Unknown Author' for a missing or empty name and
    the empty string for a missing email, so the name of an author is never
    empty; users without attributes are left out. On a document whose
    `included`, when present, is an array of objects the function does
    return. *)
Theorem extractAuthors_exact (doc : JsVal) :
  (forall authors,
      HelpersApi.extractAuthors doc = Ret authors ->
      authors = List.map authorEntry (List.filter isAuthorRecord (Spec.includedOf doc)) /\
      Forall (fun a => Js.truthy (author_name a) = true) authors) /\
  (includedWellFormed doc = true -> exists authors, HelpersApi.extractAuthors doc = Ret authors).
Proof.
  split.
  - intros authors H.
    assert (Heq : authors = List.map authorEntry (List.filter isAuthorRecord (Spec.includedOf doc))).
    { unfold HelpersApi.extractAuthors in H.
      apply bindE_Ret in H as (included & Hi & H).
      destruct (Js.truthy included) eqn:Ht; cbn [negb] in H.
      - apply bindE_Ret in H as (items & Hitems & H).
        apply (included_items doc) in Hitems; [|assumption]. subst items.
        apply bindE_Ret in H as (selected & Hsel & H).
        apply (filter_pure _ isAuthorRecord) in Hsel.
        + subst selected. apply (map_pure _ authorEntry) in H; [exact H|].
          intros x y _ Hy. exc_inv. reflexivity.
        + intros x b _ Hb. unfold isAuthorRecord. exc_inv.
          destruct (Js.strictEq (Js.getProp x "type") (JStr "user")); exc_inv; reflexivity.
      - injection H as <-. apply prop_Ret in Hi. subst included.
        now rewrite included_falsy. }
    split; [exact Heq|]. subst authors.
    apply Forall_map. apply Forall_forall. intros x _. simpl. now apply or_truthy.
  - intros Hwf. destruct (included_total doc Hwf) as (Hp & Hobj & Harr).
    unfold HelpersApi.extractAuthors. rewrite Hp. cbn [bindE].
    destruct (Js.truthy (Js.getProp doc "included")) eqn:Ht; cbn [negb]; [|eauto].
    rewrite (Harr eq_refl). cbn [bindE].
    rewrite List.Forall_forall in Hobj.
    destruct (filter_total
                (fun item =>
                   let? ty := Js.prop item "type" in
                   if Js.strictEq ty (JStr "user") then
                     let? attributes := Js.prop item "attributes" in
                     Ret (Js.truthy attributes)
                   else Ret false) (Spec.includedOf doc)) as (selected & Hsel).
    { intros x Hx. rewrite (prop_object x) by auto. cbn [bindE].
      destruct (Js.strictEq _ _); [|eauto].
      rewrite (prop_object x) by auto. cbn [bindE]. eauto. }
    rewrite Hsel. cbn [bindE].
    apply map_total. intros x Hx.
    assert (Hin : In x (Spec.includedOf doc) /\ isAuthorRecord x = true).
    { apply (filter_pure _ isAuthorRecord) in Hsel.
      - subst selected. now apply List.filter_In in Hx.
      - intros y b _ Hb. unfold isAuthorRecord. exc_inv.
        destruct (Js.strictEq (Js.getProp y "type") (JStr "user")); exc_inv; reflexivity. }
    destruct Hin as [Hin Hrec]. unfold isAuthorRecord in Hrec. apply andb_prop in Hrec as [_ Hattr].
    rewrite (prop_object x) by auto. cbn [bindE].
    destruct (Js.getProp x "attributes"); simpl in *; try discriminate; eauto.
Qed.

(** X15: when `extractInstances` returns, its
    result is one summary per included record of type
    'learningObjectInstance', in document order; each has the ID of its
    record, and a detail the record does not have is replaced by its
    default: 'Unnamed Instance' for the name, 'Unknown' for the state and
    'No deadline' for either deadline. *)
Theorem extractInstances_defaults (doc : JsVal) (instances : list InstanceSummary) :
  HelpersApi.extractInstances doc = Ret instances ->
  Forall2 summarizes (List.filter isInstanceRecord (Spec.includedOf doc)) instances.
Proof.
  unfold HelpersApi.extractInstances. intros H.
  apply bindE_Ret in H as (included & Hi & H).
  destruct (Js.truthy included) eqn:Ht; cbn [negb] in H.
  - apply bindE_Ret in H as (items & Hitems & H).
    apply (included_items doc) in Hitems; [|assumption]. subst items.
    apply bindE_Ret in H as (selected & Hsel & H).
    apply (filter_pure _ isInstanceRecord) in Hsel.
    2:{ intros x b _ Hb. unfold isInstanceRecord. exc_inv. reflexivity. }
    subst selected.
    induction (List.filter isInstanceRecord (Spec.includedOf doc)) as [|record records IH]
      in instances, H |- *; simpl in H.
    + injection H as <-. constructor.
    + apply bindE_Ret in H as (entry & Hentry & H).
      apply bindE_Ret in H as (rest & Hrest & H). injection H as <-.
      constructor; [|now apply IH].
      exc_inv. unfold summarizes. cbv zeta. cbn [sum_id sum_name sum_state sum_enrollmentDeadline sum_completionDeadline].
      split; [reflexivity|]. repeat split; intros Hm.
      * now apply (safeGet_default record _ ["attributes"; "localizedMetadata"; "0"] "name").
      * now apply (safeGet_default record _ ["attributes"] "state").
      * now apply (safeGet_default record _ ["attributes"] "enrollmentDeadline").
      * now apply (safeGet_default record _ ["attributes"] "completionDeadline").
  - injection H as <-. apply prop_Ret in Hi. subst included.
    rewrite included_falsy by assumption. constructor.
Qed.

Lemma extractInstances_defaults_witness :
  exists instances,
    HelpersApi.extractInstances Samples.documentWithPeople = Ret instances /\
    Forall2 summarizes
            (List.filter isInstanceRecord (Spec.includedOf Samples.documentWithPeople)) instances.
Proof.
  eexists. split; [vm_compute; reflexivity|].
  apply (extractInstances_defaults Samples.documentWithPeople). vm_compute. reflexivity.
Defined.

(** ** The API client *)

(** X16: `getData` checks its arguments before it
    touches the network and sends one request at most. Without a token that
    is a non-empty string it throws 'Valid ALM access token is required',
    and with such a token but without a URL that is a non-empty string it
    throws 'Valid API URL is required', in both cases leaving the state as
    it was: nothing is sent or logged. Otherwise it sends exactly one GET
    request, to the URL and with the bearer token, and when it returns
    data, these are the JSON body of an ok response to that request. *)
Theorem getData_validates (apiUrl token : JsVal) (w : World) (s : St) :
  let request := HelpersApi.dataRequest (Js.toStr apiUrl) (Js.toStr token) in
  let out := HelpersApi.getData apiUrl token w s in
  (nonEmptyString token = false ->
   out = (Throw "Error: Valid ALM access token is required", s)) /\
  (nonEmptyString token = true -> nonEmptyString apiUrl = false ->
   out = (Throw "Error: Valid API URL is required", s)) /\
  (nonEmptyString token = true -> nonEmptyString apiUrl = true ->
   sent (snd out) = sent s ++ [request] /\
   forall data,
     fst out = Ret data ->
     exists response,
       network w (List.length (sent s)) request = Responded response /\
       res_ok response = true /\ res_json response = Some data).
Proof.
  intros request out. subst out. unfold HelpersApi.getData, nonEmptyString.
  destruct (Js.truthy token) eqn:Ht1; destruct (Js.isString token) eqn:Ht2; cbn [negb orb andb];
    try (split; [reflexivity|]; split; discriminate).
  split; [discriminate|].
  destruct (Js.truthy apiUrl) eqn:Hu1; destruct (Js.isString apiUrl) eqn:Hu2; cbn [negb orb andb];
    try (split; [reflexivity|]; discriminate).
  split; [discriminate|]. intros _ _. fold request.
  match goal with
  | |- sent (snd ?o) = _ /\ _ =>
      assert (H : exists e s',
                 o = (e, s') /\ sent s' = sent s ++ [request] /\
                 forall data, e = Ret data ->
                   exists response,
                     network w (List.length (sent s)) request = Responded response /\
                     res_ok response = true /\ res_json response = Some data);
      [|destruct H as (e & s' & -> & Hsent & Hdata); split; [exact Hsent | exact Hdata]]
  end.
  unfold tryCatch.
  rewrite (bindM_run _ _ _ _ _ _ (log_run _ _ _ _)).
  unfold bindM at 1. unfold Eff.fetch at 1. cbn [sent logged draws ticks].
  destruct (network w (List.length (sent s)) request) as [msg|response].
  - destruct (String.eqb _ "AbortError"); do 2 eexists;
      (split; [reflexivity|]); (split; [reflexivity | intros ? H; discriminate H]).
  - destruct (res_ok response) eqn:Hok; cbn [negb].
    + unfold bindM, Eff.json, liftE, throwM, retM. destruct (res_json response) as [data|] eqn:Hjson.
      * destruct (Js.prop data "data") as [d|m1]; [destruct (Js.prop data "included") as [i|m2]|];
          cbn [Eff.log sent snd fst].
        -- do 2 eexists. split; [reflexivity|]. split; [reflexivity|].
           intros data' H. injection H as <-. exists response. auto.
        -- destruct (String.eqb _ "AbortError"); do 2 eexists;
             (split; [reflexivity|]); (split; [reflexivity | intros ? H; discriminate H]).
        -- destruct (String.eqb _ "AbortError"); do 2 eexists;
             (split; [reflexivity|]); (split; [reflexivity | intros ? H; discriminate H]).
      * destruct (String.eqb _ "AbortError"); do 2 eexists;
          (split; [reflexivity|]); (split; [reflexivity | intros ? H; discriminate H]).
    + unfold bindM, throwM. cbn [Eff.log].
      destruct (String.eqb _ "AbortError"); do 2 eexists;
        (split; [reflexivity|]); (split; [reflexivity | intros ? H; discriminate H]).
Qed.

(** ** The templates *)

Lemma spanWord_app (s key rest : string) :
  HelpersApi.spanWord s = (key, rest) -> s = key +:+ rest.
Proof.
  revert key rest. induction s as [|c s IH]; simpl; intros key rest H.
  - injection H as <- <-. reflexivity.
  - destruct (HelpersApi.isWordChar c).
    + destruct (HelpersApi.spanWord s) as [k r]. injection H as <- <-.
      simpl. now rewrite (IH k r eq_refl).
    + injection H as <- <-. reflexivity.
Qed.

(** A match is the text of a placeholder. *)
Lemma placeholderAt_text (s key : string) :
  HelpersApi.placeholderAt s = Some key ->
  exists rest, s = "{{" +:+ key +:+ "}}" +:+ rest.
Proof.
  unfold HelpersApi.placeholderAt.
  destruct s as [|a [|b s]]; try discriminate.
  destruct (Ascii.eqb_spec a "{") as [->|]; [|discriminate].
  destruct (Ascii.eqb_spec b "{") as [->|]; [|discriminate]. cbn [andb].
  destruct (HelpersApi.spanWord s) as [[|c k] r] eqn:Hspan; [discriminate|].
  destruct (Str.startsWith "}}" r) eqn:Hclose; [|discriminate].
  intros H. injection H as <-.
  apply spanWord_app in Hspan. apply startsWith_split in Hclose as (rest & ->).
  exists rest. now rewrite Hspan.
Qed.

Section Templates.
Variable inherited : JsVal -> string -> option string.
Variable data : JsVal.

(** While every placeholder met is undefined in the data, the scan copies
    what it reads. *)
Lemma replacePlaceholders_copies (s : string) :
  forall skip,
    (placeholderKeys skip s <> [] -> isNullish data = false) ->
    (forall key, In key (placeholderKeys skip s) ->
                 HelpersApi.memberText inherited data key = None) ->
    HelpersApi.replacePlaceholders inherited data skip s = Ret (dropChars skip s).
Proof.
  induction s as [|c s IH]; intros skip Hdata Hkeys.
  - destruct skip; reflexivity.
  - destruct skip as [|skip];
      cbn [HelpersApi.replacePlaceholders placeholderKeys dropChars] in *.
    + destruct (HelpersApi.placeholderAt (String c s)) as [key|] eqn:Hat.
      * rewrite prop_not_nullish by (apply Hdata; discriminate). cbn [bindE].
        rewrite (Hkeys key (or_introl eq_refl)).
        rewrite IH.
        -- cbn [bindE]. f_equal.
           apply placeholderAt_text in Hat as (rest & Hs).
           cbn [append] in Hs. injection Hs as -> ->.
           replace (String.length key + 3)%nat with (String.length ("{" +:+ key +:+ "}}")).
           ++ assert (Hs : String "{" (key +:+ String "}" (String "}" rest)) =
                           ("{" +:+ key +:+ "}}") +:+ rest)
                by (cbn [append]; now rewrite append_assoc).
              rewrite Hs, dropChars_app. reflexivity.
           ++ cbn [append String.length]. rewrite length_append. simpl. lia.
        -- intros Hne. apply Hdata. discriminate.
        -- intros k Hk. apply Hkeys. now right.
      * rewrite IH by assumption. reflexivity.
    + now apply IH.
Qed.

(** Text without an opening brace is copied. *)
Lemma replacePlaceholders_text (before s : string) :
  lacks "{" before = true ->
  HelpersApi.replacePlaceholders inherited data 0 (before +:+ s) =
  let? rest := HelpersApi.replacePlaceholders inherited data 0 s in
  Ret (before +:+ rest).
Proof.
  induction before as [|c before IH]; intros H.
  - cbn [append]. destruct (HelpersApi.replacePlaceholders inherited data 0 s); reflexivity.
  - simpl in H. apply andb_prop in H as [Hc Hb]. apply negb_true_iff in Hc.
    cbn [append HelpersApi.replacePlaceholders].
    assert (Hat : HelpersApi.placeholderAt (String c (before +:+ s)) = None).
    { unfold HelpersApi.placeholderAt. destruct (before +:+ s); [reflexivity|].
      now rewrite Hc. }
    rewrite Hat, (IH Hb).
    destruct (HelpersApi.replacePlaceholders inherited data 0 s); reflexivity.
Qed.

Lemma replacePlaceholders_here (c : ascii) (s : string) :
  HelpersApi.replacePlaceholders inherited data 0 (String c s) =
  match HelpersApi.placeholderAt (String c s) with
  | Some key =>
      let? checked := Js.prop data key in
      let? rest := HelpersApi.replacePlaceholders inherited data (String.length key + 3) s in
      Ret (match HelpersApi.memberText inherited data key with
           | Some text => text
           | None => "{{" +:+ key +:+ "}}"
           end +:+ rest)
  | None =>
      let? rest := HelpersApi.replacePlaceholders inherited data 0 s in
      Ret (String c rest)
  end.
Proof. reflexivity. Qed.

Lemma replacePlaceholders_skip (passed s : string) :
  HelpersApi.replacePlaceholders inherited data (String.length passed) (passed +:+ s) =
  HelpersApi.replacePlaceholders inherited data 0 s.
Proof.
  induction passed as [|c passed IH]; [reflexivity|].
  cbn [append String.length HelpersApi.replacePlaceholders]. exact IH.
Qed.

Lemma spanWord_key (key rest : string) :
  isWord key = true ->
  HelpersApi.spanWord (key +:+ String "}" rest) = (key, String "}" rest).
Proof.
  induction key as [|c key IH]; intros H.
  - reflexivity.
  - simpl in H. apply andb_prop in H as [Hc Hk].
    cbn [append HelpersApi.spanWord]. now rewrite Hc, (IH Hk).
Qed.

Lemma placeholderAt_key (key rest : string) :
  key <> "" -> isWord key = true ->
  HelpersApi.placeholderAt ("{{" +:+ key +:+ "}}" +:+ rest) = Some key.
Proof.
  intros Hne Hw. cbn [append HelpersApi.placeholderAt Ascii.eqb Bool.eqb andb].
  rewrite (spanWord_key key (String "}" rest) Hw).
  destruct key; [contradiction | reflexivity].
Qed.

End Templates.

(** X17: `renderTemplate` leaves a
    placeholder whose key is undefined in the data as it is. When no
    placeholder of the template has a defined member in the data, own or
    inherited, the result is the template itself; the data may only be null
    or undefined when the template has no placeholder at all. *)
Theorem renderTemplate_keeps_undefined (inherited : JsVal -> string -> option string)
    (template : string) (data : JsVal) :
  (placeholderKeys 0 template <> [] -> isNullish data = false) ->
  (forall key, In key (placeholderKeys 0 template) ->
               HelpersApi.memberText inherited data key = None) ->
  HelpersApi.renderTemplate inherited (JStr template) data = Ret template.
Proof.
  intros Hdata Hkeys. unfold HelpersApi.renderTemplate. cbn [ExcOps.asString bindE].
  rewrite (replacePlaceholders_copies inherited data template 0 Hdata Hkeys).
  now destruct template.
Qed.

Lemma renderTemplate_keeps_undefined_witness :
  HelpersApi.renderTemplate Samples.inherited (JStr "Hello {{name}}!") (JObj []) =
  Ret "Hello {{name}}!".
Proof.
  apply (renderTemplate_keeps_undefined Samples.inherited "Hello {{name}}!" (JObj [])).
  - intros _. reflexivity.
  - intros key [<-|[]]. reflexivity.
Defined.

(** X18: `renderTemplate` replaces a
    placeholder by the text of the member of the data under its key. For a
    template made of a text without an opening brace, a placeholder with a
    key of word characters that the data define, and a remainder, the
    result is the text, the value of the key as a string, and the rendering
    of the remainder; the value itself is not scanned for placeholders. *)
Theorem renderTemplate_substitutes (inherited : JsVal -> string -> option string)
    (before key after text : string) (data : JsVal) :
  lacks "{" before = true ->
  key <> "" -> isWord key = true ->
  isNullish data = false ->
  HelpersApi.memberText inherited data key = Some text ->
  HelpersApi.renderTemplate inherited (JStr (before +:+ "{{" +:+ key +:+ "}}" +:+ after)) data =
  let? rest := HelpersApi.renderTemplate inherited (JStr after) data in
  Ret (before +:+ text +:+ rest).
Proof.
  intros Hb Hne Hw Hdata Hmember. unfold HelpersApi.renderTemplate. cbn [ExcOps.asString bindE].
  rewrite (replacePlaceholders_text inherited data before _ Hb).
  pose proof (placeholderAt_key key after Hne Hw) as Hat.
  cbn [append] in Hat |- *. rewrite replacePlaceholders_here.
  rewrite Hat, (prop_not_nullish data key Hdata). cbn [bindE]. rewrite Hmember.
  replace (String.length key + 3)%nat with (String.length ("{" +:+ key +:+ "}}")).
  - assert (Hs : String "{" (key +:+ String "}" (String "}" after)) =
                 ("{" +:+ key +:+ "}}") +:+ after)
      by (cbn [append]; now rewrite append_assoc).
    rewrite Hs, replacePlaceholders_skip.
    destruct (HelpersApi.replacePlaceholders inherited data 0 after); reflexivity.
  - cbn [append String.length]. rewrite length_append. simpl. lia.
Qed.

Lemma renderTemplate_substitutes_witness :
  HelpersApi.renderTemplate Samples.inherited (JStr "Hello {{name}}!")
    (JObj [("name", JStr "Ada")]) =
  Ret "Hello Ada!".
Proof.
  apply (renderTemplate_substitutes Samples.inherited "Hello " "name" "!" "Ada"
           (JObj [("name", JStr "Ada")])); (reflexivity || discriminate).
Defined.

(** ** The token store of the browser *)

Lemma ofZ_nonempty (z : Z) : Str.ofZ z <> "".
Proof.
  unfold Str.ofZ. destruct z as [|p|p]; simpl; try discriminate.
  pose proof (Unsigned.to_uint_nonnil p) as H.
  destruct (Pos.to_uint p); simpl; congruence.
Qed.

Lemma storeTokens_Ret (E : Engine) (tokenData : JsVal) (now : Z) (ss stored : gmap string string) :
  AlmAuth.storeTokens E tokenData now ss = Ret stored ->
  let written :=
    <[AlmAuth.TOKEN_EXPIRY :=
        Js.numToStr (AlmAuth.plus now (AlmAuth.times (Js.toNumber E (Js.getProp tokenData "expires_in")) 1000))]>
      (<[AlmAuth.ACCESS_TOKEN := Js.toStr (Js.getProp tokenData "access_token")]> ss) in
  stored = if Js.truthy (Js.getProp tokenData "refresh_token")
           then <[AlmAuth.REFRESH_TOKEN := Js.toStr (Js.getProp tokenData "refresh_token")]> written
           else written.
Proof.
  unfold AlmAuth.storeTokens. intros H.
  apply bindE_Ret in H as (e & He & H). apply prop_Ret in He. subst e.
  destruct (Js.truthy (Js.getProp tokenData "refresh_token")); now injection H as <-.
Qed.

(** With a numeric lifetime, `storeTokens` returns. *)
Lemma storeTokens_returns (E : Engine) (tokenData : JsVal) (lifetime now : Z)
    (sessionStorage : gmap string string) :
  Js.getProp tokenData "expires_in" = JNum lifetime ->
  exists stored, AlmAuth.storeTokens E tokenData now sessionStorage = Ret stored.
Proof.
  intros Hlife.
  assert (Hprop : Js.prop tokenData "expires_in" = Ret (JNum lifetime)).
  { rewrite <- Hlife. destruct tokenData; simpl in *; try discriminate; reflexivity. }
  unfold AlmAuth.storeTokens. rewrite Hprop. simpl.
  destruct (Js.truthy _); eauto.
Qed.

(** What `getAccessToken` makes of the storage `storeTokens` has written. *)
Lemma stored_token_read_back (E : Engine) (tokenData : JsVal) (token : string)
    (lifetime now later : Z) (sessionStorage stored : gmap string string) :
  AlmAuth.storeTokens E tokenData now sessionStorage = Ret stored ->
  Js.toStr (Js.getProp tokenData "access_token") = token -> token <> "" ->
  Js.getProp tokenData "expires_in" = JNum lifetime ->
  parseInt E (Str.ofZ (now + lifetime * 1000)) = Some (now + lifetime * 1000) ->
  AlmAuth.getAccessToken E stored later =
  (if later <? now + lifetime * 1000 - 5 * 60 * 1000 then Some token else None).
Proof.
  intros Hstore Htoken Hne Hlife Hparse.
  apply storeTokens_Ret in Hstore. cbv zeta in Hstore.
  rewrite Hlife, Htoken in Hstore. cbn [Js.toNumber AlmAuth.times AlmAuth.plus Js.numToStr] in Hstore.
  assert (Ha : stored !! AlmAuth.ACCESS_TOKEN = Some token).
  { subst stored. destruct (Js.truthy _);
      repeat (rewrite lookup_insert_ne by discriminate); apply lookup_insert_eq. }
  assert (He : stored !! AlmAuth.TOKEN_EXPIRY = Some (Str.ofZ (now + lifetime * 1000))).
  { subst stored. destruct (Js.truthy _);
      repeat (rewrite lookup_insert_ne by discriminate); apply lookup_insert_eq. }
  unfold AlmAuth.getAccessToken, AlmAuth.isAuthenticated. rewrite Ha, He.
  unfold AlmAuth.missing.
  destruct (String.eqb_spec token ""); [contradiction|].
  destruct (String.eqb_spec (Str.ofZ (now + lifetime * 1000)) "") as [Hz|_].
  { now apply ofZ_nonempty in Hz. }
  cbn [orb]. rewrite Hparse.
  destruct (later <? now + lifetime * 1000 - 5 * 60 * 1000); reflexivity.
Qed.

(** X19: what `storeTokens` writes,
    `getAccessToken` reads back, for the lifetime of the token less five
    minutes. After storing a non-empty access token with a lifetime of
    `expires_in` seconds at time `now`, on any session storage,
    `getAccessToken` at a later time returns that token while the time is
    less than `now + expires_in * 1000 - 300000` milliseconds, and null
    from then on. The engine reads the decimal text of the expiry time
    back as that number. *)
Theorem storeTokens_round_trip (E : Engine) (tokenData : JsVal) (token : string)
    (lifetime now later : Z) (sessionStorage : gmap string string) :
  Js.toStr (Js.getProp tokenData "access_token") = token -> token <> "" ->
  Js.getProp tokenData "expires_in" = JNum lifetime ->
  parseInt E (Str.ofZ (now + lifetime * 1000)) = Some (now + lifetime * 1000) ->
  exists stored,
    AlmAuth.storeTokens E tokenData now sessionStorage = Ret stored /\
    AlmAuth.getAccessToken E stored later =
    (if later <? now + lifetime * 1000 - 5 * 60 * 1000 then Some token else None).
Proof.
  intros Htoken Hne Hlife Hparse.
  destruct (storeTokens_returns E tokenData lifetime now sessionStorage Hlife) as (stored & Hstore).
  exists stored. split; [exact Hstore|].
  now apply (stored_token_read_back E tokenData token lifetime now later sessionStorage).
Qed.

Lemma storeTokens_round_trip_witness :
  exists stored,
    AlmAuth.storeTokens Samples.engine Samples.tokenData 1700000000000 ∅ = Ret stored /\
    AlmAuth.getAccessToken Samples.engine stored 1700000299999 = Some "secret".
Proof.
  apply (storeTokens_round_trip Samples.engine Samples.tokenData "secret" 600
           1700000000000 1700000299999 ∅); (reflexivity || discriminate).
Defined.

(** X20: `storeTokens` writes the access token, the
    expiry and, when the answer has one, the refresh token, and nothing
    else: every other key of the session storage keeps its value (the user
    info among them), and when the answer has no refresh token the one
    stored before stays. *)
Theorem storeTokens_frame (E : Engine) (tokenData : JsVal) (now : Z)
    (sessionStorage stored : gmap string string) :
  AlmAuth.storeTokens E tokenData now sessionStorage = Ret stored ->
  (forall key, ~ In key tokenKeys -> stored !! key = sessionStorage !! key) /\
  (Js.truthy (Js.getProp tokenData "refresh_token") = false ->
   stored !! AlmAuth.REFRESH_TOKEN = sessionStorage !! AlmAuth.REFRESH_TOKEN) /\
  stored !! AlmAuth.ACCESS_TOKEN = Some (Js.toStr (Js.getProp tokenData "access_token")).
Proof.
  intros H. apply storeTokens_Ret in H. cbv zeta in H. subst stored. repeat split.
  - intros key Hkey.
    assert (H1 : AlmAuth.ACCESS_TOKEN <> key) by (intros <-; apply Hkey; simpl; auto).
    assert (H2 : AlmAuth.TOKEN_EXPIRY <> key) by (intros <-; apply Hkey; simpl; auto).
    assert (H3 : AlmAuth.REFRESH_TOKEN <> key) by (intros <-; apply Hkey; simpl; auto).
    destruct (Js.truthy _); now rewrite ?lookup_insert_ne by assumption.
  - intros ->. now rewrite !lookup_insert_ne by discriminate.
  - destruct (Js.truthy _);
      repeat (rewrite lookup_insert_ne by discriminate); apply lookup_insert_eq.
Qed.

Lemma storeTokens_frame_witness :
  exists stored,
    AlmAuth.storeTokens Samples.engine Samples.tokenData 1700000000000 Samples.sessionStorage =
    Ret stored /\
    (forall key, ~ In key tokenKeys -> stored !! key = Samples.sessionStorage !! key) /\
    (Js.truthy (Js.getProp Samples.tokenData "refresh_token") = false ->
     stored !! AlmAuth.REFRESH_TOKEN = Samples.sessionStorage !! AlmAuth.REFRESH_TOKEN) /\
    stored !! AlmAuth.ACCESS_TOKEN = Some (Js.toStr (Js.getProp Samples.tokenData "access_token")).
Proof.
  eexists. split; [reflexivity|].
  apply (storeTokens_frame Samples.engine Samples.tokenData 1700000000000 Samples.sessionStorage).
  reflexivity.
Defined.

(** X21: `clearTokens` removes the four keys of the
    authentication (access token, refresh token, expiry, user info) and
    leaves every other key of the session storage as it was; afterwards
    `getAccessToken` returns null at any time and `getUserInfo` returns
    null. *)
Theorem clearTokens_exact (sessionStorage : gmap string string) :
  (forall key, In key authKeys -> AlmAuth.clearTokens sessionStorage !! key = None) /\
  (forall key, ~ In key authKeys ->
               AlmAuth.clearTokens sessionStorage !! key = sessionStorage !! key) /\
  (forall E currentTime,
      AlmAuth.getAccessToken E (AlmAuth.clearTokens sessionStorage) currentTime = None) /\
  (forall E, AlmAuth.getUserInfo E (AlmAuth.clearTokens sessionStorage) = Ret JNull).
Proof.
  assert (Hgone : forall key, In key authKeys -> AlmAuth.clearTokens sessionStorage !! key = None).
  { unfold AlmAuth.clearTokens.
    intros key [<-|[<-|[<-|[<-|[]]]]];
      repeat first [ apply lookup_delete_eq | rewrite lookup_delete_ne by discriminate ]. }
  split; [exact Hgone|]. split; [|split].
  - unfold AlmAuth.clearTokens. intros key Hkey.
    rewrite !lookup_delete_ne; [reflexivity| | | |]; intros <-; apply Hkey; simpl; auto.
  - intros E currentTime. apply getAccessToken_cleared.
  - intros E. unfold AlmAuth.getUserInfo.
    rewrite (Hgone AlmAuth.USER_INFO) by (simpl; auto). reflexivity.
Qed.

(** ** The course info block *)


Lemma classListAdd_In (name : string) (classes : list string) :
  In name (CourseInfo.classListAdd name classes).
Proof.
  unfold CourseInfo.classListAdd.
  destruct (existsb (String.eqb name) classes) eqn:H.
  - apply existsb_exists in H as (x & Hx & Heq). apply String.eqb_eq in Heq. now subst.
  - apply in_or_app. right. now left.
Qed.



Lemma decorate_armed (page : Page) :
  CourseInfo.metaContent (page_document page) "course-id" = "" ->
  (Str.includes "/overview/trainingId/" (page_pathname page) ||
   Str.includes "/course/" (page_pathname page))%bool = true ->
  CourseInfo.decorate page =
  {| page_document := page_document page;
     page_pathname := page_pathname page;
     block_innerHTML := CourseInfo.loadingHTML;
     block_classList := block_classList page;
     page_timeouts := S (page_timeouts page);
     page_handlers := page_handlers page;
     page_console := page_console page |}.
Proof.
  intros Hid Hpath. unfold CourseInfo.decorate.
  cbn [CourseInfo.getCourseDataFromMeta meta_courseId]. now rewrite Hid, Hpath.
Qed.

(** X23: on a course page without a course ID in
    its meta tags, `decorate` shows the loading state and arms exactly one
    timeout. When the timeout fires, no timeout is pending any more: if the
    meta tags have arrived by then the block is decorated from them, and if
    they have not, the block stays in the loading state for good, since
    nothing looks at the meta tags again. *)
Theorem decorate_retries_once (page : Page) (later : list Tag) :
  let armed := CourseInfo.decorate page in
  let fired := CourseInfo.retry (withDocument later armed) in
  CourseInfo.metaContent (page_document page) "course-id" = "" ->
  (Str.includes "/overview/trainingId/" (page_pathname page) ||
   Str.includes "/course/" (page_pathname page))%bool = true ->
  block_innerHTML armed = CourseInfo.loadingHTML /\
  page_timeouts armed = S (page_timeouts page) /\
  page_timeouts fired = page_timeouts page /\
  (CourseInfo.metaContent later "course-id" = "" ->
   block_innerHTML fired = CourseInfo.loadingHTML /\
   block_classList fired = block_classList page) /\
  (CourseInfo.metaContent later "course-id" <> "" ->
   block_innerHTML fired =
     CourseInfo.createCourseInfoContent (CourseInfo.getCourseDataFromMeta later) /\
   In "course-info-loaded" (block_classList fired)).
Proof.
  intros armed fired Hmissing Hpath. subst fired armed.
  rewrite (decorate_armed page Hmissing Hpath).
  split; [reflexivity|]. split; [reflexivity|].
  unfold CourseInfo.retry, withDocument, CourseInfo.decorate.
  cbn [page_document page_timeouts block_innerHTML block_classList page_pathname
       page_handlers page_console Nat.pred CourseInfo.getCourseDataFromMeta meta_courseId].
  destruct (String.eqb_spec (CourseInfo.metaContent later "course-id") "") as [Hid|Hid];
    cbn [page_timeouts block_innerHTML block_classList].
  - split; [reflexivity|]. split; [auto | contradiction].
  - split; [reflexivity|]. split; [contradiction|].
    intros _. split; [reflexivity | apply classListAdd_In].
Qed.

Lemma decorate_retries_once_witness :
  block_innerHTML (CourseInfo.decorate Samples.emptyCoursePage) = CourseInfo.loadingHTML /\
  page_timeouts (CourseInfo.decorate Samples.emptyCoursePage) = 1%nat /\
  page_timeouts
    (CourseInfo.retry (withDocument [] (CourseInfo.decorate Samples.emptyCoursePage))) = 0%nat.
Proof.
  destruct (decorate_retries_once Samples.emptyCoursePage [] eq_refl eq_refl)
    as (Hloading & Harmed & Hfired & _).
  split; [exact Hloading|]. split; [exact Harmed | exact Hfired].
Defined.

(** ** The OAuth flows of the browser *)

Lemma bindS_run {A C : Type} (m : Script A) (k : A -> Script C) (win : Window)
    (b b' : Browser) (a : A) :
  m win b = (Ret a, b') -> bindS m k win b = k a win b'.
Proof. unfold bindS. now intros ->. Qed.

Lemma bindS_throw {A C : Type} (m : Script A) (k : A -> Script C) (win : Window)
    (b b' : Browser) (msg : string) :
  m win b = (Throw msg, b') -> bindS m k win b = (Throw msg, b').
Proof. unfold bindS. now intros ->. Qed.

Lemma exchangeCodeForToken_run (code : string) (win : Window) (b : Browser) :
  AuthFlow.exchangeCodeForToken code win b =
  (bodyOf "Error: Token exchange failed: "
          (win_network win (List.length (b_sent b)) (exchangeRequest win code)),
   sending (exchangeRequest win code) b).
Proof.
  unfold AuthFlow.exchangeCodeForToken, bodyOf, exchangeRequest, sending, bindS, Web.window,
    Web.fetch, Web.json, throwS, retS.
  destruct (win_network win _ _) as [msg|resp]; [reflexivity|].
  destruct (res_ok resp); cbn [negb]; [|reflexivity].
  destruct (res_json resp); reflexivity.
Qed.

Lemma storeTokens_run (E : Engine) (tokenData : JsVal) (win : Window) (b : Browser) :
  AuthFlow.storeTokens E tokenData win b =
  match AlmAuth.storeTokens E tokenData (win_now win (b_reads b)) (b_storage b) with
  | Ret stored => (Ret tt, Web.withStorage stored (reading b))
  | Throw msg => (Throw msg, reading b)
  end.
Proof. reflexivity. Qed.

Lemma getAccessToken_run (E : Engine) (win : Window) (b : Browser) :
  AuthFlow.getAccessToken E win b =
  (Ret (AlmAuth.getAccessToken E (b_storage b) (win_now win (b_reads b))), checked b).
Proof.
  unfold AuthFlow.getAccessToken, AuthFlow.isAuthenticated, checked, tokenStored, bindS,
    AlmAuth.getAccessToken.
  destruct (_ || _)%bool eqn:Hm; cbn [negb retS].
  - unfold AlmAuth.isAuthenticated. rewrite Hm. reflexivity.
  - cbn [Web.dateNow retS]. destruct (AlmAuth.isAuthenticated E _ _); reflexivity.
Qed.

Lemma refreshAccessToken_run (win : Window) (b : Browser) :
  AuthFlow.refreshAccessToken win b =
  match b_storage b !! AlmAuth.REFRESH_TOKEN with
  | Some token =>
      if String.eqb token "" then (Throw "Error: No refresh token available", b)
      else
        (bodyOf "Error: Token refresh failed: "
                (win_network win (List.length (b_sent b)) (refreshRequest win token)),
         sending (refreshRequest win token) b)
  | None => (Throw "Error: No refresh token available", b)
  end.
Proof.
  unfold AuthFlow.refreshAccessToken, bodyOf, refreshRequest, sending, bindS, Web.window,
    Web.getItem, Web.fetch, Web.json, throwS, retS.
  destruct (b_storage b !! AlmAuth.REFRESH_TOKEN) as [token|]; [|reflexivity].
  destruct (String.eqb token ""); [reflexivity|].
  destruct (win_network win _ _) as [msg|resp]; [reflexivity|].
  destruct (res_ok resp); cbn [negb]; [|reflexivity].
  destruct (res_json resp); reflexivity.
Qed.

Lemma fetchUserInfo_run (E : Engine) (win : Window) (b : Browser) :
  AuthFlow.fetchUserInfo E win b =
  match AlmAuth.getAccessToken E (b_storage b) (win_now win (b_reads b)) with
  | Some token =>
      if String.eqb token "" then (Throw "Error: No access token available", checked b)
      else
        match bodyOf "Error: Failed to fetch user info: "
                (win_network win (List.length (b_sent b)) (AuthFlow.userRequest token)) with
        | Ret userData =>
            (Ret userData,
             Web.withStorage (<[AlmAuth.USER_INFO := jsonStringify E userData]> (b_storage b))
               (sending (AuthFlow.userRequest token) (checked b)))
        | Throw msg => (Throw msg, sending (AuthFlow.userRequest token) (checked b))
        end
  | None => (Throw "Error: No access token available", checked b)
  end.
Proof.
  unfold AuthFlow.fetchUserInfo.
  rewrite (bindS_run _ _ _ _ _ _ (getAccessToken_run E win b)).
  destruct (AlmAuth.getAccessToken E _ _) as [token|]; [|reflexivity].
  destruct (String.eqb token ""); [reflexivity|].
  assert (Hs : b_sent (checked b) = b_sent b /\ b_storage (checked b) = b_storage b).
  { unfold checked. destruct (tokenStored b); split; reflexivity. }
  destruct Hs as [Hs Hst].
  unfold bodyOf, bindS, Web.fetch, Web.json, Web.setItem, throwS, retS, sending, Web.withStorage.
  cbn [b_sent b_storage b_href b_errors b_prompts b_reads b_draws].
  rewrite Hs, Hst.
  destruct (win_network win _ _) as [msg|resp]; [reflexivity|].
  destruct (res_ok resp); cbn [negb]; [|reflexivity].
  destruct (res_json resp); reflexivity.
Qed.
Lemma getAccessToken_stored (E : Engine) (storage : gmap string string) (currentTime : Z)
    (token : string) :
  AlmAuth.getAccessToken E storage currentTime = Some token ->
  storage !! AlmAuth.ACCESS_TOKEN = Some token.
Proof.
  unfold AlmAuth.getAccessToken. now destruct (AlmAuth.isAuthenticated E storage currentTime).
Qed.

Lemma storeTokens_other (E : Engine) (tokenData : JsVal) (now : Z)
    (storage stored : gmap string string) (key : string) :
  AlmAuth.storeTokens E tokenData now storage = Ret stored ->
  ~ In key tokenKeys -> stored !! key = storage !! key.
Proof.
  intros H Hkey. apply storeTokens_Ret in H. cbv zeta in H. subst stored.
  assert (H1 : AlmAuth.ACCESS_TOKEN <> key) by (intros <-; apply Hkey; simpl; auto).
  assert (H2 : AlmAuth.TOKEN_EXPIRY <> key) by (intros <-; apply Hkey; simpl; auto).
  assert (H3 : AlmAuth.REFRESH_TOKEN <> key) by (intros <-; apply Hkey; simpl; auto).
  destruct (Js.truthy _); now rewrite ?lookup_insert_ne by assumption.
Qed.

Lemma checked_fields (b : Browser) :
  b_storage (checked b) = b_storage b /\ b_href (checked b) = b_href b /\
  b_sent (checked b) = b_sent b /\ b_errors (checked b) = b_errors b.
Proof. unfold checked. destruct (tokenStored b); repeat split. Qed.

(** X24: `handleCallback` never throws and
    always ends with exactly one navigation, whatever the network answers.
    It sends the token request for the code first and at most one more
    request. Either it navigates to '/login?error=auth_failed' after
    logging 'Authentication failed:', or it navigates to the stored return
    URL ('/' when none is stored); in the second case a non-empty access
    token and the user info are in the session storage, the return URL has
    been removed from it, and the second request was the user request with
    that token. The `state` plays no part. *)
Theorem handleCallback_navigates_once (E : Engine) (code state : string) (win : Window)
    (b : Browser) :
  exists b' target sent,
    AuthFlow.handleCallback E code state win b = (Ret tt, b') /\
    b_href b' = b_href b ++ [target] /\
    b_sent b' = b_sent b ++ exchangeRequest win code :: sent /\
    (List.length sent <= 1)%nat /\
    ((target = "/login?error=auth_failed" /\
      b_errors b' = b_errors b ++ ["Authentication failed:"]) \/
     (target = AuthFlow.returnUrlOf (b_storage b !! AuthFlow.AUTH_RETURN_URL) /\
      b_errors b' = b_errors b /\
      b_storage b' !! AuthFlow.AUTH_RETURN_URL = None /\
      exists token userData,
        token <> "" /\
        b_storage b' !! AlmAuth.ACCESS_TOKEN = Some token /\
        b_storage b' !! AlmAuth.USER_INFO = Some (jsonStringify E userData) /\
        sent = [AuthFlow.userRequest token])).
Proof.
  unfold AuthFlow.handleCallback, catchS.
  pose proof (exchangeCodeForToken_run code win b) as Hx.
  destruct (bodyOf _ _) as [tokenData|msg].
  2:{ rewrite (bindS_throw _ _ _ _ _ _ Hx).
      eexists _, _, []. split; [reflexivity|]. cbn. repeat split; auto. }
  rewrite (bindS_run _ _ _ _ _ _ Hx). clear Hx.
  pose proof (storeTokens_run E tokenData win (sending (exchangeRequest win code) b)) as Hs.
  cbn [b_storage b_reads sending] in Hs.
  destruct (AlmAuth.storeTokens E tokenData _ (b_storage b)) as [stored|msg] eqn:Hstore.
  2:{ rewrite (bindS_throw _ _ _ _ _ _ Hs).
      eexists _, _, []. split; [reflexivity|]. cbn. repeat split; auto. }
  rewrite (bindS_run _ _ _ _ _ _ Hs). clear Hs.
  match goal with
  | |- context [bindS (AuthFlow.fetchUserInfo E) _ win ?b0] =>
      pose proof (fetchUserInfo_run E win b0) as Hu;
      destruct (checked_fields b0) as (Hc1 & Hc2 & Hc3 & Hc4);
      set (b2 := b0) in *
  end.
  subst b2.
  cbn [b_storage b_reads b_sent Web.withStorage reading sending] in Hu, Hc1, Hc2, Hc3, Hc4.
  destruct (AlmAuth.getAccessToken E stored _) as [token|] eqn:Hget.
  2:{ rewrite (bindS_throw _ _ _ _ _ _ Hu).
      eexists _, _, []. split; [reflexivity|]. cbn. rewrite Hc2, Hc3, Hc4. cbn.
      repeat split; auto. }
  destruct (String.eqb_spec token "") as [Hempty|Htoken].
  { rewrite (bindS_throw _ _ _ _ _ _ Hu).
    eexists _, _, []. split; [reflexivity|]. cbn. rewrite Hc2, Hc3, Hc4. cbn.
    repeat split; auto. }
  destruct (bodyOf _ _) as [userData|msg].
  2:{ rewrite (bindS_throw _ _ _ _ _ _ Hu).
      eexists _, _, [AuthFlow.userRequest token]. split; [reflexivity|].
      cbn. rewrite Hc2, Hc3, Hc4. cbn. rewrite <- app_assoc.
      repeat split; auto. }
  rewrite (bindS_run _ _ _ _ _ _ Hu).
  eexists _, _, [AuthFlow.userRequest token]. split; [reflexivity|].
  cbn. rewrite Hc2, Hc3, Hc4. cbn. rewrite <- app_assoc.
  split; [reflexivity|]. split; [reflexivity|]. split; [lia|]. right.
  split.
  { rewrite lookup_insert_ne by discriminate.
    rewrite (storeTokens_other _ _ _ _ _ AuthFlow.AUTH_RETURN_URL Hstore); [reflexivity|].
    simpl. intros [H|[H|[H|[]]]]; discriminate H. }
  split; [reflexivity|]. split; [apply lookup_delete_eq|].
  exists token, userData. split; [exact Htoken|]. split.
  - rewrite lookup_delete_ne, lookup_insert_ne by discriminate.
    exact (getAccessToken_stored _ _ _ _ Hget).
  - split; [|reflexivity].
    rewrite lookup_delete_ne by discriminate. apply lookup_insert_eq.
Qed.
Section Callback.
Variable E : Engine.
Variables (code state : string) (win : Window) (b : Browser).
Variables (resp : FetchResponse) (tokenData : JsVal) (token : string) (lifetime : Z).

Hypothesis exchanged :
  win_network win (List.length (b_sent b)) (exchangeRequest win code) = Responded resp.
Hypothesis exchangedOk : res_ok resp = true.
Hypothesis exchangedBody : res_json resp = Some tokenData.
Hypothesis accessToken : Js.toStr (Js.getProp tokenData "access_token") = token.
Hypothesis accessTokenGiven : token <> "".
Hypothesis expiresIn : Js.getProp tokenData "expires_in" = JNum lifetime.
Hypothesis expiryReadBack :
  parseInt E (Str.ofZ (win_now win (b_reads b) + lifetime * 1000)) =
  Some (win_now win (b_reads b) + lifetime * 1000).

Lemma callback_stored :
  exists stored,
    AlmAuth.storeTokens E tokenData (win_now win (b_reads b)) (b_storage b) = Ret stored /\
    stored !! AlmAuth.ACCESS_TOKEN = Some token /\
    stored !! AuthFlow.AUTH_RETURN_URL = b_storage b !! AuthFlow.AUTH_RETURN_URL /\
    tokenStored (Web.withStorage stored (reading (sending (exchangeRequest win code) b))) = true /\
    forall later,
      AlmAuth.getAccessToken E stored later =
      (if later <? win_now win (b_reads b) + lifetime * 1000 - 5 * 60 * 1000
       then Some token else None).
Proof.
  destruct (storeTokens_returns E tokenData lifetime (win_now win (b_reads b)) (b_storage b)
              expiresIn)
    as (stored & Hstore).
  exists stored. split; [exact Hstore|].
  pose proof (storeTokens_Ret _ _ _ _ _ Hstore) as Heq. cbv zeta in Heq.
  assert (Ha : stored !! AlmAuth.ACCESS_TOKEN = Some token).
  { rewrite <- accessToken. subst stored. destruct (Js.truthy _);
      repeat (rewrite lookup_insert_ne by discriminate); apply lookup_insert_eq. }
  assert (He : exists e, stored !! AlmAuth.TOKEN_EXPIRY = Some e /\ e <> "").
  { rewrite expiresIn in Heq. cbn [Js.toNumber AlmAuth.times AlmAuth.plus Js.numToStr] in Heq.
    eexists. split.
    - subst stored. destruct (Js.truthy _);
        repeat (rewrite lookup_insert_ne by discriminate); apply lookup_insert_eq.
    - apply ofZ_nonempty. }
  split; [exact Ha|]. split.
  { apply (storeTokens_other _ _ _ _ _ _ Hstore).
    simpl. intros [H|[H|[H|[]]]]; discriminate H. }
  split.
  { unfold tokenStored. cbn [b_storage Web.withStorage].
    destruct He as (e & -> & Hne). rewrite Ha. unfold AlmAuth.missing.
    destruct (String.eqb_spec token ""); [contradiction|].
    destruct (String.eqb_spec e ""); [contradiction | reflexivity]. }
  intros later.
  now apply (stored_token_read_back E tokenData token lifetime (win_now win (b_reads b)) later
               (b_storage b)).
Qed.

(** Up to the request for the user: the token is exchanged and stored,
    and the clock is read a second time. *)
Lemma callback_exchanged (k : unit -> Script unit) :
  exists stored,
    AlmAuth.storeTokens E tokenData (win_now win (b_reads b)) (b_storage b) = Ret stored /\
    stored !! AlmAuth.ACCESS_TOKEN = Some token /\
    stored !! AuthFlow.AUTH_RETURN_URL = b_storage b !! AuthFlow.AUTH_RETURN_URL /\
    AlmAuth.getAccessToken E stored (win_now win (S (b_reads b))) =
      (if win_now win (S (b_reads b)) <? win_now win (b_reads b) + lifetime * 1000 - 5 * 60 * 1000
       then Some token else None) /\
    checked (Web.withStorage stored (reading (sending (exchangeRequest win code) b))) =
      reading (Web.withStorage stored (reading (sending (exchangeRequest win code) b))) /\
    (let! tokenData := AuthFlow.exchangeCodeForToken code in
     let! _ := AuthFlow.storeTokens E tokenData in
     let! _ := AuthFlow.fetchUserInfo E in
     k tt) win b =
    (let! _ := AuthFlow.fetchUserInfo E in k tt) win
      (Web.withStorage stored (reading (sending (exchangeRequest win code) b))).
Proof.
  destruct callback_stored as (stored & Hstore & Ha & Hr & Hts & Hget).
  exists stored. split; [exact Hstore|]. split; [exact Ha|]. split; [exact Hr|].
  split; [apply Hget|]. split; [unfold checked; now rewrite Hts|].
  pose proof (exchangeCodeForToken_run code win b) as Hx.
  rewrite exchanged in Hx. cbn [bodyOf] in Hx. rewrite exchangedOk, exchangedBody in Hx.
  rewrite (bindS_run _ _ _ _ _ _ Hx).
  pose proof (storeTokens_run E tokenData win (sending (exchangeRequest win code) b)) as Hs.
  cbn [b_storage b_reads sending] in Hs. rewrite Hstore in Hs.
  now rewrite (bindS_run _ _ _ _ _ _ Hs).
Qed.

End Callback.

(** X25: a token that is within five
    minutes of its expiry when it arrives cannot sign in. When the token
    endpoint answers the code with a non-empty access token whose lifetime
    has run down to five minutes or less by the second reading of the
    clock (so always for `expires_in` up to 300), `handleCallback` sends no
    user request, logs 'Authentication failed:' and navigates to
    '/login?error=auth_failed', and the access token stays in the session
    storage. *)
Theorem handleCallback_short_lived_token (E : Engine) (code state : string) (win : Window)
    (b : Browser) (resp : FetchResponse) (tokenData : JsVal) (token : string) (lifetime : Z) :
  win_network win (List.length (b_sent b)) (exchangeRequest win code) = Responded resp ->
  res_ok resp = true ->
  res_json resp = Some tokenData ->
  Js.toStr (Js.getProp tokenData "access_token") = token ->
  token <> "" ->
  Js.getProp tokenData "expires_in" = JNum lifetime ->
  parseInt E (Str.ofZ (win_now win (b_reads b) + lifetime * 1000)) =
    Some (win_now win (b_reads b) + lifetime * 1000) ->
  win_now win (b_reads b) + lifetime * 1000 - 5 * 60 * 1000 <= win_now win (S (b_reads b)) ->
  exists b',
    AuthFlow.handleCallback E code state win b = (Ret tt, b') /\
    b_href b' = b_href b ++ ["/login?error=auth_failed"] /\
    b_sent b' = b_sent b ++ [exchangeRequest win code] /\
    b_errors b' = b_errors b ++ ["Authentication failed:"] /\
    b_storage b' !! AlmAuth.ACCESS_TOKEN = Some token.
Proof.
  intros Hnet Hok Hjson Htoken Hne Hlife Hparse Hlate.
  unfold AuthFlow.handleCallback, catchS.
  destruct (callback_exchanged E code win b resp tokenData token lifetime
              Hnet Hok Hjson Htoken Hne Hlife Hparse
              (fun _ =>
                 let! stored := Web.getItem AuthFlow.AUTH_RETURN_URL in
                 let! _ := Web.removeItem AuthFlow.AUTH_RETURN_URL in
                 Web.assignHref (AuthFlow.returnUrlOf stored)))
    as (stored & _ & Ha & _ & Hget & Hchecked & ->).
  assert (Hno : (win_now win (S (b_reads b)) <?
                 win_now win (b_reads b) + lifetime * 1000 - 5 * 60 * 1000) = false)
    by (apply Z.ltb_ge; exact Hlate).
  rewrite Hno in Hget.
  match goal with
  | |- context [bindS (AuthFlow.fetchUserInfo E) _ win ?b0] =>
      pose proof (fetchUserInfo_run E win b0) as Hu
  end.
  cbn [b_storage b_reads b_sent Web.withStorage reading sending] in Hu.
  rewrite Hget, Hchecked in Hu.
  rewrite (bindS_throw _ _ _ _ _ _ Hu).
  eexists. split; [reflexivity|]. cbn. repeat split; auto.
Qed.

Lemma handleCallback_short_lived_token_witness :
  exists b',
    AuthFlow.handleCallback Samples.engine "code" "state" Samples.slowWindow Web.init =
      (Ret tt, b') /\
    b_href b' = ["/login?error=auth_failed"] /\
    b_sent b' = [exchangeRequest Samples.slowWindow "code"] /\
    b_errors b' = ["Authentication failed:"] /\
    b_storage b' !! AlmAuth.ACCESS_TOKEN = Some "secret".
Proof.
  apply (handleCallback_short_lived_token Samples.engine "code" "state" Samples.slowWindow
           Web.init
           {| res_ok := true; res_status := 200; res_statusText := "OK"; res_text := EmptyString;
              res_json := Some Samples.tokenData |}
           Samples.tokenData "secret" 600);
    first [reflexivity | discriminate | vm_compute; discriminate].
Defined.

(** X26: the callback of a successful login.
    When the token endpoint answers the code with a non-empty access token
    that is still more than five minutes from its expiry at the second
    reading of the clock, and the user endpoint answers ok with JSON data,
    `handleCallback` sends exactly the token request and the user request
    (with 'oauth' and the new token), stores the token and the
    `JSON.stringify` of the user data, removes the stored return URL and
    navigates to it, or to '/' when there was none; nothing is logged as
    an error. *)
Theorem handleCallback_signs_in (E : Engine) (code state : string) (win : Window)
    (b : Browser) (resp userResp : FetchResponse) (tokenData userData : JsVal)
    (token : string) (lifetime : Z) :
  win_network win (List.length (b_sent b)) (exchangeRequest win code) = Responded resp ->
  res_ok resp = true ->
  res_json resp = Some tokenData ->
  Js.toStr (Js.getProp tokenData "access_token") = token ->
  token <> "" ->
  Js.getProp tokenData "expires_in" = JNum lifetime ->
  parseInt E (Str.ofZ (win_now win (b_reads b) + lifetime * 1000)) =
    Some (win_now win (b_reads b) + lifetime * 1000) ->
  win_now win (S (b_reads b)) < win_now win (b_reads b) + lifetime * 1000 - 5 * 60 * 1000 ->
  win_network win (S (List.length (b_sent b))) (AuthFlow.userRequest token) =
    Responded userResp ->
  res_ok userResp = true ->
  res_json userResp = Some userData ->
  exists b',
    AuthFlow.handleCallback E code state win b = (Ret tt, b') /\
    b_href b' = b_href b ++ [AuthFlow.returnUrlOf (b_storage b !! AuthFlow.AUTH_RETURN_URL)] /\
    b_sent b' = b_sent b ++ [exchangeRequest win code; AuthFlow.userRequest token] /\
    b_errors b' = b_errors b /\
    b_storage b' !! AlmAuth.ACCESS_TOKEN = Some token /\
    b_storage b' !! AlmAuth.USER_INFO = Some (jsonStringify E userData) /\
    b_storage b' !! AuthFlow.AUTH_RETURN_URL = None.
Proof.
  intros Hnet Hok Hjson Htoken Hne Hlife Hparse Hfresh Hunet Huok Hujson.
  unfold AuthFlow.handleCallback, catchS.
  destruct (callback_exchanged E code win b resp tokenData token lifetime
              Hnet Hok Hjson Htoken Hne Hlife Hparse
              (fun _ =>
                 let! stored := Web.getItem AuthFlow.AUTH_RETURN_URL in
                 let! _ := Web.removeItem AuthFlow.AUTH_RETURN_URL in
                 Web.assignHref (AuthFlow.returnUrlOf stored)))
    as (stored & _ & Ha & Hr & Hget & Hchecked & ->).
  assert (Hyes : (win_now win (S (b_reads b)) <?
                  win_now win (b_reads b) + lifetime * 1000 - 5 * 60 * 1000) = true)
    by (apply Z.ltb_lt; exact Hfresh).
  rewrite Hyes in Hget.
  match goal with
  | |- context [bindS (AuthFlow.fetchUserInfo E) _ win ?b0] =>
      pose proof (fetchUserInfo_run E win b0) as Hu
  end.
  cbn [b_storage b_reads b_sent Web.withStorage reading sending] in Hu.
  rewrite Hget, Hchecked in Hu.
  destruct (String.eqb_spec token ""); [contradiction|].
  rewrite length_app, Nat.add_1_r in Hu. rewrite Hunet in Hu. cbn [bodyOf] in Hu.
  rewrite Huok, Hujson in Hu.
  rewrite (bindS_run _ _ _ _ _ _ Hu).
  eexists. split; [reflexivity|]. cbn. rewrite <- app_assoc.
  split; [|split; [reflexivity|split; [reflexivity|]]].
  - rewrite lookup_insert_ne by discriminate. now rewrite Hr.
  - split; [|split].
    + now rewrite lookup_delete_ne, lookup_insert_ne by discriminate.
    + rewrite lookup_delete_ne by discriminate. apply lookup_insert_eq.
    + apply lookup_delete_eq.
Qed.

Lemma handleCallback_signs_in_witness :
  exists b',
    AuthFlow.handleCallback Samples.engine "code" "state" Samples.window Web.init =
      (Ret tt, b') /\
    b_href b' = ["/"] /\
    b_sent b' = [exchangeRequest Samples.window "code"; AuthFlow.userRequest "secret"] /\
    b_errors b' = [] /\
    b_storage b' !! AlmAuth.ACCESS_TOKEN = Some "secret" /\
    b_storage b' !! AlmAuth.USER_INFO = Some "{}" /\
    b_storage b' !! AuthFlow.AUTH_RETURN_URL = None.
Proof.
  apply (handleCallback_signs_in Samples.engine "code" "state" Samples.window Web.init
           {| res_ok := true; res_status := 200; res_statusText := "OK"; res_text := EmptyString;
              res_json := Some Samples.tokenData |}
           {| res_ok := true; res_status := 200; res_statusText := "OK"; res_text := EmptyString;
              res_json := Some Samples.courseWithModule |}
           Samples.tokenData Samples.courseWithModule "secret" 600);
    first [reflexivity | discriminate].
Defined.
Lemma getAccessToken_some (E : Engine) (storage : gmap string string) (currentTime : Z)
    (token : string) :
  AlmAuth.getAccessToken E storage currentTime = Some token ->
  storage !! AlmAuth.ACCESS_TOKEN = Some token /\ token <> "" /\
  (AlmAuth.missing (storage !! AlmAuth.ACCESS_TOKEN) ||
   AlmAuth.missing (storage !! AlmAuth.TOKEN_EXPIRY))%bool = false.
Proof.
  unfold AlmAuth.getAccessToken, AlmAuth.isAuthenticated.
  destruct (_ || _)%bool eqn:Hm; cbn [negb]; [discriminate|].
  destruct (storage !! AlmAuth.TOKEN_EXPIRY) as [e|]; [|discriminate].
  destruct (parseInt E e); [|discriminate].
  destruct (_ <? _); cbn [negb]; [|discriminate].
  intros H. split; [exact H|]. split; [|reflexivity].
  rewrite H in Hm. cbn [AlmAuth.missing] in Hm. apply orb_false_elim in Hm as [Hm _].
  intros ->. discriminate Hm.
Qed.

Lemma header_setHeader (name k v : string) (headers : list (string * string)) :
  AuthFlow.header name (AuthFlow.setHeader k v headers) =
  if String.eqb k name then Some v else AuthFlow.header name headers.
Proof.
  induction headers as [|[k0 v0] rest IH]; simpl; [reflexivity|].
  destruct (String.eqb_spec k0 k) as [->|Hk]; simpl.
  - destruct (String.eqb k name); reflexivity.
  - rewrite IH. destruct (String.eqb_spec k0 name) as [->|]; [|reflexivity].
    destruct (String.eqb_spec k name); [congruence | reflexivity].
Qed.

Lemma header_snoc (name k v : string) (headers : list (string * string)) :
  AuthFlow.header name (headers ++ [(k, v)]) =
  match AuthFlow.header name headers with
  | Some found => Some found
  | None => if String.eqb k name then Some v else None
  end.
Proof.
  induction headers as [|[k0 v0] rest IH]; simpl; [reflexivity|].
  destruct (String.eqb k0 name); [reflexivity | exact IH].
Qed.

(** A header of the options wins over the one the function sets. *)
Lemma header_spreadHeaders (name : string) (more headers : list (string * string)) :
  AuthFlow.header name (AuthFlow.spreadHeaders headers more) =
  match AuthFlow.header name (rev more) with
  | Some given => Some given
  | None => AuthFlow.header name headers
  end.
Proof.
  unfold AuthFlow.spreadHeaders. revert headers.
  induction more as [|[k v] rest IH]; intros headers; simpl; [reflexivity|].
  rewrite IH, header_snoc, header_setHeader.
  destruct (AuthFlow.header name (rev rest)); [reflexivity|].
  destruct (String.eqb k name); reflexivity.
Qed.

Lemma redirectToLogin_run {A : Type} (win : Window) (b : Browser) :
  exists b',
    @AuthFlow.redirectToLogin A win b = (Ret None, b') /\
    b_storage b' = <[AuthFlow.AUTH_RETURN_URL := win_pathname win]> (b_storage b) /\
    b_href b' = b_href b ++ [authorizationUrl win (b_draws b)] /\
    b_sent b' = b_sent b /\ b_errors b' = b_errors b.
Proof. eexists. split; [reflexivity|]. repeat split. Qed.

Lemma fetch_answered (r : Request) (win : Window) (b : Browser) (resp : FetchResponse) :
  win_network win (List.length (b_sent b)) r = Responded resp ->
  Web.fetch r win b = (Ret resp, sending r b).
Proof. unfold Web.fetch. now intros ->. Qed.

Lemma fetch_failed (r : Request) (win : Window) (b : Browser) (msg : string) :
  win_network win (List.length (b_sent b)) r = NetworkError msg ->
  Web.fetch r win b = (Throw msg, sending r b).
Proof. unfold Web.fetch. now intros ->. Qed.

(** X27: with a valid token in
    the session storage and an answer whose status is not 401,
    `makeAuthenticatedRequest` sends exactly one request and returns its
    response, leaving the session storage and the location alone. The URL
    is the endpoint when it starts with 'http' and the API base followed by
    the endpoint otherwise; the headers are `Authorization: oauth <token>`
    and `Accept: application/vnd.api+json` overridden by every header of
    the options, the Authorization header included. *)
Theorem makeAuthenticatedRequest_authenticated (E : Engine) (endpoint : string)
    (options : Options) (win : Window) (b : Browser) (token : string) (resp : FetchResponse) :
  let request := AuthFlow.requestOf endpoint options (authHeaders token options) in
  AlmAuth.getAccessToken E (b_storage b) (win_now win (b_reads b)) = Some token ->
  win_network win (List.length (b_sent b)) request = Responded resp ->
  res_status resp <> 401 ->
  exists b',
    AuthFlow.makeAuthenticatedRequest E endpoint options win b = (Ret (Some resp), b') /\
    b_sent b' = b_sent b ++ [request] /\
    b_storage b' = b_storage b /\
    b_href b' = b_href b /\
    req_url request =
      (if Str.startsWith "http" endpoint then endpoint else AuthFlow.apiBaseUrl +:+ endpoint) /\
    forall name,
      AuthFlow.header name (req_headers request) =
      match AuthFlow.header name (rev (opt_headers options)) with
      | Some given => Some given
      | None =>
          AuthFlow.header name [("Authorization", "oauth " +:+ token);
                                ("Accept", "application/vnd.api+json")]
      end.
Proof.
  intros request Hget Hnet Hstatus.
  destruct (getAccessToken_some _ _ _ _ Hget) as (_ & Hne & Hstored).
  destruct (checked_fields b) as (Hc1 & Hc2 & Hc3 & Hc4).
  unfold AuthFlow.makeAuthenticatedRequest.
  rewrite (bindS_run _ _ _ _ _ _ (getAccessToken_run E win b)), Hget.
  cbn [AlmAuth.missing]. destruct (String.eqb_spec token ""); [contradiction|].
  cbn [bindS retS AuthFlow.itemValue]. unfold AuthFlow.requestWith. cbn [Js.toStr].
  fold (authHeaders token options). fold request.
  rewrite <- Hc3 in Hnet.
  rewrite (bindS_run _ _ _ _ _ _ (fetch_answered _ _ _ _ Hnet)).
  destruct (Z.eqb_spec (res_status resp) 401); [contradiction|].
  eexists. split; [reflexivity|]. cbn. rewrite Hc1, Hc2, Hc3.
  repeat split. intros name. apply header_spreadHeaders.
Qed.

Lemma makeAuthenticatedRequest_authenticated_witness :
  exists b',
    AuthFlow.makeAuthenticatedRequest Samples.engine "/learningObjects"
      {| opt_method := None; opt_headers := []; opt_body := None |}
      Samples.window Samples.signedIn =
      (Ret (Some {| res_ok := true; res_status := 200; res_statusText := "OK";
                    res_text := EmptyString; res_json := Some Samples.courseWithModule |}), b') /\
    b_sent b' =
      [{| req_method := "GET";
          req_url := "https://learningmanager.adobe.com/primeapi/v2/learningObjects";
          req_headers := [("Authorization", "oauth secret");
                          ("Accept", "application/vnd.api+json")];
          req_body := None |}].
Proof.
  destruct (makeAuthenticatedRequest_authenticated Samples.engine "/learningObjects"
              {| opt_method := None; opt_headers := []; opt_body := None |}
              Samples.window Samples.signedIn "secret"
              {| res_ok := true; res_status := 200; res_statusText := "OK";
                 res_text := EmptyString; res_json := Some Samples.courseWithModule |}
              eq_refl eq_refl)
    as (b' & Hrun & Hsent & _).
  - discriminate.
  - exists b'. split; [exact Hrun | exact Hsent].
Defined.
Lemma checked_draws (b : Browser) : b_draws (checked b) = b_draws b.
Proof. unfold checked. now destruct (tokenStored b). Qed.

(** What both `try` blocks of `makeAuthenticatedRequest` do: either the
    token is refreshed and stored, with one request, or the login starts. *)
Lemma refreshed_or_redirected {A : Type} (f : JsVal -> A) (E : Engine) (win : Window)
    (b : Browser) :
  exists outcome b' sent,
    catchS
      (let! tokenData := AuthFlow.refreshAccessToken in
       let! _ := AuthFlow.storeTokens E tokenData in
       retS (Some (f tokenData)))
      (fun error => AuthFlow.redirectToLogin) win b = (Ret outcome, b') /\
    b_sent b' = b_sent b ++ sent /\ (List.length sent <= 1)%nat /\
    match outcome with
    | None =>
        b_href b' = b_href b ++ [authorizationUrl win (b_draws b)] /\
        b_storage b' !! AuthFlow.AUTH_RETURN_URL = Some (win_pathname win)
    | Some _ => b_href b' = b_href b /\ b_draws b' = b_draws b
    end.
Proof.
  unfold catchS.
  pose proof (refreshAccessToken_run win b) as Hr.
  destruct (b_storage b !! AlmAuth.REFRESH_TOKEN) as [token|].
  2:{ rewrite (bindS_throw _ _ _ _ _ _ Hr).
      exists None. eexists. exists []. split; [reflexivity|]. cbn.
      rewrite app_nil_r. repeat split; auto. apply lookup_insert_eq. }
  destruct (String.eqb token "").
  { rewrite (bindS_throw _ _ _ _ _ _ Hr).
    exists None. eexists. exists []. split; [reflexivity|]. cbn.
    rewrite app_nil_r. repeat split; auto. apply lookup_insert_eq. }
  destruct (bodyOf _ _) as [tokenData|msg].
  2:{ rewrite (bindS_throw _ _ _ _ _ _ Hr).
      exists None. eexists. exists [refreshRequest win token]. split; [reflexivity|]. cbn.
      repeat split; auto. apply lookup_insert_eq. }
  rewrite (bindS_run _ _ _ _ _ _ Hr).
  pose proof (storeTokens_run E tokenData win (sending (refreshRequest win token) b)) as Hs.
  destruct (AlmAuth.storeTokens E tokenData _ _) as [stored|msg].
  - rewrite (bindS_run _ _ _ _ _ _ Hs).
    exists (Some (f tokenData)). eexists. exists [refreshRequest win token].
    split; [reflexivity|]. cbn. repeat split; auto.
  - rewrite (bindS_throw _ _ _ _ _ _ Hs).
    exists None. eexists. exists [refreshRequest win token]. split; [reflexivity|]. cbn.
    repeat split; auto. apply lookup_insert_eq.
Qed.

(** The function from `const url` on. *)
Lemma requestWith_outcome (E : Engine) (endpoint : string) (options : Options) (token : JsVal)
    (win : Window) (b : Browser) :
  exists outcome b' sent,
    AuthFlow.requestWith E endpoint options token win b = (outcome, b') /\
    b_sent b' = b_sent b ++ sent /\
    (List.length sent <= 3)%nat /\
    match outcome with
    | Ret None =>
        b_href b' = b_href b ++ [authorizationUrl win (b_draws b)] /\
        b_storage b' !! AuthFlow.AUTH_RETURN_URL = Some (win_pathname win)
    | Ret (Some _) => b_href b' = b_href b
    | Throw msg =>
        b_href b' = b_href b /\
        exists before request,
          sent = before ++ [request] /\
          req_url request = AuthFlow.urlOf endpoint /\
          win_network win (List.length (b_sent b ++ before)) request = NetworkError msg
    end.
Proof.
  unfold AuthFlow.requestWith. cbv zeta.
  set (headers := AuthFlow.spreadHeaders _ _).
  set (request := AuthFlow.requestOf endpoint options headers).
  destruct (win_network win (List.length (b_sent b)) request) as [msg|response] eqn:Hnet.
  { rewrite (bindS_throw _ _ _ _ _ _ (fetch_failed _ _ _ _ Hnet)).
    eexists _, _, [request]. split; [reflexivity|]. cbn. repeat split; auto.
    exists [], request. rewrite app_nil_r. auto. }
  rewrite (bindS_run _ _ _ _ _ _ (fetch_answered _ _ _ _ Hnet)).
  destruct (res_status response =? 401).
  2:{ eexists _, _, [request]. split; [reflexivity|]. cbn. repeat split; auto. }
  destruct (refreshed_or_redirected
              (fun tokenData =>
                 AuthFlow.setHeader "Authorization"
                   ("oauth " +:+ Js.toStr (Js.getProp tokenData "access_token")) headers)
              E win (sending request b))
    as (again & b1 & sent1 & Hrun & Hsent1 & Hlen1 & Hagain).
  rewrite (bindS_run _ _ _ _ _ _ Hrun).
  cbn [b_sent b_href b_draws sending] in Hsent1, Hagain.
  destruct again as [headers'|].
  - destruct Hagain as [Hhref Hdraws].
    set (second := AuthFlow.requestOf endpoint options headers').
    destruct (win_network win (List.length (b_sent b1)) second) as [msg|response2] eqn:Hnet2.
    + rewrite (bindS_throw _ _ _ _ _ _ (fetch_failed _ _ _ _ Hnet2)).
      eexists _, _, (request :: sent1 ++ [second]). split; [reflexivity|]. cbn.
      rewrite Hsent1, <- !app_assoc. split; [reflexivity|].
      split; [rewrite length_app; simpl; lia|]. split; [exact Hhref|].
      exists (request :: sent1), second. split; [reflexivity|]. split; [reflexivity|].
      rewrite <- Hnet2, Hsent1, <- app_assoc. reflexivity.
    + rewrite (bindS_run _ _ _ _ _ _ (fetch_answered _ _ _ _ Hnet2)).
      eexists _, _, (request :: sent1 ++ [second]). split; [reflexivity|]. cbn.
      rewrite Hsent1, <- !app_assoc. split; [reflexivity|].
      split; [rewrite length_app; simpl; lia | exact Hhref].
  - eexists _, _, (request :: sent1). split; [reflexivity|].
    rewrite Hsent1, <- app_assoc. split; [reflexivity|]. split; [simpl; lia | exact Hagain].
Qed.

(** X28: what a caller of
    `makeAuthenticatedRequest` can rely on, whatever the storage holds and
    the network answers. The function sends at most four requests. It
    returns undefined exactly when it has started the login: then it has
    navigated once, to the authorization URL, and stored the path of the
    page as return URL. When it returns a response or throws it has not
    navigated; and it throws only the network failure of the last request
    it sent, which went to the URL of the endpoint. *)
Theorem makeAuthenticatedRequest_returns_or_redirects (E : Engine) (endpoint : string)
    (options : Options) (win : Window) (b : Browser) :
  exists outcome b' sent,
    AuthFlow.makeAuthenticatedRequest E endpoint options win b = (outcome, b') /\
    b_sent b' = b_sent b ++ sent /\
    (List.length sent <= 4)%nat /\
    match outcome with
    | Ret None =>
        b_href b' = b_href b ++ [authorizationUrl win (b_draws b)] /\
        b_storage b' !! AuthFlow.AUTH_RETURN_URL = Some (win_pathname win)
    | Ret (Some _) => b_href b' = b_href b
    | Throw msg =>
        b_href b' = b_href b /\
        exists before request,
          sent = before ++ [request] /\
          req_url request = AuthFlow.urlOf endpoint /\
          win_network win (List.length (b_sent b ++ before)) request = NetworkError msg
    end.
Proof.
  destruct (checked_fields b) as (Hc1 & Hc2 & Hc3 & Hc4).
  pose proof (checked_draws b) as Hc5.
  unfold AuthFlow.makeAuthenticatedRequest.
  rewrite (bindS_run _ _ _ _ _ _ (getAccessToken_run E win b)).
  set (stored := AlmAuth.getAccessToken E (b_storage b) (win_now win (b_reads b))).
  destruct (AlmAuth.missing stored).
  - destruct (refreshed_or_redirected (fun tokenData => Js.getProp tokenData "access_token")
                E win (checked b))
      as (token & b1 & sent1 & Hrun & Hsent1 & Hlen1 & Htoken).
    rewrite (bindS_run _ _ _ _ _ _ Hrun).
    rewrite Hc2, Hc3, Hc5 in *.
    destruct token as [token|].
    + destruct Htoken as [Hhref Hdraws].
      destruct (requestWith_outcome E endpoint options token win b1)
        as (outcome & b' & sent2 & -> & Hsent2 & Hlen2 & Hout).
      exists outcome, b', (sent1 ++ sent2).
      split; [reflexivity|]. rewrite Hsent2, Hsent1, <- app_assoc.
      split; [reflexivity|]. split; [rewrite length_app; lia|].
      rewrite Hhref, Hdraws, Hsent1 in Hout.
      destruct outcome as [[response|]|msg]; try exact Hout.
      destruct Hout as (Hh & before & request & -> & Hurl & Hnet).
      split; [exact Hh|]. exists (sent1 ++ before), request.
      rewrite <- !app_assoc in *. auto.
    + eexists _, _, sent1. split; [reflexivity|]. split; [exact Hsent1|].
      split; [lia | exact Htoken].
  - cbn [bindS retS].
    destruct (requestWith_outcome E endpoint options (AuthFlow.itemValue stored) win (checked b))
      as (outcome & b' & sent2 & -> & Hsent2 & Hlen2 & Hout).
    rewrite Hc2, Hc3, Hc5 in *.
    exists outcome, b', sent2. split; [reflexivity|]. split; [exact Hsent2|].
    split; [lia | exact Hout].
Qed.
Lemma catchS_throw {A : Type} (m : Script A) (handler : string -> Script A) (win : Window)
    (b b' : Browser) (msg : string) :
  m win b = (Throw msg, b') -> catchS m handler win b = handler msg win b'.
Proof. unfold catchS. now intros ->. Qed.

Lemma catchS_ret {A : Type} (m : Script A) (handler : string -> Script A) (win : Window)
    (b b' : Browser) (a : A) :
  m win b = (Ret a, b') -> catchS m handler win b = (Ret a, b').
Proof. unfold catchS. now intros ->. Qed.

(** X29: without a valid access
    token and without a refresh token, `makeAuthenticatedRequest` sends
    nothing: it stores the path of the page under 'auth_return_url',
    navigates to the authorization URL (with a state of two fresh random
    texts) and returns undefined. *)
Theorem makeAuthenticatedRequest_starts_login (E : Engine) (endpoint : string)
    (options : Options) (win : Window) (b : Browser) :
  AlmAuth.getAccessToken E (b_storage b) (win_now win (b_reads b)) = None ->
  AlmAuth.missing (b_storage b !! AlmAuth.REFRESH_TOKEN) = true ->
  exists b',
    AuthFlow.makeAuthenticatedRequest E endpoint options win b = (Ret None, b') /\
    b_sent b' = b_sent b /\
    b_href b' = b_href b ++ [authorizationUrl win (b_draws b)] /\
    b_storage b' = <[AuthFlow.AUTH_RETURN_URL := win_pathname win]> (b_storage b).
Proof.
  intros Hget Hrefresh.
  destruct (checked_fields b) as (Hc1 & Hc2 & Hc3 & Hc4).
  pose proof (checked_draws b) as Hc5.
  unfold AuthFlow.makeAuthenticatedRequest.
  rewrite (bindS_run _ _ _ _ _ _ (getAccessToken_run E win b)), Hget.
  cbn [AlmAuth.missing].
  pose proof (refreshAccessToken_run win (checked b)) as Hr.
  rewrite Hc1 in Hr.
  assert (Hthrow : AuthFlow.refreshAccessToken win (checked b) =
                   (Throw "Error: No refresh token available", checked b)).
  { destruct (b_storage b !! AlmAuth.REFRESH_TOKEN) as [token|]; [|exact Hr].
    cbn [AlmAuth.missing] in Hrefresh. now rewrite Hrefresh in Hr. }
  destruct (@redirectToLogin_run JsVal win (checked b))
    as (b1 & Hredirect & Hstorage & Hhref & Hsent & _).
  assert (Hcatch :
            catchS
              (let! tokenData := AuthFlow.refreshAccessToken in
               let! _ := AuthFlow.storeTokens E tokenData in
               retS (Some (Js.getProp tokenData "access_token")))
              (fun _ => AuthFlow.redirectToLogin) win (checked b) = (Ret None, b1)).
  { rewrite (catchS_throw _ _ _ _ _ _ (bindS_throw _ _ _ _ _ _ Hthrow)). exact Hredirect. }
  rewrite (bindS_run _ _ _ _ _ _ Hcatch).
  exists b1. split; [reflexivity|]. rewrite Hsent, Hhref, Hstorage, Hc1, Hc2, Hc3, Hc5.
  repeat split.
Qed.

Lemma makeAuthenticatedRequest_starts_login_witness :
  exists b',
    AuthFlow.makeAuthenticatedRequest Samples.engine "/learningObjects"
      {| opt_method := None; opt_headers := []; opt_body := None |}
      Samples.window Web.init = (Ret None, b') /\
    b_sent b' = [] /\
    b_href b' = [authorizationUrl Samples.window 0] /\
    b_storage b' = <[AuthFlow.AUTH_RETURN_URL := "/courses"]> ∅.
Proof.
  apply (makeAuthenticatedRequest_starts_login Samples.engine "/learningObjects"
           {| opt_method := None; opt_headers := []; opt_body := None |}
           Samples.window Web.init); reflexivity.
Defined.
(** X30: after a 401 the
    request is repeated once with a refreshed token. With a valid token, a
    first answer of status 401, a refresh token in the storage and a token
    endpoint that answers ok with token data whose `expires_in` is a
    number, `makeAuthenticatedRequest` sends three requests (the request,
    the refresh, the request again), stores the new access token and does
    not navigate. The second request carries `Authorization: oauth <new
    token>` even when the options had their own Authorization header. Its
    response is returned whatever its status, and its network failure is
    thrown, not turned into a login. *)
Theorem makeAuthenticatedRequest_retries_after_401 (E : Engine) (endpoint : string)
    (options : Options) (win : Window) (b : Browser) (token refreshToken : string)
    (resp1 resp2 : FetchResponse) (tokenData : JsVal) (lifetime : Z) :
  let request1 := AuthFlow.requestOf endpoint options (authHeaders token options) in
  let renewed := Js.toStr (Js.getProp tokenData "access_token") in
  let request2 :=
    AuthFlow.requestOf endpoint options
      (AuthFlow.setHeader "Authorization" ("oauth " +:+ renewed) (authHeaders token options)) in
  AlmAuth.getAccessToken E (b_storage b) (win_now win (b_reads b)) = Some token ->
  win_network win (List.length (b_sent b)) request1 = Responded resp1 ->
  res_status resp1 = 401 ->
  b_storage b !! AlmAuth.REFRESH_TOKEN = Some refreshToken ->
  refreshToken <> "" ->
  win_network win (S (List.length (b_sent b))) (refreshRequest win refreshToken) =
    Responded resp2 ->
  res_ok resp2 = true ->
  res_json resp2 = Some tokenData ->
  Js.getProp tokenData "expires_in" = JNum lifetime ->
  exists b',
    AuthFlow.makeAuthenticatedRequest E endpoint options win b =
      (match win_network win (S (S (List.length (b_sent b)))) request2 with
       | Responded second => Ret (Some second)
       | NetworkError msg => Throw msg
       end, b') /\
    b_sent b' = b_sent b ++ [request1; refreshRequest win refreshToken; request2] /\
    b_href b' = b_href b /\
    b_storage b' !! AlmAuth.ACCESS_TOKEN = Some renewed /\
    AuthFlow.header "Authorization" (req_headers request2) = Some ("oauth " +:+ renewed).
Proof.
  intros request1 renewed request2 Hget Hnet1 Hstatus Hrefresh Hne Hnet2 Hok Hjson Hlife.
  destruct (getAccessToken_some _ _ _ _ Hget) as (_ & Htoken & _).
  destruct (checked_fields b) as (Hc1 & Hc2 & Hc3 & Hc4).
  unfold AuthFlow.makeAuthenticatedRequest.
  rewrite (bindS_run _ _ _ _ _ _ (getAccessToken_run E win b)), Hget.
  cbn [AlmAuth.missing]. destruct (String.eqb_spec token ""); [contradiction|].
  cbn [bindS retS AuthFlow.itemValue]. unfold AuthFlow.requestWith. cbn [Js.toStr].
  fold (authHeaders token options). fold request1.
  rewrite <- Hc3 in Hnet1.
  rewrite (bindS_run _ _ _ _ _ _ (fetch_answered _ _ _ _ Hnet1)).
  rewrite Hstatus. cbn [Z.eqb Pos.eqb].
  set (b1 := sending request1 (checked b)).
  assert (Hs1 : b_sent b1 = b_sent b ++ [request1]) by (cbn; now rewrite Hc3).
  pose proof (refreshAccessToken_run win b1) as Hr.
  cbn [b_storage b1 sending] in Hr. rewrite Hc1, Hrefresh in Hr.
  destruct (String.eqb_spec refreshToken ""); [contradiction|].
  rewrite Hs1, length_app, Nat.add_1_r in Hr. cbn [List.length] in Hr.
  rewrite Hnet2 in Hr. cbn [bodyOf] in Hr. rewrite Hok, Hjson in Hr.
  set (b2 := sending (refreshRequest win refreshToken) b1) in *.
  destruct (storeTokens_returns E tokenData lifetime (win_now win (b_reads b2)) (b_storage b2)
              Hlife) as (stored & Hstore).
  pose proof (storeTokens_run E tokenData win b2) as Hs. rewrite Hstore in Hs.
  assert (Hcatch :
            catchS
              (let! tokenData := AuthFlow.refreshAccessToken in
               let! _ := AuthFlow.storeTokens E tokenData in
               retS (Some (AuthFlow.setHeader "Authorization"
                             ("oauth " +:+ Js.toStr (Js.getProp tokenData "access_token"))
                             (authHeaders token options))))
              (fun _ => AuthFlow.redirectToLogin) win b1 =
            (Ret (Some (AuthFlow.setHeader "Authorization" ("oauth " +:+ renewed)
                          (authHeaders token options))),
             Web.withStorage stored (reading b2))).
  { apply catchS_ret. rewrite (bindS_run _ _ _ _ _ _ Hr).
    now rewrite (bindS_run _ _ _ _ _ _ Hs). }
  rewrite (bindS_run _ _ _ _ _ _ Hcatch). fold request2.
  assert (Hs2 : b_sent (Web.withStorage stored (reading b2)) =
                b_sent b ++ [request1; refreshRequest win refreshToken]).
  { cbn. rewrite Hc3, <- app_assoc. reflexivity. }
  assert (Hlen : List.length (b_sent (Web.withStorage stored (reading b2))) =
                 S (S (List.length (b_sent b)))).
  { rewrite Hs2, length_app. simpl. lia. }
  assert (Haccess : stored !! AlmAuth.ACCESS_TOKEN = Some renewed).
  { apply storeTokens_Ret in Hstore. cbv zeta in Hstore. subst stored.
    destruct (Js.truthy _);
      repeat (rewrite lookup_insert_ne by discriminate); apply lookup_insert_eq. }
  assert (Hheader : AuthFlow.header "Authorization" (req_headers request2) =
                    Some ("oauth " +:+ renewed)).
  { unfold request2. cbn [req_headers AuthFlow.requestOf]. now rewrite header_setHeader. }
  destruct (win_network win (S (S (List.length (b_sent b)))) request2) as [msg|second] eqn:Hnet3;
    rewrite <- Hlen in Hnet3.
  - rewrite (bindS_throw _ _ _ _ _ _ (fetch_failed _ _ _ _ Hnet3)).
    eexists. split; [reflexivity|]. cbn. rewrite Hc2, Hc3, <- !app_assoc.
    repeat split; auto.
  - rewrite (bindS_run _ _ _ _ _ _ (fetch_answered _ _ _ _ Hnet3)).
    eexists. split; [reflexivity|]. cbn. rewrite Hc2, Hc3, <- !app_assoc.
    repeat split; auto.
Qed.

Lemma makeAuthenticatedRequest_retries_after_401_witness :
  exists b',
    AuthFlow.makeAuthenticatedRequest Samples.engine "/learningObjects"
      {| opt_method := None; opt_headers := [("Authorization", "Basic abc")]; opt_body := None |}
      Samples.refusingWindow Samples.signedIn =
      (Ret (Some {| res_ok := true; res_status := 200; res_statusText := "OK";
                    res_text := EmptyString; res_json := Some Samples.courseWithModule |}), b') /\
    List.map (fun r => AuthFlow.header "Authorization" (req_headers r)) (b_sent b') =
      [Some "Basic abc"; None; Some "oauth secret"].
Proof.
  destruct (makeAuthenticatedRequest_retries_after_401 Samples.engine "/learningObjects"
              {| opt_method := None; opt_headers := [("Authorization", "Basic abc")];
                 opt_body := None |}
              Samples.refusingWindow Samples.signedIn "secret" "refresh"
              {| res_ok := false; res_status := 401; res_statusText := "Unauthorized";
                 res_text := EmptyString; res_json := None |}
              {| res_ok := true; res_status := 200; res_statusText := "OK";
                 res_text := EmptyString; res_json := Some Samples.tokenData |}
              Samples.tokenData 600)
    as (b' & Hrun & Hsent & _); try reflexivity; try discriminate.
  exists b'. split; [exact Hrun|]. rewrite Hsent. reflexivity.
Defined.
